(** * Session tokens and the credential gate of horshohei/speech

    A shallow embedding of [src/lib/sessionToken.ts], [src/lib/auth/basic.ts]
    (with the small schema validator that ships next to it) and the
    [/api/session] route, followed by the properties the specification
    states about them and by further properties of the code.

    Conventions of the embedding.

    - A JavaScript string is a [string]: the sequence of its UTF-8 bytes.
      On ASCII text a byte is also a UTF-16 code unit, so [length] and
      [charCodeAt] are the JavaScript ones there.  [Buffer.from(s)] and
      [buf.toString("utf8")] are then the identity (ill-formed UTF-8, which
      Node replaces with U+FFFD, is kept as it is).
    - A JavaScript number is an exact decimal [m * 10^(-k)], or [NaN], or an
      infinity.  Integers below 2^53 and the arithmetic done on them here are
      exact in IEEE-754 as well; rounding of other values is not modelled.
    - A [Date] is its time value in milliseconds, an integer; the invalid
      date only arises where the code builds a date from a number and is
      modelled there.
    - Exceptions are values of [exn] carried by the [result] monad.
    - The clock, the environment and the random identifier, which the source
      reads from the process, are fields of [ambient]. *)

From Stdlib Require Import ZArith NArith List String Ascii Bool Lia.
From Stdlib Require Import DecimalString DecimalFacts DecimalPos DecimalN.
Import ListNotations.

Local Open Scope string_scope.
Local Open Scope Z_scope.

(* ================================================================= *)
(** ** Exceptions *)

Record ZodIssue := mkIssue { issue_path : list string; issue_message : string }.

Inductive exn :=
| TokenInvalidError (message : string)
| TokenExpiredError (message : string)
| ZodError (issues : list ZodIssue)
| RangeError (message : string)
| SyntaxError (message : string)
| TypeError (message : string).

Inductive result (A : Type) :=
| Return (a : A)
| Throw (e : exn).
Arguments Return {A} a.
Arguments Throw {A} e.

Definition bind {A B} (m : result A) (k : A -> result B) : result B :=
  match m with
  | Return a => k a
  | Throw e => Throw e
  end.

Definition try_catch {A} (m : result A) (handler : exn -> result A) : result A :=
  match m with
  | Return a => Return a
  | Throw e => handler e
  end.

Declare Scope js_scope.
Delimit Scope js_scope with js.
Notation "x <- m ;; k" := (bind m (fun x => k))
  (at level 61, m at next level, right associativity) : js_scope.
Notation "m ;;; k" := (bind m (fun _ => k))
  (at level 61, right associativity) : js_scope.

(* ================================================================= *)
(** ** Strings and bytes *)

(** The quotation mark, character 34. *)
Abbreviation DQ := (Ascii false true false false false true false false).

Module Str.

Definition code (c : ascii) : Z := Z.of_N (N_of_ascii c).
Definition chr (z : Z) : ascii := ascii_of_N (Z.to_N (z mod 256)).

Fixpoint codes (s : string) : list Z :=
  match s with
  | EmptyString => []
  | String c r => code c :: codes r
  end.

Fixpoint of_codes (l : list Z) : string :=
  match l with
  | [] => EmptyString
  | z :: r => String (chr z) (of_codes r)
  end.

Definition len (s : string) : Z := Z.of_nat (String.length s).

(** [s.split(sep)] for a one-character separator: never the empty list. *)
Fixpoint split (sep : ascii) (s : string) : list string :=
  match s with
  | EmptyString => [EmptyString]
  | String c r =>
      if Ascii.eqb c sep then EmptyString :: split sep r
      else match split sep r with
           | x :: xs => String c x :: xs
           | [] => [String c EmptyString]
           end
  end.

(** [s.indexOf(c)], [None] for -1. *)
Fixpoint indexOf (c : ascii) (s : string) : option nat :=
  match s with
  | EmptyString => None
  | String d r =>
      if Ascii.eqb d c then Some O
      else match indexOf c r with
           | Some i => Some (S i)
           | None => None
           end
  end.

(** [s.slice(i)] and [s.slice(0, i)] for [0 <= i]. *)
Fixpoint drop (n : nat) (s : string) : string :=
  match n, s with
  | O, _ => s
  | S n', String _ r => drop n' r
  | S _, EmptyString => EmptyString
  end.

Fixpoint take (n : nat) (s : string) : string :=
  match n, s with
  | S n', String c r => String c (take n' r)
  | _, _ => EmptyString
  end.

Fixpoint startsWith (p s : string) : bool :=
  match p, s with
  | EmptyString, _ => true
  | String a p', String b s' => Ascii.eqb a b && startsWith p' s'
  | String _ _, EmptyString => false
  end.

(** ASCII lower-casing.  A string with a character outside ASCII never
    lower-cases to ["basic"], so the comparison of a lower-cased string with
    that constant is the JavaScript one. *)
Definition lower (c : ascii) : ascii :=
  let n := code c in
  if (65 <=? n) && (n <=? 90) then chr (n + 32) else c.

Fixpoint toLowerCase (s : string) : string :=
  match s with
  | EmptyString => EmptyString
  | String c r => String (lower c) (toLowerCase r)
  end.

(** White space of [String.prototype.trim]: the length of the white-space
    character [s] starts with (0 when it starts with none).  ASCII TAB, LF,
    VT, FF, CR and SP, and the UTF-8 forms of U+00A0, U+1680, U+2000..200A,
    U+2028, U+2029, U+202F, U+205F, U+3000 and U+FEFF. *)
Definition ws_prefix (s : string) : nat :=
  match codes (take 3 s) with
  | 9 :: _ | 10 :: _ | 11 :: _ | 12 :: _ | 13 :: _ | 32 :: _ => 1%nat
  | 194 :: 160 :: _ => 2%nat
  | 225 :: 154 :: 128 :: _ => 3%nat
  | 226 :: 128 :: c :: _ =>
      if ((128 <=? c) && (c <=? 138)) || (c =? 168) || (c =? 169) || (c =? 175)
      then 3%nat else 0%nat
  | 226 :: 129 :: 159 :: _ => 3%nat
  | 227 :: 128 :: 128 :: _ => 3%nat
  | 239 :: 187 :: 191 :: _ => 3%nat
  | _ => 0%nat
  end.

(** [blank s]: [s] consists of white space only, that is [s.trim() === ""]. *)
Fixpoint blank_fuel (fuel : nat) (s : string) : bool :=
  match s with
  | EmptyString => true
  | String _ _ =>
      match fuel with
      | O => false
      | S f =>
          match ws_prefix s with
          | O => false
          | n => blank_fuel f (drop n s)
          end
      end
  end.

Definition blank (s : string) : bool := blank_fuel (String.length s) s.

Fixpoint trimStart_fuel (fuel : nat) (s : string) : string :=
  match fuel with
  | O => s
  | S f =>
      match ws_prefix s with
      | O => s
      | n => trimStart_fuel f (drop n s)
      end
  end.

Fixpoint trimEnd (s : string) : string :=
  match s with
  | EmptyString => EmptyString
  | String c r => if blank s then EmptyString else String c (trimEnd r)
  end.

Definition trim (s : string) : string :=
  trimEnd (trimStart_fuel (String.length s) s).

End Str.

(* ================================================================= *)
(** ** SHA-256 and HMAC (FIPS 180-4, RFC 2104), as [node:crypto] computes them *)

Module SHA256.

Definition two32 : Z := 4294967296.
Definition add32 (x y : Z) : Z := (x + y) mod two32.
Definition rotr (n x : Z) : Z :=
  Z.lor (Z.shiftr x n) ((Z.shiftl x (32 - n)) mod two32).
Definition shr (n x : Z) : Z := Z.shiftr x n.
Definition not32 (x : Z) : Z := two32 - 1 - x.

Definition Ch (x y z : Z) : Z := Z.lxor (Z.land x y) (Z.land (not32 x) z).
Definition Maj (x y z : Z) : Z :=
  Z.lxor (Z.lxor (Z.land x y) (Z.land x z)) (Z.land y z).
Definition bigsigma0 (x : Z) : Z := Z.lxor (Z.lxor (rotr 2 x) (rotr 13 x)) (rotr 22 x).
Definition bigsigma1 (x : Z) : Z := Z.lxor (Z.lxor (rotr 6 x) (rotr 11 x)) (rotr 25 x).
Definition smallsigma0 (x : Z) : Z := Z.lxor (Z.lxor (rotr 7 x) (rotr 18 x)) (shr 3 x).
Definition smallsigma1 (x : Z) : Z := Z.lxor (Z.lxor (rotr 17 x) (rotr 19 x)) (shr 10 x).

(** Round constants: the fractional parts of the cube roots of the first 64 primes. *)
Definition round_constants : list Z :=
  [ 1116352408; 1899447441; 3049323471; 3921009573; 961987163; 1508970993;
    2453635748; 2870763221; 3624381080; 310598401; 607225278; 1426881987;
    1925078388; 2162078206; 2614888103; 3248222580; 3835390401; 4022224774;
    264347078; 604807628; 770255983; 1249150122; 1555081692; 1996064986;
    2554220882; 2821834349; 2952996808; 3210313671; 3336571891; 3584528711;
    113926993; 338241895; 666307205; 773529912; 1294757372; 1396182291;
    1695183700; 1986661051; 2177026350; 2456956037; 2730485921; 2820302411;
    3259730800; 3345764771; 3516065817; 3600352804; 4094571909; 275423344;
    430227734; 506948616; 659060556; 883997877; 958139571; 1322822218;
    1537002063; 1747873779; 1955562222; 2024104815; 2227730452; 2361852424;
    2428436474; 2756734187; 3204031479; 3329325298 ].

Definition state : Type := (Z * Z * Z * Z * Z * Z * Z * Z)%type.

Definition initial_state : state :=
  (1779033703, 3144134277, 1013904242, 2773480762,
   1359893119, 2600822924, 528734635, 1541459225).

(** Message schedule: the 16 words of a block extended to 64. *)
Fixpoint schedule (n : nat) (W : list Z) : list Z :=
  match n with
  | O => W
  | S n' =>
      let t := List.length W in
      let w := add32 (add32 (smallsigma1 (nth (t - 2) W 0)) (nth (t - 7) W 0))
                     (add32 (smallsigma0 (nth (t - 15) W 0)) (nth (t - 16) W 0)) in
      schedule n' (W ++ [w])
  end.

Definition round (s : state) (kw : Z * Z) : state :=
  let '(a, b, c, d, e, f, g, h) := s in
  let '(k, w) := kw in
  let t1 := add32 (add32 (add32 h (bigsigma1 e)) (add32 (Ch e f g) k)) w in
  let t2 := add32 (bigsigma0 a) (Maj a b c) in
  (add32 t1 t2, a, b, c, add32 d t1, e, f, g).

Definition compress (s : state) (block : list Z) : state :=
  let '(a, b, c, d, e, f, g, h) := s in
  let '(a', b', c', d', e', f', g', h') :=
    fold_left round (combine round_constants (schedule 48 block)) s in
  (add32 a a', add32 b b', add32 c c', add32 d d',
   add32 e e', add32 f f', add32 g g', add32 h h').

(** Padding: a one bit, zeros, and the bit length on 64 bits. *)
Definition be_bytes (n : nat) (x : Z) : list Z :=
  map (fun i => (Z.shiftr x (8 * Z.of_nat i)) mod 256) (rev (seq 0 n)).

Definition pad (msg : list Z) : list Z :=
  let l := List.length msg in
  let zeros := ((64 - (l + 9) mod 64) mod 64)%nat in
  msg ++ [128] ++ repeat 0 zeros ++ be_bytes 8 (8 * Z.of_nat l).

Fixpoint words (fuel : nat) (bytes : list Z) : list Z :=
  match fuel, bytes with
  | S f, b0 :: b1 :: b2 :: b3 :: r =>
      (((b0 * 256 + b1) * 256 + b2) * 256 + b3) :: words f r
  | _, _ => []
  end.

Fixpoint blocks (fuel : nat) (ws : list Z) : list (list Z) :=
  match fuel, ws with
  | S f, _ :: _ => firstn 16 ws :: blocks f (skipn 16 ws)
  | _, _ => []
  end.

Definition digest_bytes (s : state) : string :=
  let '(a, b, c, d, e, f, g, h) := s in
  Str.of_codes (flat_map (be_bytes 4) [a; b; c; d; e; f; g; h]).

Definition sha256 (msg : string) : string :=
  let bytes := pad (Str.codes msg) in
  let ws := words (List.length bytes) bytes in
  digest_bytes (fold_left compress (blocks (List.length ws) ws) initial_state).

Definition xor_with (x : Z) (s : string) : string :=
  Str.of_codes (map (Z.lxor x) (Str.codes s)).

Definition block_key (key : string) : string :=
  let k := if (64 <? Str.len key) then sha256 key else key in
  k ++ Str.of_codes (repeat 0 (64 - String.length k)).

(** [createHmac("sha256", key).update(msg).digest()] *)
Definition hmac (key msg : string) : string :=
  let k := block_key key in
  sha256 (xor_with 92 k ++ sha256 (xor_with 54 k ++ msg)).

End SHA256.

(* ================================================================= *)
(** ** Base64 and base64url, as [Buffer] encodes and decodes them *)

Module Base64.

Definition alphabet_url : string :=
  "ABCDEFGHIJKLMNOPQRSTUVWXYZabcdefghijklmnopqrstuvwxyz0123456789-_".

Definition url_char (v : Z) : ascii :=
  match String.get (Z.to_nat v) alphabet_url with
  | Some c => c
  | None => "="%char
  end.

(** [buf.toString("base64url")]: no padding characters. *)
Fixpoint encode_url (s : string) : string :=
  match s with
  | EmptyString => EmptyString
  | String a EmptyString =>
      let a := Str.code a in
      String (url_char (a / 4)) (String (url_char (a mod 4 * 16)) EmptyString)
  | String a (String b EmptyString) =>
      let a := Str.code a in
      let b := Str.code b in
      String (url_char (a / 4))
        (String (url_char (a mod 4 * 16 + b / 16))
           (String (url_char (b mod 16 * 4)) EmptyString))
  | String a (String b (String c r)) =>
      let a := Str.code a in
      let b := Str.code b in
      let c := Str.code c in
      String (url_char (a / 4))
        (String (url_char (a mod 4 * 16 + b / 16))
           (String (url_char (b mod 16 * 4 + c / 64))
              (String (url_char (c mod 64)) (encode_url r))))
  end.

(** The decoding table of Node: both alphabets are accepted at once. *)
Definition unbase64 (c : ascii) : option Z :=
  let n := Str.code c in
  if (65 <=? n) && (n <=? 90) then Some (n - 65)
  else if (97 <=? n) && (n <=? 122) then Some (n - 71)
  else if (48 <=? n) && (n <=? 57) then Some (n + 4)
  else if (n =? 43) || (n =? 45) then Some 62
  else if (n =? 47) || (n =? 95) then Some 63
  else None.

(** Characters outside the alphabets are skipped; ["="] ends the input. *)
Fixpoint sextets (s : string) : list Z :=
  match s with
  | EmptyString => []
  | String c r =>
      if Ascii.eqb c "="%char then []
      else match unbase64 c with
           | Some v => v :: sextets r
           | None => sextets r
           end
  end.

Fixpoint bytes_of_sextets (l : list Z) : string :=
  match l with
  | s1 :: s2 :: s3 :: s4 :: r =>
      String (Str.chr (s1 * 4 + s2 / 16))
        (String (Str.chr (s2 mod 16 * 16 + s3 / 4))
           (String (Str.chr (s3 mod 4 * 64 + s4)) (bytes_of_sextets r)))
  | [s1; s2; s3] =>
      String (Str.chr (s1 * 4 + s2 / 16))
        (String (Str.chr (s2 mod 16 * 16 + s3 / 4)) EmptyString)
  | [s1; s2] => String (Str.chr (s1 * 4 + s2 / 16)) EmptyString
  | _ => EmptyString
  end.

(** [Buffer.from(s, "base64")] and [Buffer.from(s, "base64url")]: the same
    lenient decoder, which never throws. *)
Definition decode (s : string) : string := bytes_of_sextets (sextets s).

End Base64.

(** [createHmac("sha256", secret).update(msg).digest("base64url")] *)
Definition hmac_base64url (secret msg : string) : string :=
  Base64.encode_url (SHA256.hmac secret msg).

(* ================================================================= *)
(** ** Numbers *)

Module Num.

(** [Dec m k] is the number [m / 10^k]. *)
Inductive number :=
| Dec (m : Z) (k : nat)
| NaN
| Infinity (negative : bool).

Definition of_Z (z : Z) : number := Dec z 0.
Definition pow10 (k : nat) : Z := 10 ^ Z.of_nat k.

(** [a <= b] *)
Definition le (a b : number) : bool :=
  match a, b with
  | Dec m j, Dec n k => m * pow10 k <=? n * pow10 j
  | NaN, _ | _, NaN => false
  | Infinity true, _ => true
  | _, Infinity false => true
  | _, _ => false
  end.

(** [a + b] *)
Definition add (a b : number) : number :=
  match a, b with
  | Dec m j, Dec n k =>
      let s := Nat.max j k in
      Dec (m * pow10 (s - j) + n * pow10 (s - k)) s
  | NaN, _ | _, NaN => NaN
  | Infinity x, Infinity y => if Bool.eqb x y then Infinity x else NaN
  | Infinity x, Dec _ _ | Dec _ _, Infinity x => Infinity x
  end.

(** [a * b] *)
Definition mul (a b : number) : number :=
  match a, b with
  | Dec m j, Dec n k => Dec (m * n) (j + k)
  | NaN, _ | _, NaN => NaN
  | Infinity x, Infinity y => Infinity (xorb x y)
  | Infinity x, Dec n _ | Dec n _, Infinity x =>
      if n =? 0 then NaN else Infinity (xorb x (n <? 0))
  end.

(** [Math.min(a, b)] *)
Definition min (a b : number) : number :=
  match a, b with
  | NaN, _ | _, NaN => NaN
  | _, _ => if le a b then a else b
  end.

(** [!!a] *)
Definition truthy (a : number) : bool :=
  match a with
  | Dec m _ => negb (m =? 0)
  | NaN => false
  | Infinity _ => true
  end.

Definition is_finite (a : number) : bool :=
  match a with
  | Dec _ _ => true
  | _ => false
  end.

(** Decimal digits of a natural number. *)
Definition digits (n : Z) : string :=
  NilEmpty.string_of_uint (N.to_uint (Z.to_N n)).

Definition is_digit (c : ascii) : bool :=
  let n := Str.code c in (48 <=? n) && (n <=? 57).

Fixpoint span_digits (s : string) : string * string :=
  match s with
  | EmptyString => (EmptyString, EmptyString)
  | String c r =>
      if is_digit c
      then let '(d, rest) := span_digits r in (String c d, rest)
      else (EmptyString, s)
  end.

Definition digits_value (d : string) : Z :=
  match NilEmpty.uint_of_string d with
  | Some u => Z.of_N (N.of_uint u)
  | None => 0
  end.

Fixpoint zeros (n : nat) : string :=
  match n with
  | O => EmptyString
  | S n' => String "0" (zeros n')
  end.

(** Trailing zeros of [m / 10^k] removed from the fraction. *)
Fixpoint normalize (m : Z) (k : nat) : Z * nat :=
  match k with
  | O => (m, O)
  | S k' => if m mod 10 =? 0 then normalize (m / 10) k' else (m, k)
  end.

Fixpoint strip_zeros_end (s : string) : string :=
  match s with
  | EmptyString => EmptyString
  | String c r =>
      match strip_zeros_end r with
      | EmptyString => if Ascii.eqb c "0" then EmptyString else String c EmptyString
      | r' => String c r'
      end
  end.

Definition exponent_form (d : string) (n : Z) : string :=
  let e := n - 1 in
  let es := (if e <? 0 then "-" else "+") ++ digits (Z.abs e) in
  match d with
  | EmptyString => EmptyString
  | String c EmptyString => String c ("e" ++ es)
  | String c r => String c ("." ++ r ++ "e" ++ es)
  end.

(** Number::toString of ECMA-262 on the significant digits [d] of a value
    [0.d * 10^n]. *)
Definition magnitude_toString (d : string) (n : Z) : string :=
  let kd := Str.len d in
  if (kd <=? n) && (n <=? 21) then d ++ zeros (Z.to_nat (n - kd))
  else if (0 <? n) && (n <=? 21)
       then Str.take (Z.to_nat n) d ++ "." ++ Str.drop (Z.to_nat n) d
  else if (-6 <? n) && (n <=? 0) then "0." ++ zeros (Z.to_nat (- n)) ++ d
  else exponent_form d n.

(** [String(x)]; an integer below 10^21 is printed digit by digit. *)
Definition toString (x : number) : string :=
  match x with
  | NaN => "NaN"
  | Infinity false => "Infinity"
  | Infinity true => "-Infinity"
  | Dec m k =>
      let '(m', k') := normalize m k in
      if m' =? 0 then "0"
      else
        let D := digits (Z.abs m') in
        (if m' <? 0 then "-" else "") ++
        (if (k' =? 0)%nat && (Z.abs m' <? 10 ^ 21) then D
         else magnitude_toString (strip_zeros_end D) (Str.len D - Z.of_nat k'))
  end.

(** The value of [i.f] times [10^e], negated when [neg]. *)
Definition of_literal (neg : bool) (i f : string) (e : Z) : number :=
  let m := digits_value (i ++ f) in
  let m := if neg then - m else m in
  let k := String.length f in
  if e <? 0 then Dec m (k + Z.to_nat (- e))
  else if e <=? Z.of_nat k then Dec m (k - Z.to_nat e)
  else Dec (m * pow10 (Z.to_nat e - k)) 0.

(** The optional exponent part [e±ddd] of a literal. *)
Definition parse_exponent (s : string) : option (Z * string) :=
  match s with
  | String c r =>
      if Ascii.eqb c "e" || Ascii.eqb c "E" then
        let '(neg, r1) :=
          match r with
          | String "-" r' => (true, r')
          | String "+" r' => (false, r')
          | _ => (false, r)
          end in
        let '(d, r2) := span_digits r1 in
        match d with
        | EmptyString => None
        | _ => Some (if neg then - digits_value d else digits_value d, r2)
        end
      else Some (0, s)
  | EmptyString => Some (0, s)
  end.

(** The JSON number grammar: an optional minus sign, an integer part without
    leading zero, an optional fraction and an optional exponent. *)
Definition strip_minus (s : string) : bool * string :=
  match s with
  | String c r => if Ascii.eqb c "-" then (true, r) else (false, s)
  | EmptyString => (false, s)
  end.

Definition leading_zero (i : string) : bool :=
  match i with
  | String c (String _ _) => Ascii.eqb c "0"
  | _ => false
  end.

Definition parse_fraction (s : string) : option (string * string) :=
  match s with
  | String c r =>
      if Ascii.eqb c "." then
        let '(f, rest) := span_digits r in
        match f with
        | EmptyString => None
        | _ => Some (f, rest)
        end
      else Some (EmptyString, s)
  | EmptyString => Some (EmptyString, s)
  end.

Definition parse_json_number (s : string) : option (number * string) :=
  let '(neg, s1) := strip_minus s in
  let '(i, s2) := span_digits s1 in
  match i with
  | EmptyString => None
  | _ =>
      if leading_zero i then None
      else
        match parse_fraction s2 with
        | None => None
        | Some (f, s3) =>
            match parse_exponent s3 with
            | None => None
            | Some (e, s4) => Some (of_literal neg i f e, s4)
            end
        end
  end.

(** Digits in a base 2, 8 or 16, for the prefixed literals of StringToNumber. *)
Definition digit_in_base (base : Z) (c : ascii) : option Z :=
  let n := Str.code c in
  let v := if (48 <=? n) && (n <=? 57) then n - 48
           else if (97 <=? n) && (n <=? 102) then n - 87
           else if (65 <=? n) && (n <=? 70) then n - 55
           else 99 in
  if v <? base then Some v else None.

Fixpoint value_in_base (base : Z) (acc : Z) (s : string) : option Z :=
  match s with
  | EmptyString => Some acc
  | String c r =>
      match digit_in_base base c with
      | Some v => value_in_base base (acc * base + v) r
      | None => None
      end
  end.

(** StringToNumber of ECMA-262: the number a string converts to. *)
Definition of_string (s : string) : number :=
  let t := Str.trim s in
  let prefixed (base : Z) (r : string) :=
    match r with
    | EmptyString => NaN
    | _ => match value_in_base base 0 r with
           | Some v => Dec v 0
           | None => NaN
           end
    end in
  match t with
  | EmptyString => Dec 0 0
  | String "0" (String "x" r) | String "0" (String "X" r) => prefixed 16 r
  | String "0" (String "o" r) | String "0" (String "O" r) => prefixed 8 r
  | String "0" (String "b" r) | String "0" (String "B" r) => prefixed 2 r
  | _ =>
      let '(neg, t1) :=
        match t with
        | String "-" r => (true, r)
        | String "+" r => (false, r)
        | _ => (false, t)
        end in
      if String.eqb t1 "Infinity" then Infinity neg
      else
        let '(i, t2) := span_digits t1 in
        let '(f, t3) :=
          match t2 with
          | String "." r => span_digits r
          | _ => (EmptyString, t2)
          end in
        match (i ++ f)%string with
        | EmptyString => NaN
        | _ =>
            match parse_exponent t3 with
            | Some (e, EmptyString) => of_literal neg i f e
            | _ => NaN
            end
        end
  end.

(** ToIntegerOrInfinity on a finite number: truncation towards zero. *)
Definition trunc (m : Z) (k : nat) : Z := Z.quot m (pow10 k).

End Num.

(* ================================================================= *)
(** ** JSON values, [JSON.stringify] and [JSON.parse] *)

Module JSON.

Local Unset Elimination Schemes.

Inductive json :=
| JNull
| JBool (b : bool)
| JNum (n : Num.number)
| JStr (s : string)
| JArr (items : list json)
| JObj (members : list (string * json)).

Local Set Elimination Schemes.

(** Own properties in insertion order; a key occurs once. *)
Fixpoint set_member (k : string) (v : json) (ms : list (string * json))
  : list (string * json) :=
  match ms with
  | [] => [(k, v)]
  | (k', v') :: r =>
      if String.eqb k' k then (k', v) :: r else (k', v') :: set_member k v r
  end.

Fixpoint lookup (k : string) (ms : list (string * json)) : option json :=
  match ms with
  | [] => None
  | (k', v) :: r => if String.eqb k' k then Some v else lookup k r
  end.

Definition hex_digit (v : Z) : ascii :=
  if v <? 10 then Str.chr (48 + v) else Str.chr (87 + v).

(** QuoteJSONString, character by character. *)
Definition quote_char (c : ascii) : string :=
  let n := Str.code c in
  if n =? 34 then String "\" (String DQ EmptyString)
  else if n =? 92 then "\\"
  else if n =? 8 then "\b"
  else if n =? 12 then "\f"
  else if n =? 10 then "\n"
  else if n =? 13 then "\r"
  else if n =? 9 then "\t"
  else if n <? 32
       then "\u00" ++ String (hex_digit (n / 16)) (String (hex_digit (n mod 16)) EmptyString)
  else String c EmptyString.

Fixpoint quote_chars (s : string) : string :=
  match s with
  | EmptyString => EmptyString
  | String c r => quote_char c ++ quote_chars r
  end.

Definition quote (s : string) : string :=
  String DQ (quote_chars s ++ String DQ EmptyString).

Fixpoint join (sep : string) (l : list string) : string :=
  match l with
  | [] => EmptyString
  | [x] => x
  | x :: r => x ++ sep ++ join sep r
  end.

(** [JSON.stringify(v)] *)
Fixpoint stringify (v : json) : string :=
  match v with
  | JNull => "null"
  | JBool true => "true"
  | JBool false => "false"
  | JNum n => if Num.is_finite n then Num.toString n else "null"
  | JStr s => quote s
  | JArr items => "[" ++ join "," (map stringify items) ++ "]"
  | JObj members =>
      "{" ++ join "," (map (fun kv => quote (fst kv) ++ ":" ++ stringify (snd kv)) members)
          ++ "}"
  end.

Definition is_ws (c : ascii) : bool :=
  let n := Str.code c in (n =? 32) || (n =? 9) || (n =? 10) || (n =? 13).

Fixpoint skip_ws (s : string) : string :=
  match s with
  | EmptyString => EmptyString
  | String c r => if is_ws c then skip_ws r else s
  end.

Definition hex4 (a b c d : ascii) : option Z :=
  match Num.digit_in_base 16 a, Num.digit_in_base 16 b,
        Num.digit_in_base 16 c, Num.digit_in_base 16 d with
  | Some x, Some y, Some z, Some w => Some (((x * 16 + y) * 16 + z) * 16 + w)
  | _, _, _, _ => None
  end.

(** UTF-8 form of a code point (a lone surrogate is encoded like any other
    three-byte code point). *)
Definition utf8 (u : Z) : string :=
  if u <? 128 then Str.of_codes [u]
  else if u <? 2048 then Str.of_codes [192 + u / 64; 128 + u mod 64]
  else if u <? 65536
       then Str.of_codes [224 + u / 4096; 128 + u / 64 mod 64; 128 + u mod 64]
  else Str.of_codes [240 + u / 262144; 128 + u / 4096 mod 64;
                     128 + u / 64 mod 64; 128 + u mod 64].

Definition simple_escape (c : ascii) : option ascii :=
  let n := Str.code c in
  if (n =? 34) || (n =? 92) || (n =? 47) then Some c
  else if n =? 98 then Some (Str.chr 8)
  else if n =? 102 then Some (Str.chr 12)
  else if n =? 110 then Some (Str.chr 10)
  else if n =? 114 then Some (Str.chr 13)
  else if n =? 116 then Some (Str.chr 9)
  else None.

Definition prepend (x : string) (r : option (string * string))
  : option (string * string) :=
  match r with
  | Some (s, rest) => Some (x ++ s, rest)
  | None => None
  end.

(** The characters of a string literal after its opening quote, and what
    follows the closing quote. *)
Fixpoint parse_chars (s : string) : option (string * string) :=
  match s with
  | EmptyString => None
  | String c r =>
      if Ascii.eqb c DQ then Some (EmptyString, r)
      else if Ascii.eqb c "\" then
        match r with
        | EmptyString => None
        | String e r1 =>
            match simple_escape e with
            | Some x => prepend (String x EmptyString) (parse_chars r1)
            | None =>
                if Ascii.eqb e "u" then
                  match r1 with
                  | String h1 (String h2 (String h3 (String h4 r2))) =>
                      match hex4 h1 h2 h3 h4 with
                      | None => None
                      | Some u =>
                          let single := prepend (utf8 u) (parse_chars r2) in
                          if (55296 <=? u) && (u <? 56320) then
                            match r2 with
                            | String "\" (String "u"
                                (String l1 (String l2 (String l3 (String l4 r3))))) =>
                                match hex4 l1 l2 l3 l4 with
                                | Some v =>
                                    if (56320 <=? v) && (v <? 57344)
                                    then prepend
                                           (utf8 (65536 + (u - 55296) * 1024 + (v - 56320)))
                                           (parse_chars r3)
                                    else single
                                | None => single
                                end
                            | _ => single
                            end
                          else single
                      end
                  | _ => None
                  end
                else None
            end
        end
      else if Str.code c <? 32 then None
      else prepend (String c EmptyString) (parse_chars r)
  end.

Fixpoint parse_value (fuel : nat) (s : string) : option (json * string) :=
  match fuel with
  | O => None
  | S f =>
      match skip_ws s with
      | String "{" r =>
          match skip_ws r with
          | String "}" r' => Some (JObj [], r')
          | r' => parse_members f [] r'
          end
      | String "[" r =>
          match skip_ws r with
          | String "]" r' => Some (JArr [], r')
          | r' => parse_elements f [] r'
          end
      | String DQ r =>
          match parse_chars r with
          | Some (str, r') => Some (JStr str, r')
          | None => None
          end
      | String "t" (String "r" (String "u" (String "e" r))) => Some (JBool true, r)
      | String "f" (String "a" (String "l" (String "s" (String "e" r)))) =>
          Some (JBool false, r)
      | String "n" (String "u" (String "l" (String "l" r))) => Some (JNull, r)
      | s' =>
          match Num.parse_json_number s' with
          | Some (n, r) => Some (JNum n, r)
          | None => None
          end
      end
  end

(** Members of an object, from the opening quote of a key on. *)
with parse_members (fuel : nat) (acc : list (string * json)) (s : string)
  : option (json * string) :=
  match fuel with
  | O => None
  | S f =>
      match s with
      | String DQ r =>
          match parse_chars r with
          | None => None
          | Some (k, r1) =>
              match skip_ws r1 with
              | String ":" r2 =>
                  match parse_value f r2 with
                  | None => None
                  | Some (v, r3) =>
                      let acc' := set_member k v acc in
                      match skip_ws r3 with
                      | String "," r4 => parse_members f acc' (skip_ws r4)
                      | String "}" r4 => Some (JObj acc', r4)
                      | _ => None
                      end
                  end
              | _ => None
              end
          end
      | _ => None
      end
  end

with parse_elements (fuel : nat) (acc : list json) (s : string)
  : option (json * string) :=
  match fuel with
  | O => None
  | S f =>
      match parse_value f s with
      | None => None
      | Some (v, r) =>
          match skip_ws r with
          | String "," r' => parse_elements f (acc ++ [v]) r'
          | String "]" r' => Some (JArr (acc ++ [v]), r')
          | _ => None
          end
      end
  end.

(** [JSON.parse(text)].  A number is kept as the decimal that is written:
    it is the number the code reads when that decimal is a double, as a whole
    number below 2^53 is; the rounding of other literals is not modelled. *)
Definition parse (text : string) : result json :=
  match parse_value (S (String.length text)) text with
  | Some (v, rest) =>
      match skip_ws rest with
      | EmptyString => Return v
      | _ => Throw (SyntaxError "Unexpected non-whitespace character after JSON")
      end
  | None => Throw (SyntaxError "Unexpected token in JSON")
  end.

End JSON.
Export JSON (json (..)).

(* ================================================================= *)
(** ** Coercions of the language, on the values [JSON.parse] returns *)

Module JS.

(** A property read yields a value or [undefined], which is [None]. *)
Definition value : Type := option json.

(** [!!v] *)
Definition truthy (v : value) : bool :=
  match v with
  | None | Some JNull => false
  | Some (JBool b) => b
  | Some (JNum n) => Num.truthy n
  | Some (JStr s) => negb (String.eqb s "")
  | Some (JArr _) | Some (JObj _) => true
  end.

(** [typeof v === "object"] *)
Definition typeof_object (v : json) : bool :=
  match v with
  | JNull | JArr _ | JObj _ => true
  | _ => false
  end.

(** [v.k] for a key [k] that no prototype defines and that is not an index
    (the code reads [exp] and [scope] only). *)
Definition get (v : json) (k : string) : value :=
  match v with
  | JObj members => JSON.lookup k members
  | _ => None
  end.

(** ToString.  An object whose own [toString] is not callable (every JSON
    value is not) cannot be converted; an array is joined with commas,
    [null] elements giving the empty string. *)
Fixpoint toString (v : json) : result string :=
  match v with
  | JNull => Return "null"
  | JBool true => Return "true"
  | JBool false => Return "false"
  | JNum n => Return (Num.toString n)
  | JStr s => Return s
  | JArr items =>
      (fix join_items (l : list json) : result string :=
         match l with
         | [] => Return EmptyString
         | x :: r =>
             bind (match x with JNull => Return EmptyString | _ => toString x end)
               (fun a =>
                  match r with
                  | [] => Return a
                  | _ => bind (join_items r) (fun b => Return (a ++ "," ++ b))
                  end)
         end) items
  | JObj members =>
      match JSON.lookup "toString" members with
      | Some _ => Throw (TypeError "Cannot convert object to primitive value")
      | None => Return "[object Object]"
      end
  end.

(** ToNumber *)
Definition toNumber (v : value) : result Num.number :=
  match v with
  | None => Return Num.NaN
  | Some JNull => Return (Num.Dec 0 0)
  | Some (JBool b) => Return (Num.Dec (if b then 1 else 0) 0)
  | Some (JNum n) => Return n
  | Some (JStr s) => Return (Num.of_string s)
  | Some w => bind (toString w) (fun s => Return (Num.of_string s))
  end.

(** [typeof v === "string"] *)
Definition as_string (v : value) : option string :=
  match v with
  | Some (JStr s) => Some s
  | _ => None
  end.

End JS.

(* ================================================================= *)
(** ** Dates: [new Date(v)], [toISOString] and [Date.parse] *)

Module JSDate.

Notation "'let?' x := m 'in' k" :=
  (match m with Some x => k | None => None end)
  (at level 10, x pattern, m at level 100, k at level 200, only parsing).

Definition max_time : Z := 8640000000000000.
Definition ms_per_day : Z := 86400000.

(** TimeClip: the time value of [new Date(v)], [None] for the invalid date. *)
Definition of_number (v : Num.number) : option Z :=
  match v with
  | Num.Dec m k =>
      if Z.abs m <=? max_time * Num.pow10 k then Some (Num.trunc m k) else None
  | _ => None
  end.

(** The proleptic Gregorian calendar, in 400-year eras that start on
    1 March: the day of an era against year of era, month and day. *)
Definition civil_of_doe (doe : Z) : Z * Z * Z :=
  let yoe := (doe - doe / 1460 + doe / 36524 - doe / 146096) / 365 in
  let doy := doe - (365 * yoe + yoe / 4 - yoe / 100) in
  let mp := (5 * doy + 2) / 153 in
  let d := doy - (153 * mp + 2) / 5 + 1 in
  let m := if mp <? 10 then mp + 3 else mp - 9 in
  (yoe, m, d).

Definition doe_of_civil (yoe m d : Z) : Z :=
  let mp := if 2 <? m then m - 3 else m + 9 in
  let doy := (153 * mp + 2) / 5 + d - 1 in
  yoe * 365 + yoe / 4 - yoe / 100 + doy.

Definition civil_from_days (z : Z) : Z * Z * Z :=
  let z := z + 719468 in
  let era := z / 146097 in
  let '(yoe, m, d) := civil_of_doe (z mod 146097) in
  (yoe + era * 400 + (if m <=? 2 then 1 else 0), m, d).

Definition days_from_civil (y m d : Z) : Z :=
  let y := y - (if m <=? 2 then 1 else 0) in
  let era := y / 400 in
  era * 146097 + doe_of_civil (y mod 400) m d - 719468.

Definition is_leap (y : Z) : bool :=
  (y mod 4 =? 0) && (negb (y mod 100 =? 0) || (y mod 400 =? 0)).

Definition days_in_month (y m : Z) : Z :=
  if m =? 2 then (if is_leap y then 29 else 28)
  else if (m =? 4) || (m =? 6) || (m =? 9) || (m =? 11) then 30
  else 31.

Definition digit_char (d : Z) : ascii := Str.chr (48 + d).
Definition pad2 (v : Z) : string :=
  String (digit_char (v / 10)) (String (digit_char (v mod 10)) EmptyString).
Definition pad3 (v : Z) : string := String (digit_char (v / 100)) (pad2 (v mod 100)).
Definition pad4 (v : Z) : string := String (digit_char (v / 1000)) (pad3 (v mod 1000)).
Definition pad6 (v : Z) : string := pad2 (v / 10000) ++ pad4 (v mod 10000).

Definition format_year (y : Z) : string :=
  if (0 <=? y) && (y <=? 9999) then pad4 y
  else String (if y <? 0 then "-"%char else "+"%char) (pad6 (Z.abs y)).

(** [date.toISOString()], which throws on the invalid date. *)
Definition toISOString (date : option Z) : result string :=
  match date with
  | None => Throw (RangeError "Invalid time value")
  | Some t =>
      let '(y, m, d) := civil_from_days (t / ms_per_day) in
      let ms := t mod ms_per_day in
      Return (format_year y ++ "-" ++ pad2 m ++ "-" ++ pad2 d ++ "T"
              ++ pad2 (ms / 3600000) ++ ":" ++ pad2 (ms / 60000 mod 60) ++ ":"
              ++ pad2 (ms / 1000 mod 60) ++ "." ++ pad3 (ms mod 1000) ++ "Z")
  end.

Fixpoint read_digits (n : nat) (acc : Z) (s : string) : option (Z * string) :=
  match n with
  | O => Some (acc, s)
  | S n' =>
      match s with
      | String c r =>
          if Num.is_digit c then read_digits n' (acc * 10 + (Str.code c - 48)) r
          else None
      | EmptyString => None
      end
  end.

Definition expect (c : ascii) (s : string) : option string :=
  match s with
  | String d r => if Ascii.eqb d c then Some r else None
  | EmptyString => None
  end.

Definition read_year (s : string) : option (Z * string) :=
  match s with
  | String c r =>
      if Ascii.eqb c "+" then read_digits 6 0 r
      else if Ascii.eqb c "-" then
        let? (y, r') := read_digits 6 0 r in
        if y =? 0 then None else Some (- y, r')
      else read_digits 4 0 s
  | EmptyString => None
  end.

(** [Date.parse(s)] on the complete date-time form of ECMA-262 with the UTC
    designator, the form [toISOString] writes and the only one the route
    hands to it; [None] is [NaN].  (What [Date.parse] makes of other strings
    is left to the implementation by the standard.) *)
Definition parse (s : string) : option Z :=
  let? (y, s) := read_year s in
  let? s := expect "-" s in
  let? (mo, s) := read_digits 2 0 s in
  let? s := expect "-" s in
  let? (d, s) := read_digits 2 0 s in
  let? s := expect "T" s in
  let? (h, s) := read_digits 2 0 s in
  let? s := expect ":" s in
  let? (mi, s) := read_digits 2 0 s in
  let? s := expect ":" s in
  let? (sec, s) := read_digits 2 0 s in
  let? s := expect "." s in
  let? (ms, s) := read_digits 3 0 s in
  let? s := expect "Z" s in
  match s with
  | EmptyString =>
      if (1 <=? mo) && (mo <=? 12) && (1 <=? d) && (d <=? days_in_month y mo)
         && (h <=? 24) && (mi <=? 59) && (sec <=? 59)
         && ((h <? 24) || ((mi =? 0) && (sec =? 0) && (ms =? 0)))
      then
        let t := days_from_civil y mo d * ms_per_day
                 + h * 3600000 + mi * 60000 + sec * 1000 + ms in
        if Z.abs t <=? max_time then Some t else None
      else None
  | _ => None
  end.

End JSDate.

(* ================================================================= *)
(** ** The schema validator ([z.string()] and [z.object()]) *)

Module Zod.

(** [StringSchema]; the number, optional and default schemas serve the mint
    branch of the route only. *)
Record StringSchema := mkStringSchema {
  minLength : option Z;
  refinements : list ((string -> bool) * string);
  defaultValue : option string
}.

Definition string_ : StringSchema := mkStringSchema None [] None.
Definition min (length : Z) (s : StringSchema) : StringSchema :=
  mkStringSchema (Some length) (refinements s) (defaultValue s).
Definition refine (predicate : string -> bool) (message : string) (s : StringSchema)
  : StringSchema :=
  mkStringSchema (minLength s) (refinements s ++ [(predicate, message)]) (defaultValue s).

Fixpoint check_refinements (rs : list ((string -> bool) * string)) (data : string)
  (path : list string) : result unit :=
  match rs with
  | [] => Return tt
  | (predicate, message) :: r =>
      if negb (predicate data) then Throw (ZodError [mkIssue path message])
      else check_refinements r data path
  end.

(** [StringSchema._parse(data, path)].  The length is counted in bytes,
    which are the code units of [data.length] on ASCII text; a string is
    empty in bytes exactly when it is empty in code units. *)
Definition parse_string (s : StringSchema) (data : JS.value) (path : list string)
  : result string :=
  match data with
  | None =>
      match defaultValue s with
      | Some d => Return d
      | None => Throw (ZodError [mkIssue path "Required"])
      end
  | Some v =>
      match JS.as_string (Some v) with
      | None => Throw (ZodError [mkIssue path "Expected string"])
      | Some str =>
          let too_short :=
            match minLength s with
            | Some l => Str.len str <? l
            | None => false
            end in
          if too_short then
            Throw (ZodError
                     [mkIssue path
                        ("Expected at least "
                         ++ Num.toString
                              (Num.of_Z match minLength s with Some l => l | None => 0 end)
                         ++ " characters")])
          else bind (check_refinements (refinements s) str path) (fun _ => Return str)
      end
  end.

(** [ObjectSchema._parse(data, path)] for a shape of string schemas: the
    keys of the shape in order, the first failure thrown. *)
Fixpoint parse_shape (shape : list (string * StringSchema)) (data : json)
  (path : list string) : result (list (string * json)) :=
  match shape with
  | [] => Return []
  | (key, schema) :: r =>
      bind (parse_string schema (JS.get data key) (path ++ [key]))
        (fun v => bind (parse_shape r data path) (fun vs => Return ((key, JStr v) :: vs)))
  end.

Definition parse_object (shape : list (string * StringSchema)) (data : JS.value)
  (path : list string) : result json :=
  match data with
  | Some (JObj members) =>
      bind (parse_shape shape (JObj members) path) (fun r => Return (JObj r))
  | _ => Throw (ZodError [mkIssue path "Expected object"])
  end.

(** [schema.parse(data)]: [safeParse], the error thrown again. *)
Definition parse (shape : list (string * StringSchema)) (data : JS.value) : result json :=
  parse_object shape data [].

End Zod.

(* ================================================================= *)
(** ** What the code reads from the process *)

Record ambient := mkAmbient {
  clock : Z;                                (* [new Date().getTime()] *)
  REALTIME_SESSION_SECRET : option string;  (* [process.env.REALTIME_SESSION_SECRET] *)
  APP_PASSWORD : option string;             (* [process.env.APP_PASSWORD] *)
  randomUUID : string                       (* the next [randomUUID()] *)
}.

Definition or_default {A} (o : option A) (d : A) : A :=
  match o with
  | Some a => a
  | None => d
  end.

(* ================================================================= *)
(** ** [src/lib/sessionToken.ts] *)

Module SessionTokenPayload.
Record t := mk { jti : string; scope : string; iat : Num.number; exp : Num.number }.

(** The object [JSON.stringify] sees, its properties in creation order. *)
Definition to_json (p : t) : json :=
  JObj [("jti", JStr (jti p)); ("scope", JStr (scope p));
        ("iat", JNum (iat p)); ("exp", JNum (exp p))].
End SessionTokenPayload.

Module CreateSessionTokenOptions.
Record t := mk {
  scope : string;
  ttlSeconds : option Num.number;
  now : option Z;
  secret : option string
}.
End CreateSessionTokenOptions.

Inductive RequiredScope :=
| OneScope (s : string)
| ManyScopes (l : list string).

Module VerifySessionTokenOptions.
Record t := mk {
  now : option Z;
  requiredScope : option RequiredScope;
  secret : option string
}.
Definition empty : t := mk None None None.
End VerifySessionTokenOptions.

Module SessionToken.

Record created := mkCreated { token : string; scope : string; expiresAt : string }.

Definition DEFAULT_TTL_SECONDS : Num.number := Num.Dec 60 0.
Definition MAX_TTL_SECONDS : Num.number := Num.Dec 300 0.

Definition getSigningSecret (env : ambient) : string :=
  match REALTIME_SESSION_SECRET env with
  | Some s => s
  | None =>
      match APP_PASSWORD env with
      | Some s => s
      | None => "development-session-secret"
      end
  end.

Definition safeEqual (a b : string) : bool :=
  if negb (String.length a =? String.length b)%nat then false
  else String.eqb a b.

Definition header : json := JObj [("alg", JStr "HS256"); ("typ", JStr "JWT")].

Definition signPayload (payload : SessionTokenPayload.t) (secret : string) : string :=
  let encodedHeader := Base64.encode_url (JSON.stringify header) in
  let encodedPayload :=
    Base64.encode_url (JSON.stringify (SessionTokenPayload.to_json payload)) in
  let unsignedToken := encodedHeader ++ "." ++ encodedPayload in
  let signature := hmac_base64url secret unsignedToken in
  unsignedToken ++ "." ++ signature.

(** The payload [createSessionToken] builds once its checks have passed.
    The sum is exact: it is the sum of the code for a whole TTL, which the
    statements about [exp] keep to. *)
Definition createdPayload (env : ambient) (scope : string) (ttlSeconds : Num.number)
  (now : Z) : SessionTokenPayload.t :=
  let boundedTtl := Num.min ttlSeconds MAX_TTL_SECONDS in
  let issuedAtSeconds := Num.of_Z (now / 1000) in
  let exp := Num.add issuedAtSeconds boundedTtl in
  SessionTokenPayload.mk (randomUUID env) scope issuedAtSeconds exp.

Definition createSessionToken (env : ambient) (options : CreateSessionTokenOptions.t)
  : result created :=
  let scope := CreateSessionTokenOptions.scope options in
  let ttlSeconds :=
    or_default (CreateSessionTokenOptions.ttlSeconds options) DEFAULT_TTL_SECONDS in
  let now := or_default (CreateSessionTokenOptions.now options) (clock env) in
  let secret :=
    or_default (CreateSessionTokenOptions.secret options) (getSigningSecret env) in
  if String.eqb scope "" || String.eqb (Str.trim scope) "" then
    Throw (TokenInvalidError "Scope is required")
  else if Num.le ttlSeconds (Num.Dec 0 0) then
    Throw (TokenInvalidError "TTL must be greater than 0")
  else
    let payload := createdPayload env scope ttlSeconds now in
    let token := signPayload payload secret in
    (expiresAt <-
       JSDate.toISOString
         (JSDate.of_number (Num.mul (SessionTokenPayload.exp payload) (Num.Dec 1000 0))) ;;
     Return (mkCreated token scope expiresAt))%js.

(** [payload.exp * 1000 <= now.getTime()], in exact arithmetic: that of the
    code for an [exp] of whole seconds whose milliseconds are below 2^53. *)
Definition isSessionTokenExpired (payload : json) (now : Z) : result bool :=
  (e <- JS.toNumber (JS.get payload "exp") ;;
   Return (Num.le (Num.mul e (Num.Dec 1000 0)) (Num.of_Z now)))%js.

(** [scopes.includes(v)] *)
Definition includes (scopes : list string) (v : JS.value) : bool :=
  match JS.as_string v with
  | Some s => existsb (String.eqb s) scopes
  | None => false
  end.

Definition assertValidPayload (payload : json) (now : Z)
  (requiredScope : option RequiredScope) : result unit :=
  if negb (JS.truthy (Some payload)) || negb (JS.typeof_object payload) then
    Throw (TokenInvalidError "Token payload missing")
  else if negb (JS.truthy (JS.get payload "exp"))
          || negb (JS.truthy (JS.get payload "scope")) then
    Throw (TokenInvalidError "Token payload missing fields")
  else
    (expired <- isSessionTokenExpired payload now ;;
     if (expired : bool) then Throw (TokenExpiredError "Session token expired")
     else
       match requiredScope with
       | None | Some (OneScope EmptyString) => Return tt
       | Some required =>
           let scopes :=
             match required with
             | ManyScopes l => l
             | OneScope s => [s]
             end in
           if negb (includes scopes (JS.get payload "scope")) then
             Throw (TokenInvalidError "Token scope is not permitted")
           else Return tt
       end)%js.

Definition verifySessionToken (env : ambient) (token : string)
  (options : VerifySessionTokenOptions.t) : result json :=
  let now := or_default (VerifySessionTokenOptions.now options) (clock env) in
  let requiredScope := VerifySessionTokenOptions.requiredScope options in
  let secret :=
    or_default (VerifySessionTokenOptions.secret options) (getSigningSecret env) in
  if String.eqb token "" then Throw (TokenInvalidError "Token is required")
  else
    match Str.split "." token with
    | [encodedHeader; encodedPayload; receivedSignature] =>
        let unsignedToken := encodedHeader ++ "." ++ encodedPayload in
        let expectedSignature := hmac_base64url secret unsignedToken in
        if negb (safeEqual receivedSignature expectedSignature) then
          Throw (TokenInvalidError "Token signature mismatch")
        else
          try_catch
            (let payloadJson := Base64.decode encodedPayload in
             payload <- JSON.parse payloadJson ;;
             assertValidPayload payload now requiredScope ;;;
             Return payload)%js
            (fun error =>
               match error with
               | TokenInvalidError _ | TokenExpiredError _ => Throw error
               | _ => Throw (TokenInvalidError "Token payload could not be parsed")
               end)
    | _ => Throw (TokenInvalidError "Token format is invalid")
    end.

End SessionToken.

(* ================================================================= *)
(** ** [src/lib/auth/basic.ts] *)

Module BasicAuth.

Record BasicAuthCredentials := mkCredentials { username : string; password : string }.

Definition parseBasicAuthHeader (header : option string) : option BasicAuthCredentials :=
  match header with
  | None | Some EmptyString => None
  | Some header =>
      let parts := Str.split " " header in
      let scheme := nth_error parts 0 in
      let value := nth_error parts 1 in
      match scheme, value with
      | Some scheme, Some value =>
          if String.eqb scheme "" || String.eqb value ""
             || negb (String.eqb (Str.toLowerCase scheme) "basic")
          then None
          else
            (* [Buffer.from(value, "base64")] never throws: the [catch] of
               the source has nothing to catch *)
            let decoded := Base64.decode value in
            match Str.indexOf ":" decoded with
            | None => None
            | Some separatorIndex =>
                Some (mkCredentials (Str.take separatorIndex decoded)
                        (Str.drop (S separatorIndex) decoded))
            end
      | _, _ => None
      end
  end.

(** The reads of characters a comparison makes, in order. *)
Inductive operand := OperandA | OperandB.
Definition access : Type := (operand * nat)%type.
Definition traced (A : Type) : Type := (A * list access)%type.

Definition ret {A} (a : A) : traced A := (a, []).
Definition tbind {A B} (m : traced A) (k : A -> traced B) : traced B :=
  let '(a, t1) := m in
  let '(b, t2) := k a in
  (b, (t1 ++ t2)%list).

(** [s.charCodeAt(i)]; out of range it is [NaN], which [^] takes as 0. *)
Definition charCodeAt (which : operand) (s : string) (i : nat) : traced Z :=
  (match String.get i s with
   | Some c => Str.code c
   | None => 0
   end, [(which, i)]).

(** The loop of [timingSafeCompare], [steps] iterations from index [i].
    Lengths and indices count bytes, which are the code units of the code on
    ASCII text. *)
Fixpoint compare_loop (steps i : nat) (a b : string) (result : Z) : traced Z :=
  match steps with
  | O => ret result
  | S n =>
      tbind (charCodeAt OperandA a i) (fun x =>
      tbind (charCodeAt OperandB b i) (fun y =>
      compare_loop n (S i) a b (Z.lor result (Z.lxor x y))))
  end.

Definition timingSafeCompare (a b : string) : traced bool :=
  if negb (String.length a =? String.length b)%nat then ret false
  else tbind (compare_loop (String.length a) 0 a b 0) (fun result => ret (result =? 0)).

Definition verifyAppPassword (env : ambient) (password : option string) : traced bool :=
  match APP_PASSWORD env with
  | None | Some EmptyString => ret false
  | Some expected => timingSafeCompare (or_default password "") expected
  end.

End BasicAuth.

(* ================================================================= *)
(** ** The bearer branch of [POST /api/session] *)

Module Route.

Record response := mkResponse { status : Z; body : json }.

Definition sessionResponseSchema : list (string * Zod.StringSchema) :=
  [ ("token", Zod.min 1 Zod.string_);
    ("expiresAt",
     Zod.refine (fun value => match JSDate.parse value with Some _ => true | None => false end)
       "expiresAt must be an ISO timestamp" Zod.string_);
    ("scope", Zod.min 1 Zod.string_) ].

(** An object literal; a property whose value is [undefined] reads as an
    absent one. *)
Fixpoint object_literal (l : list (string * JS.value)) : list (string * json) :=
  match l with
  | [] => []
  | (k, Some v) :: r => (k, v) :: object_literal r
  | (_, None) :: r => object_literal r
  end.

Definition error_body (message : string) : json := JObj [("error", JStr message)].

Definition handleBearerToken (env : ambient) (authHeader : string) : response :=
  let token := Str.trim (Str.drop 7 authHeader) in
  if String.eqb token "" then mkResponse 401 (error_body "Session token is required")
  else
    match
      (payload <- SessionToken.verifySessionToken env token VerifySessionTokenOptions.empty ;;
       e <- JS.toNumber (JS.get payload "exp") ;;
       expiresAt <- JSDate.toISOString (JSDate.of_number (Num.mul e (Num.Dec 1000 0))) ;;
       response <-
         Zod.parse sessionResponseSchema
           (Some (JObj (object_literal
                          [("token", Some (JStr token));
                           ("scope", JS.get payload "scope");
                           ("expiresAt", Some (JStr expiresAt))]))) ;;
       Return (mkResponse 200 response))%js
    with
    | Return r => r
    | Throw (TokenExpiredError message) => mkResponse 401 (error_body message)
    | Throw (TokenInvalidError message) => mkResponse 403 (error_body message)
    | Throw _ => mkResponse 500 (error_body "Failed to validate session token")
    end.

End Route.

(* ================================================================= *)
(** ** Vocabulary of the statements *)

(** [contains c s]: the character [c] occurs in [s]. *)
Fixpoint contains (c : ascii) (s : string) : bool :=
  match s with
  | EmptyString => false
  | String d r => Ascii.eqb d c || contains c r
  end.

(** The token made of the segments [h] and [p] and of the HMAC-SHA256
    signature, in base64url, of ["h.p"] under [secret]. *)
Definition signedToken (secret h p : string) : string :=
  h ++ "." ++ p ++ "." ++ hmac_base64url secret (h ++ "." ++ p).

(** The secret and the instant a verification works with. *)
Definition verificationSecret (env : ambient) (options : VerifySessionTokenOptions.t)
  : string :=
  or_default (VerifySessionTokenOptions.secret options)
    (SessionToken.getSigningSecret env).

Definition verificationTime (env : ambient) (options : VerifySessionTokenOptions.t) : Z :=
  or_default (VerifySessionTokenOptions.now options) (clock env).

(** The failure kinds of the token engine. *)
Definition InvalidToken {A} (r : result A) : Prop :=
  exists message, r = Throw (TokenInvalidError message).

Definition TokenExpired {A} (r : result A) : Prop :=
  exists message, r = Throw (TokenExpiredError message).

(** [permits required scope]: no scope is required, or [scope] is among the
    required ones. *)
Definition permits (required : option RequiredScope) (scope : string) : bool :=
  match required with
  | None | Some (OneScope EmptyString) => true
  | Some (OneScope s) => String.eqb scope s
  | Some (ManyScopes l) => existsb (String.eqb scope) l
  end.

(** A comparison that reads every character of both operands. *)
Definition consults_every_byte (a b : string) (trace : list BasicAuth.access) : Prop :=
  (forall i, (i < String.length a)%nat -> In (BasicAuth.OperandA, i) trace)
  /\ (forall i, (i < String.length b)%nat -> In (BasicAuth.OperandB, i) trace).

(** The reads of a comparison that goes through [n] positions from [i] on. *)
Fixpoint reads_from (i n : nat) : list BasicAuth.access :=
  match n with
  | O => []
  | S n' => (BasicAuth.OperandA, i) :: (BasicAuth.OperandB, i) :: reads_from (S i) n'
  end.

(** The quotation mark as a string. *)
Definition dq : string := String DQ EmptyString.

(** The handler of the [catch] block of [verifySessionToken]. *)
Definition rethrow (error : exn) : result json :=
  match error with
  | TokenInvalidError _ | TokenExpiredError _ => Throw error
  | _ => Throw (TokenInvalidError "Token payload could not be parsed")
  end.

(** What may follow a number in a JSON text. *)
Definition ends_number (rest : string) : Prop :=
  match rest with
  | EmptyString => True
  | String c _ =>
      Num.is_digit c = false /\ Ascii.eqb c "." = false
      /\ Ascii.eqb c "e" = false /\ Ascii.eqb c "E" = false
  end.

(** The calendar of one era, to be checked day by day. *)
Definition era_day_ok (doe : Z) : bool :=
  let '(yoe, m, d) := JSDate.civil_of_doe doe in
  (0 <=? yoe) && (yoe <? 400) && (1 <=? m) && (m <=? 12) && (1 <=? d)
  && (d <=? JSDate.days_in_month (yoe + (if m <=? 2 then 1 else 0)) m)
  && (JSDate.doe_of_civil yoe m d =? doe).

Fixpoint all_from (n : nat) (z : Z) (f : Z -> bool) : bool :=
  match n with
  | O => true
  | S n' => f z && all_from n' (z + 1) f
  end.

(** Text of ASCII characters.  Its bytes are its UTF-16 code units, so that
    [String.length] and [String.get] are the [length] and the [charCodeAt]
    of the code on it. *)
Fixpoint ascii_text (s : string) : bool :=
  match s with
  | EmptyString => true
  | String c r => (Str.code c <? 128) && ascii_text r
  end.

(** A whole number of seconds whose milliseconds stay below 2^53.  The
    number, its product by 1000 and the comparison of that product with an
    instant are exact in doubles, and [JSON.parse] reads the number as it is
    written: on such an [exp] the exact arithmetic of the embedding is the
    arithmetic of the code. *)
Definition exact_seconds (m : Z) : Prop := Z.abs (m * 1000) < 2 ^ 53.

(** A value that is no number, or is a whole number below 2^53: what the
    code reads for it is the value the embedding has, and both find it
    truthy or falsy alike. *)
Definition exact_value (v : JS.value) : Prop :=
  forall n, v = Some (JNum n) -> exists z, n = Num.Dec z 0 /\ Z.abs z < 2 ^ 53.

(** *** Values of the examples *)

(** A process with the clock at 2024-01-01T00:00:00Z and no secret
    configured: tokens are signed with the development fallback. *)
Definition env0 : ambient :=
  mkAmbient 1704067200000 None None "123e4567-e89b-12d3-a456-426614174000".

(** A payload of scope ["practice"] that expires at second 1704067260, its
    members and its segment. *)
Definition payload0 : SessionTokenPayload.t :=
  SessionTokenPayload.mk "id" "practice" (Num.Dec 1704067200 0) (Num.Dec 1704067260 0).

Definition members0 : list (string * json) :=
  [("jti", JStr "id"); ("scope", JStr "practice");
   ("iat", JNum (Num.Dec 1704067200 0)); ("exp", JNum (Num.Dec 1704067260 0))].

Definition p0 : string :=
  Base64.encode_url (JSON.stringify (SessionTokenPayload.to_json payload0)).

Definition at_time (now : Z) (required : option RequiredScope)
  : VerifySessionTokenOptions.t :=
  VerifySessionTokenOptions.mk (Some now) required (Some "test-secret").

(** [payload0] signed with the secret of [env0]. *)
Definition fresh_token : string :=
  SessionToken.signPayload payload0 "development-session-secret".

(** A payload that expires at the second 0, signed. *)
Definition zero_payload : SessionTokenPayload.t :=
  SessionTokenPayload.mk "id" "practice" (Num.Dec 0 0) (Num.Dec 0 0).

Definition zero_token : string := SessionToken.signPayload zero_payload "test-secret".

(** A payload whose expiry, second 9000000000000, is beyond the last date
    (second 8640000000000), signed with the secret of [env0]. *)
Definition far_payload : SessionTokenPayload.t :=
  SessionTokenPayload.mk "id" "practice" (Num.Dec 1704067200 0) (Num.Dec 9000000000000 0).

Definition far_token : string :=
  SessionToken.signPayload far_payload "development-session-secret".

(** [payload0] behind an empty header segment, signed with the secret of
    [env0]. *)
Definition headerless_token : string := signedToken "development-session-secret" "" p0.

(** What [createSessionToken] returns at [env0]'s clock for the scope
    ["practice"], a TTL of 1.5 seconds and the secret ["test-secret"]. *)
Definition created_fractional : SessionToken.created :=
  SessionToken.mkCreated
    (SessionToken.signPayload
       (SessionTokenPayload.mk (randomUUID env0) "practice" (Num.Dec 1704067200 0)
          (Num.Dec 17040672015 1))
       "test-secret")
    "practice" "2024-01-01T00:00:01.500Z".

(** A payload without a scope that expired long ago, signed; and a payload
    whose scope is the number 5, as the text of its segment and signed with
    the secret of [env0]. *)
Definition scopeless_payload : SessionTokenPayload.t :=
  SessionTokenPayload.mk "id" "" (Num.Dec 1704067200 0) (Num.Dec 1704067260 0).

Definition scopeless_token : string :=
  SessionToken.signPayload scopeless_payload "test-secret".

Definition numeric_scope_members : list (string * json) :=
  [("scope", JNum (Num.Dec 5 0)); ("exp", JNum (Num.Dec 1704067260 0))].

Definition numeric_scope_token : string :=
  signedToken "development-session-secret" "e30"
    (Base64.encode_url (JSON.stringify (JObj numeric_scope_members))).

(** A process whose password is ["ab"]. *)
Definition env_ab : ambient := mkAmbient 0 None (Some "ab") "".

(* ================================================================= *)
(** ** The schema validator, whole: numbers, optional values, defaults and
    objects of any schemas, for the mint branch of the route *)

Module Schema.

Local Unset Elimination Schemes.

(** What [_parse] returns: the validated value, [undefined] for an optional
    one that is absent, an object of validated values. *)
Inductive parsed :=
| PUndefined
| PString (s : string)
| PNumber (n : Num.number)
| PObject (fields : list (string * parsed)).

(** The schemas [z] builds.  A builder method that mutates its schema and
    returns it ([min], [max], [int], [refine], and [default] on a string
    schema) is the schema with the field set. *)
Inductive schema :=
| StringSchema (s : Zod.StringSchema)
| NumberSchema (requireInt : bool) (minValue maxValue : option Num.number)
| ObjectSchema (shape : list (string * schema))
| OptionalSchema (inner : schema)
| DefaultSchema (inner : schema) (defaultValue : parsed).

(** [StringSchema.default(value)] *)
Definition string_default (value : string) (s : Zod.StringSchema) : Zod.StringSchema :=
  Zod.mkStringSchema (Zod.minLength s) (Zod.refinements s) (Some value).

(** [a < b] and [a > b] *)
Definition lt (a b : Num.number) : bool := Num.le a b && negb (Num.le b a).

(** [Number.isNaN(n)] and [Number.isInteger(n)] *)
Definition isNaN (n : Num.number) : bool :=
  match n with
  | Num.NaN => true
  | _ => false
  end.

Definition isInteger (n : Num.number) : bool :=
  match n with
  | Num.Dec m k => m mod Num.pow10 k =? 0
  | _ => false
  end.

(** [NumberSchema._parse(data, path)] *)
Definition parse_number (requireInt : bool) (minValue maxValue : option Num.number)
  (data : JS.value) (path : list string) : result Num.number :=
  match data with
  | None => Throw (ZodError [mkIssue path "Required"])
  | Some (JNum n) =>
      if isNaN n then Throw (ZodError [mkIssue path "Expected number"])
      else if requireInt && negb (isInteger n) then
        Throw (ZodError [mkIssue path "Expected integer"])
      else
        let check_max :=
          match maxValue with
          | Some hi =>
              if lt hi n then
                Throw (ZodError [mkIssue path ("Expected number <= " ++ Num.toString hi)])
              else Return n
          | None => Return n
          end in
        match minValue with
        | Some lo =>
            if lt n lo then
              Throw (ZodError [mkIssue path ("Expected number >= " ++ Num.toString lo)])
            else check_max
        | None => check_max
        end
  | Some _ => Throw (ZodError [mkIssue path "Expected number"])
  end.

(** [schema._parse(data, path)].  An object schema reads [data[key]] for the
    keys of its shape, in order, and throws the first failure; the keys are
    such as no prototype defines. *)
Fixpoint _parse (sch : schema) (data : JS.value) (path : list string) : result parsed :=
  match sch with
  | StringSchema s => bind (Zod.parse_string s data path) (fun v => Return (PString v))
  | NumberSchema requireInt minValue maxValue =>
      bind (parse_number requireInt minValue maxValue data path)
        (fun n => Return (PNumber n))
  | ObjectSchema shape =>
      match data with
      | Some (JObj members) =>
          bind
            ((fix parse_keys (l : list (string * schema))
                : result (list (string * parsed)) :=
                match l with
                | [] => Return []
                | (key, inner) :: r =>
                    bind (_parse inner (JS.get (JObj members) key) (path ++ [key]))
                      (fun v => bind (parse_keys r) (fun vs => Return ((key, v) :: vs)))
                end) shape)
            (fun fields => Return (PObject fields))
      | _ => Throw (ZodError [mkIssue path "Expected object"])
      end
  | OptionalSchema inner =>
      match data with
      | None => Return PUndefined
      | Some _ => _parse inner data path
      end
  | DefaultSchema inner defaultValue =>
      match data with
      | None => Return defaultValue
      | Some _ => _parse inner data path
      end
  end.

Inductive SafeParseReturn :=
| Success (data : parsed)
| Failure (error : list ZodIssue).

(** [schema.safeParse(data)]: a [ZodError] is returned, anything else thrown
    again. *)
Definition safeParse (sch : schema) (data : JS.value) : result SafeParseReturn :=
  match _parse sch data [] with
  | Return value => Return (Success value)
  | Throw (ZodError issues) => Return (Failure issues)
  | Throw error => Throw error
  end.

(** [schema.parse(data)] *)
Definition parse (sch : schema) (data : JS.value) : result parsed :=
  bind (safeParse sch data)
    (fun r =>
       match r with
       | Success value => Return value
       | Failure issues => Throw (ZodError issues)
       end).

(** [object.key] on what an object schema returned. *)
Definition field (key : string) (value : parsed) : parsed :=
  match value with
  | PObject fields =>
      (fix find (l : list (string * parsed)) : parsed :=
         match l with
         | [] => PUndefined
         | (k, v) :: r => if String.eqb k key then v else find r
         end) fields
  | _ => PUndefined
  end.

End Schema.

(* ================================================================= *)
(** ** [POST /api/session], whole *)

Module Api.

(** What the handler reads of a request: two headers and the body. *)
Record request := mkRequest {
  authorization : option string;  (* [request.headers.get("authorization")] *)
  content_type : option string;   (* [request.headers.get("content-type")] *)
  body : string
}.

(** [s.includes(needle)] *)
Fixpoint includes (needle s : string) : bool :=
  Str.startsWith needle s
  || match s with
     | EmptyString => false
     | String _ r => includes needle r
     end.

(** [request.json()]: the body as UTF-8 text, a byte order mark dropped, read
    as JSON. *)
Definition request_json (req : request) : result json :=
  match Str.codes (Str.take 3 (body req)) with
  | [239; 187; 191] => JSON.parse (Str.drop 3 (body req))
  | _ => JSON.parse (body req)
  end.

Definition sessionRequestSchema : Schema.schema :=
  Schema.ObjectSchema
    [ ("scope",
       Schema.StringSchema (Schema.string_default "practice" (Zod.min 1 Zod.string_)));
      ("ttlSeconds",
       Schema.OptionalSchema
         (Schema.NumberSchema true (Some (Num.Dec 1 0)) (Some (Num.Dec 600 0)))) ].

Definition empty_object : JS.value := Some (JObj []).

(** [json ?? {}] *)
Definition or_empty_object (json : json) : JS.value :=
  match json with
  | JNull => empty_object
  | _ => Some json
  end.

Definition parseRequestBody (req : request) : result Schema.SafeParseReturn :=
  let announces_json :=
    match content_type req with
    | Some value => includes "application/json" value
    | None => false
    end in
  if negb announces_json then Schema.safeParse sessionRequestSchema empty_object
  else
    try_catch
      (json <- request_json req ;;
       Schema.safeParse sessionRequestSchema (or_empty_object json))%js
      (fun _ => Schema.safeParse sessionRequestSchema empty_object).

Definition unauthorizedResponse : Route.response :=
  Route.mkResponse 401 (Route.error_body "Unauthorized").

(** [error.format()] in the body of a response. *)
Definition issues_json (issues : list ZodIssue) : json :=
  JArr (map (fun i => JObj [("path", JArr (map JStr (issue_path i)));
                            ("message", JStr (issue_message i))]) issues).

(** The fields the handler takes out of the validated body: a string and a
    number or [undefined], by the schema. *)
Definition scope_of (data : Schema.parsed) : string :=
  match Schema.field "scope" data with
  | Schema.PString s => s
  | _ => EmptyString
  end.

Definition ttlSeconds_of (data : Schema.parsed) : option Num.number :=
  match Schema.field "ttlSeconds" data with
  | Schema.PNumber n => Some n
  | _ => None
  end.

(** What [POST] answers once the credentials have passed: lines 43 to 53 of
    the handler, for the validated body. *)
Definition answer (env : ambient) (requestBody : Schema.SafeParseReturn)
  : result Route.response :=
  match requestBody with
  | Schema.Failure issues =>
      Return (Route.mkResponse 400
                (JObj [("error", JStr "Invalid request body");
                       ("issues", issues_json issues)]))
  | Schema.Success data =>
      let scope := scope_of data in
      let ttlSeconds := ttlSeconds_of data in
      (created <-
         SessionToken.createSessionToken env
           (CreateSessionTokenOptions.mk scope ttlSeconds None None) ;;
       response <-
         Zod.parse Route.sessionResponseSchema
           (Some (JObj [("token", JStr (SessionToken.token created));
                        ("expiresAt", JStr (SessionToken.expiresAt created));
                        ("scope", JStr scope)])) ;;
       Return (Route.mkResponse 200 response))%js
  end.

(** The handler.  What it throws is left to the framework.  No character
    lower-cases to a letter of ["bearer "] but the letter and its capital,
    so that the ASCII lower-casing decides the test of the scheme as
    [toLowerCase] does. *)
Definition POST (env : ambient) (req : request) : result Route.response :=
  match authorization req with
  | None | Some EmptyString => Return unauthorizedResponse
  | Some authHeader =>
      if Str.startsWith "bearer " (Str.toLowerCase authHeader) then
        Return (Route.handleBearerToken env authHeader)
      else
        match BasicAuth.parseBasicAuthHeader (Some authHeader) with
        | None => Return unauthorizedResponse
        | Some credentials =>
            if negb (fst (BasicAuth.verifyAppPassword env
                            (Some (BasicAuth.password credentials))))
            then Return unauthorizedResponse
            else (requestBody <- parseRequestBody req ;; answer env requestBody)%js
        end
  end.

End Api.

(* ================================================================= *)
(** ** Vocabulary of the further statements *)

(** What a client writes after the scheme of a Basic authorization header:
    [user-pass] in base64 with the standard alphabet, padded (RFC 7617,
    RFC 4648). *)
Module Client.

Definition alphabet : string :=
  "ABCDEFGHIJKLMNOPQRSTUVWXYZabcdefghijklmnopqrstuvwxyz0123456789+/".

Definition std_char (v : Z) : ascii :=
  match String.get (Z.to_nat v) alphabet with
  | Some c => c
  | None => "="%char
  end.

Fixpoint base64 (s : string) : string :=
  match s with
  | EmptyString => EmptyString
  | String a EmptyString =>
      let a := Str.code a in
      String (std_char (a / 4)) (String (std_char (a mod 4 * 16)) "==")
  | String a (String b EmptyString) =>
      let a := Str.code a in
      let b := Str.code b in
      String (std_char (a / 4))
        (String (std_char (a mod 4 * 16 + b / 16))
           (String (std_char (b mod 16 * 4)) "="))
  | String a (String b (String c r)) =>
      let a := Str.code a in
      let b := Str.code b in
      let c := Str.code c in
      String (std_char (a / 4))
        (String (std_char (a mod 4 * 16 + b / 16))
           (String (std_char (b mod 16 * 4 + c / 64))
              (String (std_char (c mod 64)) (base64 r))))
  end.

Definition user_pass (username password : string) : string :=
  username ++ ":" ++ password.

End Client.

(** A request that carries, in a Basic authorization header, the password
    the process is configured with. *)
Definition password_authenticated (env : ambient) (req : Api.request) : Prop :=
  exists header credentials,
    Api.authorization req = Some header
    /\ Str.startsWith "bearer " (Str.toLowerCase header) = false
    /\ BasicAuth.parseBasicAuthHeader (Some header) = Some credentials
    /\ APP_PASSWORD env = Some (BasicAuth.password credentials)
    /\ BasicAuth.password credentials <> "".

(** The JSON value [parseRequestBody] hands to the schema: the body when the
    request announces JSON and the body is JSON other than [null], the empty
    object otherwise. *)
Definition body_value (req : Api.request) : json :=
  match Api.content_type req with
  | None => JObj []
  | Some value =>
      if Api.includes "application/json" value then
        match Api.request_json req with
        | Return JNull | Throw _ => JObj []
        | Return json => json
        end
      else JObj []
  end.

(** The members a body has for a scope and a TTL that may be absent, the
    lifetime that is granted for the TTL and the payload that is minted. *)
Definition scope_member (scope : option string) : JS.value := option_map JStr scope.

Definition ttl_member (ttl : option Z) : JS.value :=
  option_map (fun z => JNum (Num.Dec z 0)) ttl.

Definition lifetime (ttl : option Z) : Z := Z.min (or_default ttl 60) 300.

Definition minted (env : ambient) (scope : option string) (ttl : option Z)
  : SessionTokenPayload.t :=
  SessionTokenPayload.mk (randomUUID env) (or_default scope "practice")
    (Num.Dec (clock env / 1000) 0) (Num.Dec (clock env / 1000 + lifetime ttl) 0).

(** The body of a response that carries a token. *)
Definition token_body (token expiresAt scope : string) : json :=
  JObj [("token", JStr token); ("expiresAt", JStr expiresAt); ("scope", JStr scope)].

(** No character of [s] is one a white-space character starts with. *)
Definition starts_space (c : ascii) : bool :=
  let n := Str.code c in
  ((9 <=? n) && (n <=? 13)) || (n =? 32) || (n =? 194) || (n =? 225) || (n =? 226)
  || (n =? 227) || (n =? 239).

Fixpoint spaceless (s : string) : bool :=
  match s with
  | EmptyString => true
  | String c r => negb (starts_space c) && spaceless r
  end.

(** *** Values of the further examples *)

(** A process whose password is ["correct-password"], and requests with the
    credentials ["x:correct-password"]. *)
Definition env1 : ambient :=
  mkAmbient 1704067200000 None (Some "correct-password")
    "123e4567-e89b-12d3-a456-426614174000".

Definition basic_x : option string := Some "Basic eDpjb3JyZWN0LXBhc3N3b3Jk".

Definition plain_request : Api.request := Api.mkRequest basic_x None "".

Definition json_request (body : string) : Api.request :=
  Api.mkRequest basic_x (Some "application/json") body.

(** The body whose scope is one space, the body that asks for 601 seconds
    and the body that asks for the scope ["lecture"] and ten minutes. *)
Definition blank_scope_body : string :=
  "{" ++ dq ++ "scope" ++ dq ++ ":" ++ dq ++ " " ++ dq ++ "}".

Definition long_body : string := "{" ++ dq ++ "ttlSeconds" ++ dq ++ ":601}".

Definition lecture_body : string :=
  "{" ++ dq ++ "scope" ++ dq ++ ":" ++ dq ++ "lecture" ++ dq ++ ","
  ++ dq ++ "ttlSeconds" ++ dq ++ ":600}".

(* ================================================================= *)
(** * Properties *)

(** Linear arithmetic with divisions and remainders by constants. *)
Ltac zdiv := Z.to_euclidean_division_equations; lia.

(** ** Test vectors of the primitives *)

Example sha256_abc :
  Base64.encode_url (SHA256.sha256 "abc") = "ungWv48Bz-pBQUDeXa4iI7ADYaOWF3qctBD_YfIAFa0".
Proof. vm_compute. reflexivity. Qed.

Example hmac_rfc_style_vector :
  hmac_base64url "key" "The quick brown fox jumps over the lazy dog"
  = "97yD9DBThCSxMpjmqm-xQ-9NWaFJRhdZl0edvC0aPNg".
Proof. vm_compute. reflexivity. Qed.

Example toISOString_bounds :
  JSDate.toISOString (Some 8640000000000000) = Return "+275760-09-13T00:00:00.000Z"
  /\ JSDate.toISOString (Some (-62167219200001)) = Return "-000001-12-31T23:59:59.999Z".
Proof. split; vm_compute; reflexivity. Qed.

(** ** Strings *)

Module StrFacts.

Lemma code_bounds c : 0 <= Str.code c < 256.
Proof.
  unfold Str.code. pose proof (N_ascii_bounded c). lia.
Qed.

Lemma chr_code c : Str.chr (Str.code c) = c.
Proof.
  unfold Str.chr. rewrite Z.mod_small by apply code_bounds.
  unfold Str.code. rewrite N2Z.id. apply ascii_N_embedding.
Qed.

Lemma code_chr z : 0 <= z < 256 -> Str.code (Str.chr z) = z.
Proof.
  intros H. unfold Str.code, Str.chr. rewrite Z.mod_small by lia.
  rewrite N_ascii_embedding by lia. lia.
Qed.

Lemma append_nil_r s : s ++ "" = s.
Proof. induction s; simpl; congruence. Qed.

Lemma append_assoc (a b c : string) : (a ++ b) ++ c = a ++ (b ++ c).
Proof. induction a; simpl; congruence. Qed.

Lemma split_not_nil sep s : Str.split sep s <> [].
Proof.
  destruct s as [|c r]; simpl; [discriminate|].
  destruct (Ascii.eqb c sep); [discriminate|].
  destruct (Str.split sep r); discriminate.
Qed.

Lemma split_without sep s : contains sep s = false -> Str.split sep s = [s].
Proof.
  induction s as [|c r IH]; simpl; intros H; [reflexivity|].
  apply orb_false_iff in H as [Hc Hr]. rewrite Hc, (IH Hr). reflexivity.
Qed.

Lemma split_at_first sep s t :
  contains sep s = false ->
  Str.split sep (s ++ String sep t) = s :: Str.split sep t.
Proof.
  induction s as [|c r IH]; simpl; intros H.
  - rewrite Ascii.eqb_refl. reflexivity.
  - apply orb_false_iff in H as [Hc Hr]. rewrite Hc, (IH Hr). reflexivity.
Qed.

(** A token of three separator-free segments splits into them. *)
Lemma split_three h p s :
  contains "." h = false -> contains "." p = false -> contains "." s = false ->
  Str.split "." (h ++ "." ++ p ++ "." ++ s) = [h; p; s].
Proof.
  intros Hh Hp Hs. simpl.
  rewrite (split_at_first _ _ _ Hh). simpl.
  rewrite (split_at_first _ _ _ Hp), (split_without _ _ Hs). reflexivity.
Qed.

Lemma eqb_empty s : String.eqb s "" = false <-> s <> "".
Proof. destruct s; simpl; split; congruence. Qed.

End StrFacts.

(** ** Base64 *)

Module Base64Facts.
Import Base64.

Lemma sextet_cases (P : Z -> Prop) :
  (forall n : nat, (n < 64)%nat -> P (Z.of_nat n)) -> forall v, 0 <= v < 64 -> P v.
Proof.
  intros H v Hv. rewrite <- (Z2Nat.id v) by lia. apply H. lia.
Qed.

Ltac each_sextet n :=
  do 64 (destruct n as [|n]; [vm_compute; intuition congruence|]); lia.

Lemma unbase64_url_char v : 0 <= v < 64 -> unbase64 (url_char v) = Some v.
Proof.
  revert v. apply sextet_cases. intros n Hn. each_sextet n.
Qed.

Lemma url_char_plain v :
  0 <= v < 64 ->
  Ascii.eqb (url_char v) "=" = false /\ Ascii.eqb (url_char v) "." = false.
Proof.
  revert v. apply sextet_cases. intros n Hn. each_sextet n.
Qed.

Lemma sextets_cons v r :
  0 <= v < 64 -> sextets (String (url_char v) r) = v :: sextets r.
Proof.
  intros H. simpl. rewrite (proj1 (url_char_plain v H)), (unbase64_url_char v H).
  reflexivity.
Qed.

Lemma string_ind3 (P : string -> Prop) :
  P "" ->
  (forall a, P (String a "")) ->
  (forall a b, P (String a (String b ""))) ->
  (forall a b c r, P r -> P (String a (String b (String c r)))) ->
  forall s, P s.
Proof.
  intros H0 H1 H2 H3.
  fix IH 1. intros [|a [|b [|c r]]]; [exact H0|apply H1|apply H2|].
  apply H3, IH.
Qed.

Ltac byte_bounds :=
  repeat match goal with
         | c : ascii |- _ =>
             lazymatch goal with
             | _ : 0 <= Str.code c < 256 |- _ => fail
             | _ => pose proof (StrFacts.code_bounds c)
             end
         end.

Ltac sextet_range := byte_bounds; zdiv.

(** Decoding what [toString("base64url")] wrote gives the bytes back. *)
Lemma decode_encode_url s : decode (encode_url s) = s.
Proof.
  unfold decode. induction s as [|a|a b|a b c r IH] using string_ind3.
  - reflexivity.
  - cbn [encode_url]. rewrite !sextets_cons by sextet_range. cbn [sextets bytes_of_sextets].
    f_equal. rewrite <- (StrFacts.chr_code a) at 3. f_equal. sextet_range.
  - cbn [encode_url]. rewrite !sextets_cons by sextet_range. cbn [sextets bytes_of_sextets].
    f_equal; [|f_equal].
    + rewrite <- (StrFacts.chr_code a) at 3. f_equal. sextet_range.
    + rewrite <- (StrFacts.chr_code b) at 3. f_equal. sextet_range.
  - cbn [encode_url]. rewrite !sextets_cons by sextet_range. cbn [bytes_of_sextets].
    rewrite IH. f_equal; [|f_equal; [|f_equal]].
    + rewrite <- (StrFacts.chr_code a) at 3. f_equal. sextet_range.
    + rewrite <- (StrFacts.chr_code b) at 3. f_equal. sextet_range.
    + rewrite <- (StrFacts.chr_code c) at 3. f_equal. sextet_range.
Qed.

(** The alphabet has no separator. *)
Lemma encode_url_no_dot s : contains "." (encode_url s) = false.
Proof.
  induction s as [|a|a b|a b c r IH] using string_ind3; cbn [encode_url contains];
    rewrite ?IH;
    repeat match goal with
           | |- context [Ascii.eqb (url_char ?v) "."%char] =>
               rewrite (fun H => proj2 (url_char_plain v H)) by sextet_range
           end; reflexivity.
Qed.

Lemma encode_url_nonempty a r : encode_url (String a r) <> "".
Proof. destruct r as [|b [|c r]]; discriminate. Qed.

End Base64Facts.

(** ** The signature *)

Module SignatureFacts.

Lemma sha256_length msg : String.length (SHA256.sha256 msg) = 32%nat.
Proof.
  unfold SHA256.sha256.
  destruct (fold_left _ _ _) as [[[[[[[a b] c] d] e] f] g] h].
  reflexivity.
Qed.

Lemma hmac_base64url_nonempty secret msg : hmac_base64url secret msg <> "".
Proof.
  unfold hmac_base64url, SHA256.hmac.
  match goal with
  | |- Base64.encode_url ?d <> _ => pose proof (eq_refl (String.length d)) as H
  end.
  rewrite sha256_length in H at 1.
  match goal with
  | |- Base64.encode_url ?d <> _ => destruct d; [discriminate H|]
  end.
  apply Base64Facts.encode_url_nonempty.
Qed.

Lemma hmac_base64url_no_dot secret msg : contains "." (hmac_base64url secret msg) = false.
Proof. apply Base64Facts.encode_url_no_dot. Qed.

(** Segments that hold no separator. *)
Create HintDb segments.
#[global] Hint Resolve Base64Facts.encode_url_no_dot hmac_base64url_no_dot : segments.

End SignatureFacts.

(** ** Numbers: printing and reading integers *)

Module NumFacts.
Import Num.

Lemma span_digits_end rest :
  ends_number rest -> span_digits rest = (EmptyString, rest).
Proof.
  destruct rest as [|c r]; simpl; [reflexivity|]. intros [H _]. rewrite H. reflexivity.
Qed.

Lemma span_digits_uint d rest :
  ends_number rest ->
  span_digits (NilEmpty.string_of_uint d ++ rest) = (NilEmpty.string_of_uint d, rest).
Proof.
  intros H.
  induction d; cbn [NilEmpty.string_of_uint append span_digits];
    rewrite ?IHd; try reflexivity.
  apply span_digits_end, H.
Qed.

Lemma digits_value_uint d :
  digits_value (NilEmpty.string_of_uint d) = Z.of_N (N.of_uint d).
Proof. unfold digits_value. rewrite NilEmpty.usu. reflexivity. Qed.

Lemma nzhead_head d :
  match Decimal.nzhead d with
  | Decimal.D0 _ => False
  | _ => True
  end.
Proof. induction d; simpl; auto. Qed.

(** The decimal form of a positive number starts with a digit other than 0. *)
Lemma positive_digits p :
  exists c r,
    NilEmpty.string_of_uint (Pos.to_uint p) = String c r
    /\ is_digit c = true /\ Ascii.eqb c "0" = false /\ Ascii.eqb c "-" = false.
Proof.
  pose proof (DecimalPos.Unsigned.to_uint_nonzero p) as Hz.
  pose proof (DecimalPos.Unsigned.to_uint_nonnil p) as Hn.
  assert (Hu : Decimal.unorm (Pos.to_uint p) = Pos.to_uint p).
  { rewrite <- DecimalPos.Unsigned.to_of, DecimalPos.Unsigned.of_to. reflexivity. }
  pose proof (nzhead_head (Pos.to_uint p)) as Hh.
  unfold Decimal.unorm in Hu.
  destruct (Decimal.nzhead (Pos.to_uint p)) eqn:E;
    rewrite <- Hu; try contradiction; try (exfalso; apply Hz; rewrite <- Hu; reflexivity);
    cbn [NilEmpty.string_of_uint]; do 2 eexists; (split; [reflexivity|]);
    repeat split; reflexivity.
Qed.

Lemma toString_int z :
  Z.abs z < 10 ^ 21 ->
  toString (Dec z 0) =
  if z =? 0 then "0" else (if z <? 0 then "-" else "") ++ digits (Z.abs z).
Proof.
  intros H. unfold toString. cbn [normalize].
  destruct (z =? 0); [reflexivity|].
  apply Z.ltb_lt in H. rewrite H. reflexivity.
Qed.

Lemma parse_unsigned (neg : bool) (n : positive) rest :
  ends_number rest ->
  let i := digits (Z.pos n) in
  (let '(i', s2) := span_digits (i ++ rest) in
   match i' with
   | EmptyString => None
   | _ =>
       if leading_zero i' then None
       else
         match parse_fraction s2 with
         | None => None
         | Some (f, s3) =>
             match parse_exponent s3 with
             | None => None
             | Some (e, s4) => Some (of_literal neg i' f e, s4)
             end
         end
   end) = Some (Dec (if neg then Z.neg n else Z.pos n) 0, rest).
Proof.
  intros Hend i. subst i. unfold digits. cbn [Z.to_N N.to_uint].
  rewrite (span_digits_uint _ _ Hend).
  destruct (positive_digits n) as (c & r & E & Hd & H0 & Hm).
  assert (Hv : digits_value (NilEmpty.string_of_uint (Pos.to_uint n)) = Z.pos n).
  { rewrite digits_value_uint. change (Pos.to_uint n) with (N.to_uint (N.pos n)).
    rewrite DecimalN.Unsigned.of_to. reflexivity. }
  rewrite E in *.
  assert (Hlz : leading_zero (String c r) = false).
  { unfold leading_zero. destruct r; [reflexivity|exact H0]. }
  rewrite Hlz.
  assert (Hf : parse_fraction rest = Some (EmptyString, rest)).
  { destruct rest as [|c' r']; [reflexivity|]. unfold parse_fraction.
    destruct Hend as (_ & -> & _). reflexivity. }
  assert (He : parse_exponent rest = Some (0, rest)).
  { destruct rest as [|c' r']; [reflexivity|]. unfold parse_exponent.
    destruct Hend as (_ & _ & -> & ->). reflexivity. }
  rewrite Hf, He. unfold of_literal. rewrite StrFacts.append_nil_r, Hv.
  destruct neg; reflexivity.
Qed.

(** Reading back an integer that was printed. *)
Lemma parse_json_number_int z rest :
  Z.abs z < 10 ^ 21 -> ends_number rest ->
  parse_json_number (toString (Dec z 0) ++ rest) = Some (Dec z 0, rest).
Proof.
  intros Hz Hend. rewrite (toString_int z Hz).
  destruct z as [|n|n]; cbn [Z.eqb Z.ltb Z.compare Z.abs].
  - unfold parse_json_number. cbn.
    rewrite (span_digits_end _ Hend).
    destruct rest as [|c r]; [reflexivity|].
    destruct Hend as (Hd & Hp & He & HE).
    unfold leading_zero, parse_fraction, parse_exponent. rewrite Hp, He, HE. reflexivity.
  - unfold parse_json_number.
    destruct (positive_digits n) as (c & r & E & Hd & H0 & Hm).
    assert (Hs : strip_minus (digits (Z.pos n) ++ rest) = (false, digits (Z.pos n) ++ rest)).
    { unfold digits. cbn [Z.to_N N.to_uint]. rewrite E. cbn. rewrite Hm. reflexivity. }
    cbn [append]. rewrite Hs.
    apply (parse_unsigned false n rest Hend).
  - unfold parse_json_number. cbn [append strip_minus Ascii.eqb Bool.eqb].
    apply (parse_unsigned true n rest Hend).
Qed.

(** The first character of a printed integer. *)
Lemma toString_int_head z :
  Z.abs z < 10 ^ 21 ->
  exists c r, toString (Dec z 0) = String c r
              /\ (is_digit c = true \/ c = "-"%char).
Proof.
  intros Hz. rewrite (toString_int z Hz).
  destruct z as [|n|n]; cbn [Z.eqb Z.ltb Z.compare Z.abs].
  - do 2 eexists. split; [reflexivity|]. left. reflexivity.
  - destruct (positive_digits n) as (c & r & E & Hd & _).
    exists c, r. split; [|left; exact Hd].
    unfold digits. cbn [Z.to_N N.to_uint append]. exact E.
  - do 2 eexists. split; [reflexivity|]. right. reflexivity.
Qed.

End NumFacts.

(** ** JSON: reading back what [JSON.stringify] wrote *)

Module JSONFacts.
Import JSON.

Lemma parse_chars_quote_char c t :
  parse_chars (quote_char c ++ t) = prepend (String c EmptyString) (parse_chars t).
Proof.
  destruct c as [[] [] [] [] [] [] [] []]; reflexivity.
Qed.

Lemma parse_chars_quote_chars s rest :
  parse_chars (quote_chars s ++ String DQ rest) = Some (s, rest).
Proof.
  induction s as [|c s IH]; [reflexivity|].
  cbn [quote_chars]. rewrite StrFacts.append_assoc, parse_chars_quote_char, IH.
  reflexivity.
Qed.

Lemma parse_value_number f c r :
  Num.is_digit c = true \/ c = "-"%char ->
  parse_value (S f) (String c r) =
  match Num.parse_json_number (String c r) with
  | Some (n, r') => Some (JNum n, r')
  | None => None
  end.
Proof.
  intros H.
  destruct c as [[] [] [] [] [] [] [] []];
    try reflexivity;
    exfalso; destruct H as [H|H]; (discriminate H || (vm_compute in H; discriminate H)).
Qed.

Lemma parse_value_int f z rest :
  Z.abs z < 10 ^ 21 -> ends_number rest ->
  parse_value (S f) (Num.toString (Num.Dec z 0) ++ rest) = Some (JNum (Num.Dec z 0), rest).
Proof.
  intros Hz Hend.
  pose proof (NumFacts.parse_json_number_int z rest Hz Hend) as Hp.
  destruct (NumFacts.toString_int_head z Hz) as (c & r & E & Hc).
  rewrite E in *. cbn [append] in *.
  rewrite (parse_value_number f c _ Hc), Hp. reflexivity.
Qed.

End JSONFacts.

(** ** The payload: [JSON.parse] after [JSON.stringify] *)

Module PayloadFacts.
Import JSON.

Lemma parse_value_object f r :
  parse_value (S f) (String "{" (String DQ r)) = parse_members f [] (String DQ r).
Proof. reflexivity. Qed.

Lemma parse_value_string f s r :
  parse_value (S f) (String DQ (quote_chars s ++ String DQ r)) = Some (JStr s, r).
Proof.
  change (parse_value (S f) (String DQ (quote_chars s ++ String DQ r)))
    with (match parse_chars (quote_chars s ++ String DQ r) with
          | Some (str, r') => Some (JStr str, r')
          | None => None
          end).
  rewrite JSONFacts.parse_chars_quote_chars. reflexivity.
Qed.

Lemma parse_members_next f acc k r v r4 :
  parse_value f r = Some (v, String "," (String DQ r4)) ->
  parse_members (S f) acc (String DQ (quote_chars k ++ String DQ (String ":" r)))
  = parse_members f (set_member k v acc) (String DQ r4).
Proof.
  intros H. cbn [parse_members].
  rewrite JSONFacts.parse_chars_quote_chars.
  change (skip_ws (String ":" r)) with (String ":" r). cbv iota beta.
  rewrite H. reflexivity.
Qed.

Lemma parse_members_last f acc k r v r4 :
  parse_value f r = Some (v, String "}" r4) ->
  parse_members (S f) acc (String DQ (quote_chars k ++ String DQ (String ":" r)))
  = Some (JObj (set_member k v acc), r4).
Proof.
  intros H. cbn [parse_members].
  rewrite JSONFacts.parse_chars_quote_chars.
  change (skip_ws (String ":" r)) with (String ":" r). cbv iota beta.
  rewrite H. reflexivity.
Qed.

Lemma stringify_payload jti scope iat exp :
  stringify (SessionTokenPayload.to_json (SessionTokenPayload.mk jti scope iat exp))
  = "{" ++ dq ++ quote_chars "jti" ++ dq ++ ":" ++ dq ++ quote_chars jti ++ dq
    ++ "," ++ dq ++ quote_chars "scope" ++ dq ++ ":" ++ dq ++ quote_chars scope ++ dq
    ++ "," ++ dq ++ quote_chars "iat" ++ dq ++ ":"
    ++ (if Num.is_finite iat then Num.toString iat else "null")
    ++ "," ++ dq ++ quote_chars "exp" ++ dq ++ ":"
    ++ (if Num.is_finite exp then Num.toString exp else "null") ++ "}".
Proof.
  unfold SessionTokenPayload.to_json.
  cbn [SessionTokenPayload.jti SessionTokenPayload.scope SessionTokenPayload.iat
       SessionTokenPayload.exp stringify map join fst snd].
  unfold quote, dq.
  repeat (progress (rewrite ?StrFacts.append_assoc; cbn [append])).
  reflexivity.
Qed.

Lemma parse_value_payload jti scope a b f :
  Z.abs a < 10 ^ 21 -> Z.abs b < 10 ^ 21 ->
  parse_value (S (S (S (S (S (S (S (S (S f)))))))))
    (stringify (SessionTokenPayload.to_json
                  (SessionTokenPayload.mk jti scope (Num.Dec a 0) (Num.Dec b 0))))
  = Some (SessionTokenPayload.to_json
            (SessionTokenPayload.mk jti scope (Num.Dec a 0) (Num.Dec b 0)), "").
Proof.
  intros Ha Hb. rewrite stringify_payload. unfold dq. cbn [Num.is_finite append].
  rewrite parse_value_object.
  erewrite parse_members_next by apply parse_value_string.
  erewrite parse_members_next by apply parse_value_string.
  erewrite parse_members_next
    by (apply JSONFacts.parse_value_int; [exact Ha|repeat split; reflexivity]).
  erewrite parse_members_last
    by (apply JSONFacts.parse_value_int; [exact Hb|repeat split; reflexivity]).
  reflexivity.
Qed.

Lemma length_ge_9 (p : SessionTokenPayload.t) :
  exists f, String.length (stringify (SessionTokenPayload.to_json p))
            = S (S (S (S (S (S (S (S f))))))).
Proof.
  destruct p as [jti scope iat exp]. rewrite stringify_payload.
  change (quote_chars "jti") with "jti". unfold dq.
  cbn [append String.length]. eexists. reflexivity.
Qed.

(** The payload that was signed is the payload that is read. *)
Lemma parse_stringify_payload jti scope a b :
  Z.abs a < 10 ^ 21 -> Z.abs b < 10 ^ 21 ->
  parse (stringify (SessionTokenPayload.to_json
                      (SessionTokenPayload.mk jti scope (Num.Dec a 0) (Num.Dec b 0))))
  = Return (SessionTokenPayload.to_json
              (SessionTokenPayload.mk jti scope (Num.Dec a 0) (Num.Dec b 0))).
Proof.
  intros Ha Hb. unfold parse.
  destruct (length_ge_9 (SessionTokenPayload.mk jti scope (Num.Dec a 0) (Num.Dec b 0)))
    as [f ->].
  rewrite (parse_value_payload jti scope a b f Ha Hb). reflexivity.
Qed.

End PayloadFacts.

(** ** Dates: [Date.parse] reads what [toISOString] writes *)

Module DateFacts.
Import JSDate.

Lemma digit_char_code d : 0 <= d <= 9 -> Str.code (digit_char d) = 48 + d.
Proof. intros H. unfold digit_char. apply StrFacts.code_chr. lia. Qed.

Lemma digit_char_digit d : 0 <= d <= 9 -> Num.is_digit (digit_char d) = true.
Proof.
  intros H. unfold Num.is_digit. rewrite (digit_char_code d H).
  apply andb_true_iff. split; apply Z.leb_le; lia.
Qed.

Lemma eqb_by_code c1 c2 : Str.code c1 <> Str.code c2 -> Ascii.eqb c1 c2 = false.
Proof. intros H. apply Ascii.eqb_neq. intros ->. apply H. reflexivity. Qed.

Lemma digit_char_no_sign d :
  0 <= d <= 9 ->
  Ascii.eqb (digit_char d) "+" = false /\ Ascii.eqb (digit_char d) "-" = false.
Proof.
  intros H. split; apply eqb_by_code; rewrite (digit_char_code d H);
    vm_compute (Str.code _); lia.
Qed.

Lemma read_digit n acc d rest :
  0 <= d <= 9 ->
  read_digits (S n) acc (String (digit_char d) rest) = read_digits n (acc * 10 + d) rest.
Proof.
  intros H. cbn [read_digits]. rewrite (digit_char_digit d H), (digit_char_code d H).
  f_equal. lia.
Qed.

Lemma read_pad2 n acc v rest :
  0 <= v < 100 ->
  read_digits (S (S n)) acc (pad2 v ++ rest) = read_digits n (acc * 100 + v) rest.
Proof.
  intros H. unfold pad2. cbn [append].
  rewrite !read_digit by zdiv. f_equal. zdiv.
Qed.

Lemma read_pad3 n acc v rest :
  0 <= v < 1000 ->
  read_digits (S (S (S n))) acc (pad3 v ++ rest) = read_digits n (acc * 1000 + v) rest.
Proof.
  intros H. unfold pad3. cbn [append].
  rewrite read_digit by zdiv. rewrite read_pad2 by zdiv. f_equal. zdiv.
Qed.

Lemma read_pad4 n acc v rest :
  0 <= v < 10000 ->
  read_digits (S (S (S (S n)))) acc (pad4 v ++ rest)
  = read_digits n (acc * 10000 + v) rest.
Proof.
  intros H. unfold pad4. cbn [append].
  rewrite read_digit by zdiv. rewrite read_pad3 by zdiv. f_equal. zdiv.
Qed.

Lemma read_pad6 acc v rest :
  0 <= v < 1000000 ->
  read_digits 6 acc (pad6 v ++ rest) = Some (acc * 1000000 + v, rest).
Proof.
  intros H. unfold pad6. rewrite StrFacts.append_assoc.
  rewrite read_pad2 by zdiv. rewrite read_pad4 by zdiv. cbn [read_digits].
  do 2 f_equal. zdiv.
Qed.

Lemma read_two v rest :
  0 <= v < 100 -> read_digits 2 0 (pad2 v ++ rest) = Some (v, rest).
Proof. intros H. rewrite read_pad2 by exact H. reflexivity. Qed.

Lemma read_three v rest :
  0 <= v < 1000 -> read_digits 3 0 (pad3 v ++ rest) = Some (v, rest).
Proof. intros H. rewrite read_pad3 by exact H. reflexivity. Qed.

Lemma read_year_format y rest :
  -1000000 < y < 1000000 -> read_year (format_year y ++ rest) = Some (y, rest).
Proof.
  intros H. unfold format_year.
  destruct ((0 <=? y) && (y <=? 9999)) eqn:E.
  - apply andb_true_iff in E as [E1 E2]. apply Z.leb_le in E1, E2.
    unfold read_year, pad4 at 1. cbn [append].
    destruct (digit_char_no_sign (y / 1000)) as [-> ->]; [zdiv|].
    change (String (digit_char (y / 1000)) (pad3 (y mod 1000) ++ rest))
      with (pad4 y ++ rest).
    rewrite read_pad4 by lia. cbn [read_digits]. do 2 f_equal.
  - assert (Hy : y < 0 \/ 9999 < y).
    { apply andb_false_iff in E as [E|E]; [apply Z.leb_gt in E|apply Z.leb_gt in E]; lia. }
    unfold read_year. cbn [append].
    destruct (y <? 0) eqn:Hneg.
    + apply Z.ltb_lt in Hneg. cbn [Ascii.eqb Bool.eqb].
      rewrite read_pad6 by lia. cbn [Z.mul Z.add].
      replace (Z.abs y =? 0) with false by (symmetry; apply Z.eqb_neq; lia).
      do 2 f_equal. lia.
    + apply Z.ltb_ge in Hneg. cbn [Ascii.eqb Bool.eqb].
      rewrite read_pad6 by lia. do 2 f_equal. lia.
Qed.

Lemma all_from_spec n f : forall z,
  all_from n z f = true -> forall i, z <= i < z + Z.of_nat n -> f i = true.
Proof.
  induction n as [|n IH]; intros z H i Hi; [lia|].
  cbn [all_from] in H. apply andb_true_iff in H as [H0 H1].
  destruct (Z.eq_dec i z) as [->|Hne]; [exact H0|].
  apply (IH (z + 1) H1). lia.
Qed.

Lemma era_days_ok : all_from (Z.to_nat 146097) 0 era_day_ok = true.
Proof. vm_compute. reflexivity. Qed.

Lemma era_day doe : 0 <= doe < 146097 -> era_day_ok doe = true.
Proof.
  intros H. apply (all_from_spec (Z.to_nat 146097) era_day_ok 0 era_days_ok).
  rewrite Z2Nat.id; lia.
Qed.

Lemma is_leap_era y era : is_leap (y + era * 400) = is_leap y.
Proof.
  unfold is_leap.
  replace ((y + era * 400) mod 4) with (y mod 4) by zdiv.
  replace ((y + era * 400) mod 100) with (y mod 100) by zdiv.
  replace ((y + era * 400) mod 400) with (y mod 400) by zdiv.
  reflexivity.
Qed.

Lemma days_in_month_era y era m : days_in_month (y + era * 400) m = days_in_month y m.
Proof. unfold days_in_month. rewrite is_leap_era. reflexivity. Qed.

Lemma civil_from_days_ok z :
  let '(y, m, d) := civil_from_days z in
  1 <= m <= 12 /\ 1 <= d <= days_in_month y m
  /\ days_from_civil y m d = z
  /\ (z + 719468) / 146097 * 400 <= y <= (z + 719468) / 146097 * 400 + 400.
Proof.
  unfold civil_from_days.
  pose proof (era_day ((z + 719468) mod 146097)) as H.
  unfold era_day_ok in H. fold JSDate.civil_of_doe in H.
  destruct (civil_of_doe ((z + 719468) mod 146097)) as [[yoe m] d].
  assert (Hr : 0 <= (z + 719468) mod 146097 < 146097) by (apply Z.mod_pos_bound; lia).
  specialize (H Hr).
  repeat (apply andb_true_iff in H as [H ?]).
  repeat match goal with
         | H : (_ <=? _) = true |- _ => apply Z.leb_le in H
         | H : (_ <? _) = true |- _ => apply Z.ltb_lt in H
         | H : (_ =? _) = true |- _ => apply Z.eqb_eq in H
         end.
  set (era := (z + 719468) / 146097) in *.
  set (adj := if m <=? 2 then 1 else 0) in *.
  assert (Hadj : 0 <= adj <= 1) by (subst adj; destruct (m <=? 2); lia).
  split; [lia|]. split.
  - replace (yoe + era * 400 + adj) with (yoe + adj + era * 400) by lia.
    rewrite days_in_month_era. lia.
  - split; [|lia].
    unfold days_from_civil. fold adj.
    replace (yoe + era * 400 + adj - adj) with (yoe + era * 400) by lia.
    replace ((yoe + era * 400) / 400) with era by zdiv.
    replace ((yoe + era * 400) mod 400) with yoe by zdiv.
    match goal with H : doe_of_civil _ _ _ = _ |- _ => rewrite H end.
    subst era. zdiv.
Qed.

(** [Date.parse(date.toISOString())] is the time value of the date. *)
Lemma parse_toISOString t :
  Z.abs t <= max_time ->
  exists s, toISOString (Some t) = Return s /\ parse s = Some t.
Proof.
  intros Ht. unfold toISOString.
  pose proof (civil_from_days_ok (t / ms_per_day)) as H.
  destruct (civil_from_days (t / ms_per_day)) as [[y m] d].
  destruct H as (Hm & Hd & Hdays & Hy).
  eexists. split; [reflexivity|].
  unfold max_time, ms_per_day in *.
  assert (Hdim : days_in_month y m <= 31).
  { unfold days_in_month. repeat match goal with |- context [if ?b then _ else _] => destruct b end; lia. }
  set (ms := t mod 86400000) in *.
  assert (Hms : 0 <= ms < 86400000) by (subst ms; apply Z.mod_pos_bound; lia).
  unfold parse.
  rewrite read_year_format by zdiv.
  cbn [append expect Ascii.eqb Bool.eqb].
  rewrite read_two by lia. cbn [append expect Ascii.eqb Bool.eqb].
  rewrite read_two by lia. cbn [append expect Ascii.eqb Bool.eqb].
  rewrite read_two by zdiv. cbn [append expect Ascii.eqb Bool.eqb].
  rewrite read_two by zdiv. cbn [append expect Ascii.eqb Bool.eqb].
  rewrite read_two by zdiv. cbn [append expect Ascii.eqb Bool.eqb].
  rewrite read_three by zdiv. cbn [append expect Ascii.eqb Bool.eqb].
  replace (_ && _) with true.
  - rewrite Hdays. unfold ms_per_day, max_time.
    replace (t / 86400000 * 86400000 + ms / 3600000 * 3600000 + ms / 60000 mod 60 * 60000
             + ms / 1000 mod 60 * 1000 + ms mod 1000) with t by (subst ms; zdiv).
    replace (Z.abs t <=? 8640000000000000) with true by (symmetry; apply Z.leb_le; lia).
    reflexivity.
  - symmetry. repeat (apply andb_true_iff; split); try (apply Z.leb_le; first [lia|zdiv]).
    apply orb_true_iff. left. apply Z.ltb_lt. zdiv.
Qed.

End DateFacts.

(** ** The token engine: what [verifySessionToken] does with a signed token *)

Module VerifyFacts.
Import SessionToken.

Lemma contains_append c a b : contains c (a ++ b) = contains c a || contains c b.
Proof.
  induction a as [|d a IH]; simpl; [reflexivity|]. rewrite IH, orb_assoc. reflexivity.
Qed.

Lemma safeEqual_refl s : safeEqual s s = true.
Proof. unfold safeEqual. rewrite Nat.eqb_refl, String.eqb_refl. reflexivity. Qed.

Lemma safeEqual_eq a b : safeEqual a b = true -> a = b.
Proof.
  unfold safeEqual. destruct (String.length a =? String.length b)%nat; cbn [negb].
  - apply String.eqb_eq.
  - discriminate.
Qed.

Lemma signedToken_nonempty secret h p : String.eqb (signedToken secret h p) "" = false.
Proof. unfold signedToken. destruct h; reflexivity. Qed.

(** Past the signature check only the payload segment is looked at. *)
Lemma verify_signed env h p options :
  contains "." h = false -> contains "." p = false ->
  verifySessionToken env (signedToken (verificationSecret env options) h p) options
  = try_catch
      (payload <- JSON.parse (Base64.decode p) ;;
       assertValidPayload payload (verificationTime env options)
         (VerifySessionTokenOptions.requiredScope options) ;;;
       Return payload)%js
      rethrow.
Proof.
  intros Hh Hp. unfold verifySessionToken.
  fold (verificationSecret env options). fold (verificationTime env options).
  rewrite signedToken_nonempty. unfold signedToken.
  rewrite (StrFacts.split_three h p _ Hh Hp) by auto with segments.
  rewrite safeEqual_refl. reflexivity.
Qed.

(** A payload with a numeric, non-zero [exp] and a truthy [scope]. *)
Lemma assertValidPayload_fields members m k now required :
  JSON.lookup "exp" members = Some (JNum (Num.Dec m k)) -> m <> 0 ->
  JS.truthy (JSON.lookup "scope" members) = true ->
  assertValidPayload (JObj members) now required
  = if m * 1000 <=? now * Num.pow10 k
    then Throw (TokenExpiredError "Session token expired")
    else match required with
         | None | Some (OneScope EmptyString) => Return tt
         | Some req =>
             if negb (includes match req with ManyScopes l => l | OneScope s => [s] end
                        (JSON.lookup "scope" members))
             then Throw (TokenInvalidError "Token scope is not permitted")
             else Return tt
         end.
Proof.
  intros He Hm Hs. unfold assertValidPayload, isSessionTokenExpired.
  cbn [JS.truthy JS.typeof_object JS.get negb orb].
  rewrite He, Hs. cbn [JS.truthy Num.truthy JS.toNumber bind negb orb].
  replace (m =? 0) with false by (symmetry; apply Z.eqb_neq; exact Hm).
  cbn [negb Num.mul Num.le Num.of_Z].
  replace (m * 1000 * Num.pow10 0) with (m * 1000) by (unfold Num.pow10; cbn; lia).
  rewrite Nat.add_0_r.
  destruct (m * 1000 <=? now * Num.pow10 k); reflexivity.
Qed.

Lemma includes_one s v : includes [s] (Some (JStr v)) = String.eqb v s.
Proof. unfold includes. cbn. apply orb_false_r. Qed.

End VerifyFacts.

(* ================================================================= *)
(** ** The credential gate *)

Module CredentialGate.
Import BasicAuth.

Lemma get_at_length pre c rest :
  String.get (String.length pre) (pre ++ String c rest) = Some c.
Proof. induction pre as [|d pre IH]; [reflexivity|exact IH]. Qed.

Lemma length_snoc pre c : String.length (pre ++ String c "") = S (String.length pre).
Proof. induction pre as [|d pre IH]; cbn; congruence. Qed.

Lemma snoc_append pre c rest : (pre ++ String c "") ++ rest = pre ++ String c rest.
Proof. induction pre as [|d pre IH]; cbn; congruence. Qed.

Lemma code_inj c d : Str.code c = Str.code d -> c = d.
Proof.
  intros H. rewrite <- (StrFacts.chr_code c), <- (StrFacts.chr_code d), H. reflexivity.
Qed.

Lemma lor_lxor_zero r x y : (Z.lor r (Z.lxor x y) =? 0) = (r =? 0) && (x =? y).
Proof.
  destruct (Z.eqb_spec (Z.lor r (Z.lxor x y)) 0) as [H|H].
  - apply Z.lor_eq_0_iff in H as [-> H]. apply Z.lxor_eq in H. subst.
    rewrite !Z.eqb_refl. reflexivity.
  - destruct (Z.eqb_spec r 0) as [->|]; [|reflexivity].
    destruct (Z.eqb_spec x y) as [->|]; [|reflexivity].
    exfalso. apply H. rewrite Z.lxor_nilpotent. reflexivity.
Qed.

Lemma code_eqb c d : (Str.code c =? Str.code d) = Ascii.eqb c d.
Proof.
  destruct (Ascii.eqb_spec c d) as [->|H].
  - apply Z.eqb_refl.
  - apply Z.eqb_neq. intros E. apply H, code_inj, E.
Qed.

(** The loop reads both operands at every position it goes through, and
    accumulates zero exactly when they agree there. *)
Lemma compare_loop_spec a b : forall pa pb result,
  String.length a = String.length b ->
  String.length pa = String.length pb ->
  exists v,
    compare_loop (String.length a) (String.length pa) (pa ++ a) (pb ++ b) result
    = (v, reads_from (String.length pa) (String.length a))
    /\ (v =? 0) = (result =? 0) && String.eqb a b.
Proof.
  revert b. induction a as [|x a IH]; intros [|y b] pa pb result Hab Hp;
    try discriminate Hab.
  - exists result. cbn. rewrite andb_true_r. split; reflexivity.
  - injection Hab as Hab.
    destruct (IH b (pa ++ String x "") (pb ++ String y "")
                (Z.lor result (Z.lxor (Str.code x) (Str.code y))) Hab)
      as (v & E & Hv).
    { rewrite !length_snoc. congruence. }
    rewrite !length_snoc, !snoc_append in E.
    exists v. split.
    + cbn [String.length compare_loop reads_from].
      assert (Hy : String.get (String.length pa) (pb ++ String y b) = Some y)
        by (rewrite Hp; apply get_at_length).
      unfold charCodeAt. rewrite get_at_length, Hy.
      cbn [tbind]. rewrite E. reflexivity.
    + rewrite Hv, lor_lxor_zero, code_eqb. cbn [String.eqb].
      destruct (Ascii.eqb x y), (result =? 0); reflexivity.
Qed.

Lemma timingSafeCompare_spec a b :
  timingSafeCompare a b
  = if (String.length a =? String.length b)%nat
    then (String.eqb a b, reads_from 0 (String.length a))
    else (false, []).
Proof.
  unfold timingSafeCompare.
  destruct (Nat.eqb_spec (String.length a) (String.length b)) as [H|H]; cbn [negb];
    [|reflexivity].
  destruct (compare_loop_spec a b "" "" 0 H eq_refl) as (v & E & Hv).
  cbn [append String.length] in E. rewrite E. cbn [tbind ret].
  rewrite List.app_nil_r, Hv. reflexivity.
Qed.

Lemma reads_from_all n : forall i j,
  (i <= j < i + n)%nat ->
  In (OperandA, j) (reads_from i n) /\ In (OperandB, j) (reads_from i n).
Proof.
  induction n as [|n IH]; intros i j H; [lia|].
  cbn [reads_from]. destruct (Nat.eq_dec j i) as [->|Hne].
  - split; [left; reflexivity|right; left; reflexivity].
  - destruct (IH (S i) j) as [HA HB]; [lia|].
    split; right; right; assumption.
Qed.

(** Claim C1, as the code has it.  For a candidate and a secret of ASCII
    characters, [verifyAppPassword] answers [false] without reading a
    character when no secret is configured or when the candidate and the
    secret differ in length; when they have the same length it reads every
    position of both, in an order that depends on that length only, and
    answers whether they are equal. *)
Theorem verifyAppPassword_reads env password :
  let candidate := or_default password "" in
  ascii_text candidate = true ->
  ascii_text (or_default (APP_PASSWORD env) "") = true ->
  match APP_PASSWORD env with
  | None | Some EmptyString => verifyAppPassword env password = (false, [])
  | Some expected =>
      if (String.length candidate =? String.length expected)%nat
      then verifyAppPassword env password
           = (String.eqb candidate expected, reads_from 0 (String.length expected))
           /\ consults_every_byte candidate expected (snd (verifyAppPassword env password))
      else verifyAppPassword env password = (false, [])
  end.
Proof.
  intros candidate _ _. unfold verifyAppPassword. fold candidate.
  destruct (APP_PASSWORD env) as [[|c expected]|]; [reflexivity| |reflexivity].
  rewrite timingSafeCompare_spec.
  destruct (Nat.eqb_spec (String.length candidate) (String.length (String c expected)))
    as [H|H]; [|reflexivity].
  rewrite H. split; [reflexivity|].
  cbn [snd]. split; intros i Hi; apply reads_from_all; lia.
Qed.

Lemma verifyAppPassword_reads_witness :
  verifyAppPassword env_ab (Some "ac") = (false, reads_from 0 2)
  /\ consults_every_byte "ac" "ab" (snd (verifyAppPassword env_ab (Some "ac"))).
Proof.
  exact (verifyAppPassword_reads env_ab (Some "ac") eq_refl eq_refl).
Defined.

(** Claim C1 as stated fails: a candidate shorter than the secret is
    rejected before any character of either is read. *)
Lemma verifyAppPassword_length_mismatch_reads_nothing :
  let env := mkAmbient 0 None (Some "ab") "" in
  verifyAppPassword env (Some "a") = (false, [])
  /\ ~ consults_every_byte "a" "ab" (snd (verifyAppPassword env (Some "a"))).
Proof.
  split; [reflexivity|].
  intros [H _]. exact (H O (Nat.lt_0_succ _)).
Qed.

(** *** [parseBasicAuthHeader] *)

Lemma parse_absent : parseBasicAuthHeader None = None /\ parseBasicAuthHeader (Some "") = None.
Proof. split; reflexivity. Qed.

(** A header whose first word is not [basic], whatever the case, gives no
    credentials. *)
Lemma parse_other_scheme header :
  Str.toLowerCase (nth 0 (Str.split " " header) "") <> "basic" ->
  parseBasicAuthHeader (Some header) = None.
Proof.
  intros H. unfold parseBasicAuthHeader. destruct header as [|c r]; [reflexivity|].
  destruct (Str.split " " (String c r)) as [|scheme [|value rest]]; cbn [nth_error nth] in *;
    try reflexivity.
  replace (String.eqb (Str.toLowerCase scheme) "basic") with false
    by (symmetry; apply String.eqb_neq; exact H).
  cbn [negb]. rewrite !orb_true_r. reflexivity.
Qed.

(** With the scheme [Basic] and a value that decodes to [decoded]: no
    credentials without a colon, and a split at the first colon with one. *)
Lemma parse_basic value :
  value <> "" -> contains " " value = false ->
  parseBasicAuthHeader (Some ("Basic " ++ value))
  = match Str.indexOf ":" (Base64.decode value) with
    | None => None
    | Some i =>
        Some (mkCredentials (Str.take i (Base64.decode value))
                (Str.drop (S i) (Base64.decode value)))
    end.
Proof.
  intros Hne Hsp.
  assert (Hsplit : Str.split " " ("Basic" ++ String " " value) = ["Basic"; value]).
  { rewrite (StrFacts.split_at_first " " "Basic" value eq_refl).
    rewrite (StrFacts.split_without _ _ Hsp). reflexivity. }
  unfold parseBasicAuthHeader. cbn [append] in Hsplit |- *. rewrite Hsplit.
  cbn [nth_error]. destruct value as [|c r]; [contradiction|]. reflexivity.
Qed.

Lemma indexOf_first c u p :
  contains c u = false -> Str.indexOf c (u ++ String c p) = Some (String.length u).
Proof.
  induction u as [|d u IH]; cbn; intros H.
  - rewrite Ascii.eqb_refl. reflexivity.
  - apply orb_false_iff in H as [Hd Hu]. rewrite Hd, (IH Hu). reflexivity.
Qed.

Lemma take_length u r : Str.take (String.length u) (u ++ r) = u.
Proof. induction u as [|d u IH]; cbn; [destruct r; reflexivity|congruence]. Qed.

Lemma drop_length u c r : Str.drop (S (String.length u)) (u ++ String c r) = r.
Proof. induction u as [|d u IH]; cbn; [reflexivity|exact IH]. Qed.

(** The password is everything after the first colon, colons included. *)
Lemma parse_basic_first_colon value username password :
  value <> "" -> contains " " value = false ->
  Base64.decode value = username ++ ":" ++ password ->
  contains ":" username = false ->
  parseBasicAuthHeader (Some ("Basic " ++ value)) = Some (mkCredentials username password).
Proof.
  intros Hne Hsp Hd Hu. rewrite (parse_basic value Hne Hsp), Hd.
  cbn [append]. rewrite (indexOf_first _ _ _ Hu), take_length, drop_length. reflexivity.
Qed.

(** Claim C8 fails on the code: the value [YTpi$] is not base64, yet
    [Buffer.from] skips the stray character instead of throwing, and the
    header yields the credentials [a:b]. *)
Theorem parseBasicAuthHeader_invalid_base64_accepted :
  parseBasicAuthHeader (Some "Basic YTpi$") = Some (mkCredentials "a" "b")
  /\ Base64.unbase64 "$" = None.
Proof. split; reflexivity. Qed.

End CredentialGate.

(* ================================================================= *)
(** ** The token engine *)

Module TokenEngine.
Import SessionToken.

(** *** Rejections that do not depend on the payload *)

Lemma verify_empty env options : InvalidToken (verifySessionToken env "" options).
Proof. eexists. reflexivity. Qed.

Lemma verify_not_three env token options :
  List.length (Str.split "." token) <> 3%nat ->
  InvalidToken (verifySessionToken env token options).
Proof.
  intros H. unfold verifySessionToken.
  destruct (String.eqb token ""); [eexists; reflexivity|].
  destruct (Str.split "." token) as [|h [|p [|s [|x r]]]];
    try (eexists; reflexivity).
  exfalso. apply H. reflexivity.
Qed.

Lemma verify_segments env token options h p s :
  Str.split "." token = [h; p; s] ->
  s <> hmac_base64url (verificationSecret env options) (h ++ "." ++ p) \/ p = "" \/ s = "" ->
  InvalidToken (verifySessionToken env token options).
Proof.
  intros Hs H. unfold verifySessionToken. fold (verificationSecret env options).
  destruct (String.eqb token ""); [eexists; reflexivity|].
  rewrite Hs.
  destruct (safeEqual s _) eqn:E; cbn [negb]; [|eexists; reflexivity].
  apply VerifyFacts.safeEqual_eq in E.
  destruct H as [H | [-> | ->]].
  - contradiction.
  - eexists. reflexivity.
  - exfalso. symmetry in E. exact (SignatureFacts.hmac_base64url_nonempty _ _ E).
Qed.

(** *** Claim C6 *)

(** Claim C6, as the code has it.  A token that is empty, that does not
    split on ["."] into exactly three segments, whose third segment is not
    the recomputed signature, or whose payload or signature segment is empty
    fails with InvalidToken.  (An empty header segment is no reason for a
    rejection.) *)
Theorem verify_rejects_malformed env token options :
  token = ""
  \/ List.length (Str.split "." token) <> 3%nat
  \/ (exists h p s,
        Str.split "." token = [h; p; s]
        /\ (s <> hmac_base64url (verificationSecret env options) (h ++ "." ++ p)
            \/ p = "" \/ s = "")) ->
  InvalidToken (verifySessionToken env token options).
Proof.
  intros [-> | [H | (h & p & s & Hs & H)]].
  - apply verify_empty.
  - apply verify_not_three, H.
  - apply (verify_segments env token options h p s Hs H).
Qed.

Lemma verify_rejects_malformed_witness :
  InvalidToken
    (verifySessionToken env0 "eyJhbGciOiJIUzI1NiIsInR5cCI6IkpXVCJ9..c2ln"
       VerifySessionTokenOptions.empty).
Proof.
  apply verify_rejects_malformed. right. right.
  exists "eyJhbGciOiJIUzI1NiIsInR5cCI6IkpXVCJ9", "", "c2ln".
  split; [reflexivity|]. right. left. reflexivity.
Defined.

(** Claim C6 as stated fails: a token whose header segment is empty, with a
    well-formed payload and the signature of [".payload"], is accepted. *)
Lemma verify_accepts_empty_header :
  Str.split "." headerless_token
  = [""; p0; hmac_base64url "development-session-secret" ("." ++ p0)]
  /\ verifySessionToken env0 headerless_token VerifySessionTokenOptions.empty
     = Return (SessionTokenPayload.to_json payload0).
Proof. split; vm_compute; reflexivity. Qed.

(** *** Tokens that carry the signature of their first two segments *)

(** A payload whose [exp] or [scope] is falsy is refused for its fields,
    whatever the clock and the scope that is required. *)
Lemma verify_missing_fields env options h p members :
  contains "." h = false -> contains "." p = false ->
  JSON.parse (Base64.decode p) = Return (JObj members) ->
  JS.truthy (JSON.lookup "exp" members) = false
  \/ JS.truthy (JSON.lookup "scope" members) = false ->
  verifySessionToken env (signedToken (verificationSecret env options) h p) options
  = Throw (TokenInvalidError "Token payload missing fields").
Proof.
  intros Hh Hp Hj H.
  rewrite (VerifyFacts.verify_signed env h p options Hh Hp).
  rewrite Hj. cbn [bind]. unfold assertValidPayload.
  cbn [JS.truthy JS.typeof_object JS.get negb orb].
  destruct H as [-> | ->]; cbn [negb orb]; [|rewrite orb_true_r]; reflexivity.
Qed.

Section SignedToken.

Variable env : ambient.
Variable options : VerifySessionTokenOptions.t.
Variables h p : string.
Variable members : list (string * json).
Variable m : Z.
Variable k : nat.

(** The segments hold no separator, the payload segment decodes to an
    object, and the [exp] of that object is the number [m / 10^k], not 0. *)
Hypothesis header_segment : contains "." h = false.
Hypothesis payload_segment : contains "." p = false.
Hypothesis payload_object : JSON.parse (Base64.decode p) = Return (JObj members).
Hypothesis payload_exp : JSON.lookup "exp" members = Some (JNum (Num.Dec m k)).
Hypothesis exp_not_zero : m <> 0.

(** The outcome of the verification when the [scope] is truthy as well. *)
Lemma verify_signed_fields :
  JS.truthy (JSON.lookup "scope" members) = true ->
  verifySessionToken env (signedToken (verificationSecret env options) h p) options
  = if m * 1000 <=? verificationTime env options * Num.pow10 k
    then Throw (TokenExpiredError "Session token expired")
    else match VerifySessionTokenOptions.requiredScope options with
         | None | Some (OneScope EmptyString) => Return (JObj members)
         | Some req =>
             if negb (includes match req with ManyScopes l => l | OneScope s => [s] end
                        (JSON.lookup "scope" members))
             then Throw (TokenInvalidError "Token scope is not permitted")
             else Return (JObj members)
         end.
Proof.
  intros Hs.
  rewrite (VerifyFacts.verify_signed env h p options header_segment payload_segment).
  rewrite payload_object. cbn [bind].
  rewrite (VerifyFacts.assertValidPayload_fields _ m k _ _ payload_exp exp_not_zero Hs).
  destruct (m * 1000 <=? _); [reflexivity|].
  destruct (VerifySessionTokenOptions.requiredScope options) as [[[|c s]|l]|];
    try reflexivity;
    match goal with |- context [negb ?b] => destruct b end; reflexivity.
Qed.

(** Expired, whatever scope is required. *)
Lemma verify_signed_expired :
  JS.truthy (JSON.lookup "scope" members) = true ->
  m * 1000 <= verificationTime env options * Num.pow10 k ->
  verifySessionToken env (signedToken (verificationSecret env options) h p) options
  = Throw (TokenExpiredError "Session token expired").
Proof.
  intros Hs Hexp. rewrite (verify_signed_fields Hs).
  apply Z.leb_le in Hexp. rewrite Hexp. reflexivity.
Qed.

End SignedToken.

Lemma seconds_scale now : now * Num.pow10 0 = now.
Proof. unfold Num.pow10. cbn. lia. Qed.

(** *** Claim C3 *)

(** Claim C3, as the code has it.  For a validly signed token whose payload
    is an object: when its [scope] is truthy (and no number but a whole one)
    and its [exp] is a whole number of seconds, exact in doubles and not 0,
    verification fails with TokenExpired exactly when [exp * 1000 <= now],
    so at [now = exp * 1000] it does and one millisecond earlier it does not; when its [exp] or its
    [scope] is falsy ([exp] 0, an empty scope, a field that is absent) it
    fails with InvalidToken for the missing fields at every instant, before
    the expiry is looked at. *)
Theorem verify_expired_iff env options h p members :
  contains "." h = false -> contains "." p = false ->
  JSON.parse (Base64.decode p) = Return (JObj members) ->
  (forall m,
     JSON.lookup "exp" members = Some (JNum (Num.Dec m 0)) ->
     exact_seconds m -> m <> 0 ->
     JS.truthy (JSON.lookup "scope" members) = true ->
     exact_value (JSON.lookup "scope" members) ->
     (TokenExpired
        (verifySessionToken env (signedToken (verificationSecret env options) h p)
           options)
      <-> m * 1000 <= verificationTime env options)
     /\ (verificationTime env options = m * 1000 ->
         TokenExpired
           (verifySessionToken env (signedToken (verificationSecret env options) h p)
              options))
     /\ (verificationTime env options = m * 1000 - 1 ->
         ~ TokenExpired
             (verifySessionToken env (signedToken (verificationSecret env options) h p)
                options)))
  /\ (JS.truthy (JSON.lookup "exp" members) = false
      \/ JS.truthy (JSON.lookup "scope" members) = false ->
      verifySessionToken env (signedToken (verificationSecret env options) h p) options
      = Throw (TokenInvalidError "Token payload missing fields")).
Proof.
  intros Hh Hp Hj. split.
  - intros m Hm _ Hz Hs _.
    assert (Hiff : TokenExpired
                     (verifySessionToken env
                        (signedToken (verificationSecret env options) h p) options)
                   <-> m * 1000 <= verificationTime env options).
    { rewrite (verify_signed_fields env options h p members m O Hh Hp Hj Hm Hz Hs).
      rewrite seconds_scale.
      destruct (Z.leb_spec (m * 1000) (verificationTime env options)) as [H|H].
      - split; [intros _; exact H|intros _; eexists; reflexivity].
      - split; [|lia]. intros [msg E]. exfalso.
        destruct (VerifySessionTokenOptions.requiredScope options) as [[[|c s]|l]|];
          try discriminate E;
          match type of E with context [negb ?b] => destruct b end; discriminate E. }
    split; [exact Hiff|]. split.
    + intros Hnow. apply Hiff. lia.
    + intros Hnow Hexp. apply Hiff in Hexp. lia.
  - exact (verify_missing_fields env options h p members Hh Hp Hj).
Qed.

Lemma verify_expired_iff_witness :
  (TokenExpired
     (verifySessionToken env0 (signedToken "test-secret" "e30" p0)
        (at_time 1704067260000 None))
   /\ ~ TokenExpired
         (verifySessionToken env0 (signedToken "test-secret" "e30" p0)
            (at_time 1704067259999 None)))
  /\ verifySessionToken env0 scopeless_token (at_time 1704067260000 None)
     = Throw (TokenInvalidError "Token payload missing fields").
Proof.
  split; [split|].
  - apply (proj1 (verify_expired_iff env0 (at_time 1704067260000 None) "e30" p0 members0
                    eq_refl eq_refl eq_refl) 1704067260);
      (reflexivity || discriminate).
  - apply (proj1 (verify_expired_iff env0 (at_time 1704067259999 None) "e30" p0 members0
                    eq_refl eq_refl eq_refl) 1704067260);
      (reflexivity || discriminate).
  - apply (proj2 (verify_expired_iff env0 (at_time 1704067260000 None)
                    "eyJhbGciOiJIUzI1NiIsInR5cCI6IkpXVCJ9"
                    (Base64.encode_url
                       (JSON.stringify (SessionTokenPayload.to_json scopeless_payload)))
                    [("jti", JStr "id"); ("scope", JStr "");
                     ("iat", JNum (Num.Dec 1704067200 0));
                     ("exp", JNum (Num.Dec 1704067260 0))]
                    eq_refl eq_refl eq_refl)).
    right. reflexivity.
Defined.

(** Claim C3 as stated fails: a validly signed token whose payload has the
    fields [scope] and [exp], with [exp] the second 0, verified at the
    instant 0, is past its expiry, and fails with InvalidToken. *)
Lemma verify_zero_exp_not_expired :
  JSON.parse (Base64.decode (nth 1 (Str.split "." zero_token) ""))
  = Return (SessionTokenPayload.to_json zero_payload)
  /\ 0 * 1000 <= 0
  /\ verifySessionToken env0 zero_token (at_time 0 None)
     = Throw (TokenInvalidError "Token payload missing fields").
Proof. repeat split; try (vm_compute; reflexivity). lia. Qed.

(** *** Claim C10 *)

(** Claim C10.  Whatever the header segment [h] holds, a token [h.p.s]
    whose payload segment decodes to an object with a non-empty string
    [scope] and, as [exp], a whole number of seconds, exact in doubles, not 0
    and in the future, and whose signature is that of [h.p] under the
    verification secret, is accepted, and its payload returned: the header
    segment is never decoded. *)
Theorem verify_ignores_header env options h p members m scope :
  contains "." h = false -> contains "." p = false ->
  JSON.parse (Base64.decode p) = Return (JObj members) ->
  JSON.lookup "exp" members = Some (JNum (Num.Dec m 0)) ->
  exact_seconds m -> m <> 0 ->
  verificationTime env options < m * 1000 ->
  JSON.lookup "scope" members = Some (JStr scope) -> scope <> "" ->
  permits (VerifySessionTokenOptions.requiredScope options) scope = true ->
  verifySessionToken env (signedToken (verificationSecret env options) h p) options
  = Return (JObj members).
Proof.
  intros Hh Hp Hj Hm _ Hz Hnow Hs Hne Hreq.
  assert (Ht : JS.truthy (JSON.lookup "scope" members) = true).
  { rewrite Hs. cbn. apply negb_true_iff, StrFacts.eqb_empty, Hne. }
  rewrite (verify_signed_fields env options h p members m O Hh Hp Hj Hm Hz Ht).
  rewrite seconds_scale.
  replace (m * 1000 <=? _) with false by (symmetry; apply Z.leb_gt; exact Hnow).
  rewrite Hs.
  destruct (VerifySessionTokenOptions.requiredScope options) as [[[|c s]|l]|];
    try reflexivity; cbn [permits] in Hreq.
  - rewrite VerifyFacts.includes_one, Hreq. reflexivity.
  - unfold includes. cbn [JS.as_string]. rewrite Hreq. reflexivity.
Qed.

Lemma verify_ignores_header_witness :
  verifySessionToken env0 (signedToken "test-secret" "not a header" p0)
    (at_time 1704067200000 (Some (ManyScopes ["lecture"; "practice"])))
  = Return (JObj members0).
Proof.
  apply (verify_ignores_header env0
           (at_time 1704067200000 (Some (ManyScopes ["lecture"; "practice"])))
           "not a header" p0 members0 1704067260 "practice");
    (reflexivity || discriminate).
Defined.

(** *** Claim C7 *)

(** Claim C7, as the code has it.  A token that is malformed or whose
    signature does not match fails with InvalidToken, whatever its payload
    and the clock.  A validly signed token whose payload is an object with a
    falsy [exp] or a falsy [scope] fails with InvalidToken for the missing
    fields, at every instant and whatever scope is required, also when its
    [exp] lies in the past.  A validly signed token whose payload has a
    truthy [scope] (no number but a whole one) and, as [exp], a whole number
    of seconds, exact in doubles and not 0, and that is expired fails with
    TokenExpired, whatever scope is required. *)
Theorem verify_error_precedence env options :
  (forall token,
     token = ""
     \/ List.length (Str.split "." token) <> 3%nat
     \/ (exists h p s,
           Str.split "." token = [h; p; s]
           /\ s <> hmac_base64url (verificationSecret env options) (h ++ "." ++ p)) ->
     InvalidToken (verifySessionToken env token options))
  /\ (forall h p members,
        contains "." h = false -> contains "." p = false ->
        JSON.parse (Base64.decode p) = Return (JObj members) ->
        JS.truthy (JSON.lookup "exp" members) = false
        \/ JS.truthy (JSON.lookup "scope" members) = false ->
        verifySessionToken env (signedToken (verificationSecret env options) h p) options
        = Throw (TokenInvalidError "Token payload missing fields"))
  /\ (forall h p members m,
        contains "." h = false -> contains "." p = false ->
        JSON.parse (Base64.decode p) = Return (JObj members) ->
        JSON.lookup "exp" members = Some (JNum (Num.Dec m 0)) ->
        exact_seconds m -> m <> 0 ->
        JS.truthy (JSON.lookup "scope" members) = true ->
        exact_value (JSON.lookup "scope" members) ->
        m * 1000 <= verificationTime env options ->
        verifySessionToken env (signedToken (verificationSecret env options) h p) options
        = Throw (TokenExpiredError "Session token expired")).
Proof.
  split; [|split].
  - intros token [-> | [H | (h & p & s & Hs & H)]].
    + apply verify_empty.
    + apply verify_not_three, H.
    + apply (verify_segments env token options h p s Hs). left. exact H.
  - intros h p members Hh Hp Hj.
    exact (verify_missing_fields env options h p members Hh Hp Hj).
  - intros h p members m Hh Hp Hj Hm _ Hz Hs _ Hexp.
    apply (verify_signed_expired env options h p members m O Hh Hp Hj Hm Hz Hs).
    rewrite seconds_scale. exact Hexp.
Qed.

Lemma verify_error_precedence_witness :
  InvalidToken
    (verifySessionToken env0 ("e30." ++ p0 ++ ".AAAA")
       (at_time 1704067260000 (Some (OneScope "lecture"))))
  /\ verifySessionToken env0 scopeless_token
       (at_time 1704067260000 (Some (OneScope "lecture")))
     = Throw (TokenInvalidError "Token payload missing fields")
  /\ verifySessionToken env0 (signedToken "test-secret" "e30" p0)
       (at_time 1704067260000 (Some (OneScope "lecture")))
     = Throw (TokenExpiredError "Session token expired").
Proof.
  split; [|split].
  - apply (proj1 (verify_error_precedence env0
                    (at_time 1704067260000 (Some (OneScope "lecture"))))).
    right. right. exists "e30", p0, "AAAA".
    split; [vm_compute; reflexivity|vm_compute; discriminate].
  - apply (proj1 (proj2 (verify_error_precedence env0
                           (at_time 1704067260000 (Some (OneScope "lecture")))))
             "eyJhbGciOiJIUzI1NiIsInR5cCI6IkpXVCJ9"
             (Base64.encode_url
                (JSON.stringify (SessionTokenPayload.to_json scopeless_payload)))
             [("jti", JStr "id"); ("scope", JStr "");
              ("iat", JNum (Num.Dec 1704067200 0));
              ("exp", JNum (Num.Dec 1704067260 0))]
             eq_refl eq_refl eq_refl).
    right. reflexivity.
  - apply (proj2 (proj2 (verify_error_precedence env0
                           (at_time 1704067260000 (Some (OneScope "lecture")))))
             "e30" p0 members0 1704067260);
      (reflexivity || discriminate).
Defined.

(** Claim C7 as stated fails: a validly signed token with [exp] the second
    0 and the scope ["practice"], verified one second later with the scope
    ["lecture"] required, is expired and of another scope, and fails with
    InvalidToken. *)
Lemma verify_expired_zero_exp_wrong_scope :
  0 * 1000 <= 1000
  /\ permits (Some (OneScope "lecture")) "practice" = false
  /\ verifySessionToken env0 zero_token (at_time 1000 (Some (OneScope "lecture")))
     = Throw (TokenInvalidError "Token payload missing fields").
Proof. repeat split; try (vm_compute; reflexivity). lia. Qed.

End TokenEngine.

(* ================================================================= *)
(** ** Minting: claims C2, C4 and C5 *)

Module Minting.
Import SessionToken.

Lemma trim_nonempty scope : Str.trim scope <> "" -> String.eqb scope "" = false.
Proof.
  intros H. apply StrFacts.eqb_empty. intros ->. apply H. reflexivity.
Qed.

Lemma createSessionToken_checked env scope ttl now secret :
  Str.trim scope <> "" -> Num.le ttl (Num.Dec 0 0) = false ->
  createSessionToken env
    (CreateSessionTokenOptions.mk scope (Some ttl) (Some now) (Some secret))
  = (let payload := createdPayload env scope ttl now in
     expiresAt <-
       JSDate.toISOString
         (JSDate.of_number (Num.mul (SessionTokenPayload.exp payload) (Num.Dec 1000 0))) ;;
     Return (mkCreated (signPayload payload secret) scope expiresAt))%js.
Proof.
  intros Hs Ht. unfold createSessionToken.
  cbn [CreateSessionTokenOptions.scope CreateSessionTokenOptions.ttlSeconds
       CreateSessionTokenOptions.now CreateSessionTokenOptions.secret or_default].
  rewrite (trim_nonempty scope Hs).
  replace (String.eqb (Str.trim scope) "") with false
    by (symmetry; apply StrFacts.eqb_empty; exact Hs).
  cbn [orb]. rewrite Ht. reflexivity.
Qed.

Lemma pow10_0 : Num.pow10 0 = 1.
Proof. reflexivity. Qed.

(** The payload of a token minted for [ttl] whole seconds. *)
Lemma createdPayload_int env scope ttl now :
  0 < ttl ->
  createdPayload env scope (Num.Dec ttl 0) now
  = SessionTokenPayload.mk (randomUUID env) scope (Num.Dec (now / 1000) 0)
      (Num.Dec (now / 1000 + Z.min ttl 300) 0).
Proof.
  intros H. unfold createdPayload, Num.min, Num.le, MAX_TTL_SECONDS, Num.of_Z.
  rewrite pow10_0, !Z.mul_1_r.
  destruct (Z.leb_spec ttl 300) as [Hle|Hgt].
  - cbn [Num.add Nat.max Nat.sub]. rewrite pow10_0, !Z.mul_1_r.
    rewrite Z.min_l by lia. reflexivity.
  - cbn [Num.add Nat.max Nat.sub]. rewrite pow10_0, !Z.mul_1_r.
    rewrite Z.min_r by lia. reflexivity.
Qed.

Lemma toISOString_some t : exists s, JSDate.toISOString (Some t) = Return s.
Proof.
  unfold JSDate.toISOString.
  destruct (JSDate.civil_from_days _) as [[y m] d]. eexists. reflexivity.
Qed.

Lemma of_number_int z :
  Z.abs z <= JSDate.max_time -> JSDate.of_number (Num.Dec z 0) = Some z.
Proof.
  intros H. unfold JSDate.of_number. rewrite pow10_0, Z.mul_1_r.
  apply Z.leb_le in H. rewrite H. unfold Num.trunc. rewrite pow10_0, Z.quot_1_r.
  reflexivity.
Qed.

(** Minting for [ttl] whole seconds, when the expiry is a date. *)
Lemma createSessionToken_int env scope ttl now secret :
  Str.trim scope <> "" -> 0 < ttl ->
  Z.abs ((now / 1000 + Z.min ttl 300) * 1000) <= JSDate.max_time ->
  exists expiresAt,
    createSessionToken env
      (CreateSessionTokenOptions.mk scope (Some (Num.Dec ttl 0)) (Some now) (Some secret))
    = Return
        (mkCreated
           (signPayload
              (SessionTokenPayload.mk (randomUUID env) scope (Num.Dec (now / 1000) 0)
                 (Num.Dec (now / 1000 + Z.min ttl 300) 0))
              secret)
           scope expiresAt).
Proof.
  intros Hs Ht Hd.
  rewrite (createSessionToken_checked env scope (Num.Dec ttl 0) now secret Hs).
  2:{ unfold Num.le. rewrite pow10_0. apply Z.leb_gt. lia. }
  rewrite (createdPayload_int env scope ttl now Ht).
  cbv zeta. cbn [SessionTokenPayload.exp Num.mul Nat.add].
  rewrite (of_number_int _ Hd).
  destruct (toISOString_some ((now / 1000 + Z.min ttl 300) * 1000)) as [iso ->].
  exists iso. reflexivity.
Qed.

Lemma signPayload_signed payload secret :
  signPayload payload secret
  = signedToken secret (Base64.encode_url (JSON.stringify header))
      (Base64.encode_url (JSON.stringify (SessionTokenPayload.to_json payload))).
Proof.
  unfold signPayload, signedToken. cbv zeta.
  rewrite !StrFacts.append_assoc. reflexivity.
Qed.

(** Claim C2, as the code has it.  For a scope that is not blank, a TTL of
    1 to 300 whole seconds and a clock for which the expiry second is not
    the second 0 and is a date, the token minted at [now] verifies at
    [now] under the same secret, and the payload returned has that scope
    and expires at [floor(now / 1000) + ttl]. *)
Theorem create_verify_roundtrip env scope ttl now secret :
  Str.trim scope <> "" -> 1 <= ttl <= 300 ->
  now / 1000 + ttl <> 0 ->
  Z.abs ((now / 1000 + ttl) * 1000) <= JSDate.max_time ->
  exists created,
    createSessionToken env
      (CreateSessionTokenOptions.mk scope (Some (Num.Dec ttl 0)) (Some now) (Some secret))
    = Return created
    /\ exists payload,
         verifySessionToken env (token created)
           (VerifySessionTokenOptions.mk (Some now) None (Some secret))
         = Return payload
         /\ JS.get payload "scope" = Some (JStr scope)
         /\ JS.get payload "exp" = Some (JNum (Num.Dec (now / 1000 + ttl) 0)).
Proof.
  intros Hs Ht H0 Hd. unfold JSDate.max_time in Hd.
  destruct (createSessionToken_int env scope ttl now secret Hs) as [iso E];
    [lia|rewrite Z.min_l by lia; exact Hd|].
  rewrite Z.min_l in E by lia.
  eexists. split; [exact E|]. cbn [token].
  set (payload := SessionTokenPayload.mk (randomUUID env) scope (Num.Dec (now / 1000) 0)
                    (Num.Dec (now / 1000 + ttl) 0)).
  exists (SessionTokenPayload.to_json payload).
  rewrite signPayload_signed.
  set (options := VerifySessionTokenOptions.mk (Some now) None (Some secret)).
  change secret with (verificationSecret env options) at 1.
  split; [|split; reflexivity].
  rewrite (TokenEngine.verify_signed_fields env options _ _
             [("jti", JStr (randomUUID env)); ("scope", JStr scope);
              ("iat", JNum (Num.Dec (now / 1000) 0));
              ("exp", JNum (Num.Dec (now / 1000 + ttl) 0))]
             (now / 1000 + ttl) O).
  - unfold verificationTime. cbn [VerifySessionTokenOptions.now
                                    VerifySessionTokenOptions.requiredScope options
                                    or_default].
    rewrite pow10_0.
    replace ((now / 1000 + ttl) * 1000 <=? now * 1) with false
      by (symmetry; apply Z.leb_gt; zdiv).
    reflexivity.
  - reflexivity.
  - auto with segments.
  - rewrite Base64Facts.decode_encode_url.
    apply PayloadFacts.parse_stringify_payload; zdiv.
  - reflexivity.
  - exact H0.
  - cbn. apply negb_true_iff, StrFacts.eqb_empty. intros ->. apply Hs. reflexivity.
Qed.

Lemma create_verify_roundtrip_witness :
  exists created,
    createSessionToken env0
      (CreateSessionTokenOptions.mk "practice" (Some (Num.Dec 90 0)) (Some 1704067200000)
         (Some "test-secret"))
    = Return created
    /\ exists payload,
         verifySessionToken env0 (token created)
           (VerifySessionTokenOptions.mk (Some 1704067200000) None (Some "test-secret"))
         = Return payload
         /\ JS.get payload "scope" = Some (JStr "practice")
         /\ JS.get payload "exp" = Some (JNum (Num.Dec (1704067200000 / 1000 + 90) 0)).
Proof.
  apply (create_verify_roundtrip env0 "practice" 90 1704067200000 "test-secret").
  - vm_compute. discriminate.
  - lia.
  - vm_compute. discriminate.
  - vm_compute. discriminate.
Defined.

(** Claim C2 as stated fails: a scope of one space is not empty, and no
    token is minted for it. *)
Lemma create_rejects_blank_scope :
  " " <> ""
  /\ createSessionToken env0
       (CreateSessionTokenOptions.mk " " (Some (Num.Dec 60 0)) (Some 1704067200000)
          (Some "test-secret"))
     = Throw (TokenInvalidError "Scope is required").
Proof. split; [discriminate|reflexivity]. Qed.

(** *** Claim C4 *)

Lemma bounded_ttl ttl :
  Num.le ttl (Num.Dec 0 0) = false -> ttl <> Num.NaN ->
  exists m k, Num.min ttl MAX_TTL_SECONDS = Num.Dec m k /\ 0 < m <= 300 * Num.pow10 k.
Proof.
  intros Hle Hnan. destruct ttl as [m k| |[|]]; try discriminate Hle; [|contradiction|].
  - unfold Num.le in Hle. rewrite pow10_0 in Hle. apply Z.leb_gt in Hle.
    unfold Num.min, MAX_TTL_SECONDS, Num.le. rewrite pow10_0.
    destruct (Z.leb_spec (m * 1) (300 * Num.pow10 k)).
    + exists m, k. split; [reflexivity|lia].
    + exists 300, O. split; [reflexivity|rewrite pow10_0; lia].
  - exists 300, O. split; [reflexivity|rewrite pow10_0; lia].
Qed.

Lemma add_int a m k :
  Num.add (Num.Dec a 0) (Num.Dec m k) = Num.Dec (a * Num.pow10 k + m) k.
Proof.
  unfold Num.add. cbn [Nat.max]. rewrite Nat.sub_0_r, Nat.sub_diag, pow10_0, Z.mul_1_r.
  reflexivity.
Qed.

(** What a minting with a whole TTL, or none, returns. *)
Lemma created_whole env scope ttl now secret created :
  createSessionToken env
    (CreateSessionTokenOptions.mk scope (option_map (fun z => Num.Dec z 0) ttl) now secret)
  = Return created ->
  0 < or_default ttl 60
  /\ token created
     = signPayload
         (SessionTokenPayload.mk (randomUUID env) scope
            (Num.Dec (or_default now (clock env) / 1000) 0)
            (Num.Dec (or_default now (clock env) / 1000 + Z.min (or_default ttl 60) 300)
               0))
         (or_default secret (getSigningSecret env)).
Proof.
  unfold createSessionToken.
  cbn [CreateSessionTokenOptions.scope CreateSessionTokenOptions.ttlSeconds
       CreateSessionTokenOptions.now CreateSessionTokenOptions.secret].
  replace (or_default (option_map (fun z => Num.Dec z 0) ttl) DEFAULT_TTL_SECONDS)
    with (Num.Dec (or_default ttl 60) 0) by (destruct ttl; reflexivity).
  destruct (_ || _); [discriminate|].
  destruct (Num.le _ _) eqn:Hle; [discriminate|].
  assert (Hpos : 0 < or_default ttl 60).
  { unfold Num.le in Hle. rewrite pow10_0 in Hle. apply Z.leb_gt in Hle. lia. }
  rewrite (createdPayload_int env scope _ _ Hpos).
  destruct (JSDate.toISOString _) as [iso|e]; [|discriminate].
  cbn [bind]. intros H. injection H as <-. split; [exact Hpos | reflexivity].
Qed.

(** Claim C4, as the code has it.  Every token that [createSessionToken]
    returns for a whole number of seconds as TTL, or for none, carries a
    payload with [exp = iat + min(ttl, 300)], 60 standing for no TTL, so
    that [iat < exp <= iat + 300]; asked for 1000 seconds, with a scope that
    is not blank and a clock whose expiry is a date, it returns a token that
    lives exactly 300 seconds. *)
Theorem create_clamps_lifetime env :
  (forall scope ttl now secret created,
     createSessionToken env
       (CreateSessionTokenOptions.mk scope (option_map (fun z => Num.Dec z 0) ttl) now
          secret)
     = Return created ->
     let iat := or_default now (clock env) / 1000 in
     let exp := iat + Z.min (or_default ttl 60) 300 in
     token created
     = signPayload
         (SessionTokenPayload.mk (randomUUID env) scope (Num.Dec iat 0) (Num.Dec exp 0))
         (or_default secret (getSigningSecret env))
     /\ iat < exp <= iat + 300)
  /\ (forall scope now secret,
        Str.trim scope <> "" ->
        Z.abs ((now / 1000 + 300) * 1000) <= JSDate.max_time ->
        exists expiresAt,
          createSessionToken env
            (CreateSessionTokenOptions.mk scope (Some (Num.Dec 1000 0)) (Some now)
               (Some secret))
          = Return
              (mkCreated
                 (signPayload
                    (SessionTokenPayload.mk (randomUUID env) scope
                       (Num.Dec (now / 1000) 0) (Num.Dec (now / 1000 + 300) 0))
                    secret)
                 scope expiresAt)).
Proof.
  split.
  - intros scope ttl now secret created H iat exp.
    destruct (created_whole env scope ttl now secret created H) as [Hpos Ht].
    split; [exact Ht|]. unfold exp. lia.
  - intros scope now secret Hs Hd.
    apply (createSessionToken_int env scope 1000 now secret Hs); [lia|exact Hd].
Qed.

Lemma create_clamps_lifetime_witness :
  exists created,
    createSessionToken env0
      (CreateSessionTokenOptions.mk "practice" (Some (Num.Dec 1000 0))
         (Some 1704067200000) (Some "test-secret"))
    = Return created
    /\ token created
       = signPayload
           (SessionTokenPayload.mk (randomUUID env0) "practice" (Num.Dec 1704067200 0)
              (Num.Dec 1704067500 0))
           "test-secret"
    /\ 1704067200 < 1704067500 <= 1704067200 + 300.
Proof.
  destruct (proj2 (create_clamps_lifetime env0) "practice" 1704067200000 "test-secret")
    as [expiresAt E].
  - vm_compute. discriminate.
  - vm_compute. discriminate.
  - eexists. split; [exact E|].
    exact (proj1 (create_clamps_lifetime env0) "practice" (Some 1000)
             (Some 1704067200000) (Some "test-secret") _ E).
Defined.

(** Claim C4 as stated fails: asked for 1000 seconds at the last instant of
    the calendar, with a scope that is not blank, [createSessionToken] does
    not succeed; the expiry, 300 seconds later, is no date and [toISOString]
    throws. *)
Lemma create_at_last_date_throws :
  Str.trim "practice" = "practice"
  /\ JSDate.toISOString (Some 8640000000000000) = Return "+275760-09-13T00:00:00.000Z"
  /\ createSessionToken env0
       (CreateSessionTokenOptions.mk "practice" (Some (Num.Dec 1000 0))
          (Some 8640000000000000) (Some "test-secret"))
     = Throw (RangeError "Invalid time value").
Proof. repeat split; vm_compute; reflexivity. Qed.

(** *** Claim C5 *)

(** With a scope that is not blank and an instant between the epoch and 300
    seconds before the last date, every TTL above zero mints a token. *)
Lemma create_returns env scope ttl now secret :
  Str.trim scope <> "" -> Num.le ttl (Num.Dec 0 0) = false -> ttl <> Num.NaN ->
  0 <= or_default now (clock env) <= JSDate.max_time - 300000 ->
  exists created,
    createSessionToken env (CreateSessionTokenOptions.mk scope (Some ttl) now secret)
    = Return created
    /\ SessionToken.scope created = scope.
Proof.
  intros Hs Hl Hn Hc.
  set (instant := or_default now (clock env)) in *.
  change (createSessionToken env
            (CreateSessionTokenOptions.mk scope (Some ttl) now secret))
    with (createSessionToken env
            (CreateSessionTokenOptions.mk scope (Some ttl) (Some instant)
               (Some (or_default secret (getSigningSecret env))))).
  rewrite (createSessionToken_checked env scope ttl instant _ Hs Hl). cbv zeta.
  assert (Hd : exists t,
             JSDate.of_number
               (Num.mul (SessionTokenPayload.exp (createdPayload env scope ttl instant))
                  (Num.Dec 1000 0)) = Some t).
  { unfold createdPayload. cbn [SessionTokenPayload.exp].
    destruct (bounded_ttl ttl Hl Hn) as [m [k [-> Hm]]].
    unfold Num.of_Z. rewrite add_int. cbn [Num.mul JSDate.of_number].
    rewrite Nat.add_0_r.
    assert (Hp : 0 < Num.pow10 k) by (unfold Num.pow10; apply Z.pow_pos_nonneg; lia).
    assert (Hi : 0 <= instant / 1000 /\ instant / 1000 * 1000 <= instant) by zdiv.
    set (i := instant / 1000) in *. set (p := Num.pow10 k) in *.
    unfold JSDate.max_time in *.
    replace (Z.abs ((i * p + m) * 1000) <=? 8640000000000000 * p) with true.
    - eexists. reflexivity.
    - symmetry. apply Z.leb_le. rewrite Z.abs_eq by nia. nia. }
  destruct Hd as [t ->]. destruct (toISOString_some t) as [iso ->]. cbn [bind].
  eexists. split; reflexivity.
Qed.

(** Claim C5, as the code has it.  A TTL of zero or less makes
    [createSessionToken] fail with InvalidToken.  Any other TTL, whole or
    not, never does when the scope is not blank, and is accepted: at an
    instant between the epoch and 300 seconds before the last date a token
    is returned.  For a whole TTL above zero, with a scope that is not blank
    and an expiry that is a date, the token expires [min(ttl, 300)] seconds
    after it was issued.  A call without TTL is the call with a TTL of 60
    seconds. *)
Theorem create_ttl_checked env scope now secret :
  (forall ttl,
     Num.le ttl (Num.Dec 0 0) = true ->
     InvalidToken
       (createSessionToken env (CreateSessionTokenOptions.mk scope (Some ttl) now secret)))
  /\ (forall ttl,
        Str.trim scope <> "" -> Num.le ttl (Num.Dec 0 0) = false ->
        ~ InvalidToken
            (createSessionToken env
               (CreateSessionTokenOptions.mk scope (Some ttl) now secret)))
  /\ (forall ttl,
        Str.trim scope <> "" -> Num.le ttl (Num.Dec 0 0) = false -> ttl <> Num.NaN ->
        0 <= or_default now (clock env) <= JSDate.max_time - 300000 ->
        exists created,
          createSessionToken env
            (CreateSessionTokenOptions.mk scope (Some ttl) now secret)
          = Return created
          /\ SessionToken.scope created = scope)
  /\ (forall ttl,
        Str.trim scope <> "" -> 0 < ttl ->
        let iat := or_default now (clock env) / 1000 in
        Z.abs ((iat + Z.min ttl 300) * 1000) <= JSDate.max_time ->
        exists expiresAt,
          createSessionToken env
            (CreateSessionTokenOptions.mk scope (Some (Num.Dec ttl 0)) now secret)
          = Return
              (mkCreated
                 (signPayload
                    (SessionTokenPayload.mk (randomUUID env) scope (Num.Dec iat 0)
                       (Num.Dec (iat + Z.min ttl 300) 0))
                    (or_default secret (getSigningSecret env)))
                 scope expiresAt))
  /\ createSessionToken env (CreateSessionTokenOptions.mk scope None now secret)
     = createSessionToken env
         (CreateSessionTokenOptions.mk scope (Some (Num.Dec 60 0)) now secret).
Proof.
  split; [|split; [|split; [|split; [|reflexivity]]]].
  - intros ttl H. unfold createSessionToken.
    cbn [CreateSessionTokenOptions.scope CreateSessionTokenOptions.ttlSeconds or_default].
    destruct (_ || _); [eexists; reflexivity|].
    rewrite H. eexists. reflexivity.
  - intros ttl Hs H. unfold createSessionToken.
    cbn [CreateSessionTokenOptions.scope CreateSessionTokenOptions.ttlSeconds or_default].
    rewrite (trim_nonempty scope Hs).
    replace (String.eqb (Str.trim scope) "") with false
      by (symmetry; apply StrFacts.eqb_empty; exact Hs).
    cbn [orb]. rewrite H.
    destruct (JSDate.of_number _) as [t|]; cbn [JSDate.toISOString].
    + destruct (JSDate.civil_from_days _) as [[y m] d]. cbn [bind].
      intros [msg E]. discriminate E.
    + cbn [bind]. intros [msg E]. discriminate E.
  - intros ttl Hs Hl Hn Hc. exact (create_returns env scope ttl now secret Hs Hl Hn Hc).
  - intros ttl Hs Ht iat Hd.
    exact (createSessionToken_int env scope ttl (or_default now (clock env))
             (or_default secret (getSigningSecret env)) Hs Ht Hd).
Qed.

Lemma create_ttl_checked_witness :
  InvalidToken
    (createSessionToken env0
       (CreateSessionTokenOptions.mk "practice" (Some (Num.Dec (-5) 1)) None None))
  /\ ~ InvalidToken
        (createSessionToken env0
           (CreateSessionTokenOptions.mk "practice" (Some (Num.Dec 15 1)) None None))
  /\ (exists created,
        createSessionToken env0
          (CreateSessionTokenOptions.mk "practice" (Some (Num.Dec 15 1)) None None)
        = Return created
        /\ SessionToken.scope created = "practice")
  /\ exists expiresAt,
       createSessionToken env0
         (CreateSessionTokenOptions.mk "practice" (Some (Num.Dec 1000 0)) None None)
       = Return
           (mkCreated
              (signPayload
                 (SessionTokenPayload.mk (randomUUID env0) "practice"
                    (Num.Dec 1704067200 0) (Num.Dec 1704067500 0))
                 "development-session-secret")
              "practice" expiresAt).
Proof.
  split; [|split; [|split]].
  - apply (proj1 (create_ttl_checked env0 "practice" None None) (Num.Dec (-5) 1)).
    reflexivity.
  - apply (proj1 (proj2 (create_ttl_checked env0 "practice" None None)) (Num.Dec 15 1)).
    + vm_compute. discriminate.
    + reflexivity.
  - apply (proj1 (proj2 (proj2 (create_ttl_checked env0 "practice" None None)))
             (Num.Dec 15 1)).
    + vm_compute. discriminate.
    + reflexivity.
    + discriminate.
    + cbn [or_default clock env0]. unfold JSDate.max_time. lia.
  - apply (proj1 (proj2 (proj2 (proj2 (create_ttl_checked env0 "practice" None None))))
             1000).
    + vm_compute. discriminate.
    + reflexivity.
    + vm_compute. discriminate.
Defined.

(** Claim C5 as stated fails: a TTL of 1.5 seconds is not a positive
    integer, and a token is minted for it, which expires 1.5 seconds after
    it was issued. *)
Lemma create_accepts_fractional_ttl :
  createSessionToken env0
    (CreateSessionTokenOptions.mk "practice" (Some (Num.Dec 15 1)) (Some 1704067200000)
       (Some "test-secret"))
  = Return created_fractional.
Proof. vm_compute. reflexivity. Qed.

(** *** The tests of the repository *)

Example test_creates_a_signed_token_with_the_expected_expiry :
  exists created,
    createSessionToken env0
      (CreateSessionTokenOptions.mk "practice" (Some (Num.Dec 90 0)) (Some 1704067200000)
         (Some "test-secret"))
    = Return created
    /\ scope created = "practice"
    /\ expiresAt created = "2024-01-01T00:01:30.000Z"
    /\ exists payload,
         verifySessionToken env0 (token created)
           (at_time 1704067200000 (Some (OneScope "practice")))
         = Return payload
         /\ JS.get payload "scope" = Some (JStr "practice")
         /\ JS.get payload "exp" = Some (JNum (Num.Dec (1704067200000 / 1000 + 90) 0)).
Proof.
  eexists. split; [vm_compute; reflexivity|].
  split; [reflexivity|]. split; [reflexivity|].
  eexists. split; [vm_compute; reflexivity|]. split; reflexivity.
Qed.

Example test_rejects_expired_tokens :
  exists created,
    createSessionToken env0
      (CreateSessionTokenOptions.mk "lecture" (Some (Num.Dec 1 0)) (Some 1704067200000)
         (Some "test-secret"))
    = Return created
    /\ TokenExpired
         (verifySessionToken env0 (token created) (at_time (1704067200000 + 2000) None)).
Proof.
  eexists. split; [vm_compute; reflexivity|]. eexists. vm_compute. reflexivity.
Qed.

End Minting.

(* ================================================================= *)
(** ** The bearer branch of the route: claim C9 *)

Module Handler.
Import SessionToken Route.

Lemma assertValidPayload_truthy payload now required :
  assertValidPayload payload now required = Return tt ->
  JS.truthy (JS.get payload "scope") = true /\ JS.truthy (JS.get payload "exp") = true.
Proof.
  unfold assertValidPayload.
  destruct (_ || _); [discriminate|].
  destruct (JS.truthy (JS.get payload "exp")); cbn [negb orb]; [|discriminate].
  destruct (JS.truthy (JS.get payload "scope")); cbn [negb]; [|discriminate].
  intros _. split; reflexivity.
Qed.

(** A verification that succeeds returns a payload with a truthy scope. *)
Lemma verify_return_truthy env token options payload :
  verifySessionToken env token options = Return payload ->
  JS.truthy (JS.get payload "scope") = true /\ JS.truthy (JS.get payload "exp") = true.
Proof.
  unfold verifySessionToken.
  destruct (String.eqb token ""); [discriminate|].
  destruct (Str.split "." token) as [|h [|p [|s [|x r]]]]; try discriminate.
  destruct (safeEqual s _); cbn [negb]; [|discriminate].
  destruct (JSON.parse _) as [v|e]; cbn [bind try_catch].
  - destruct (assertValidPayload v _ _) as [[]|e] eqn:E; cbn [bind try_catch].
    + intros [= <-]. exact (assertValidPayload_truthy _ _ _ E).
    + destruct e; discriminate.
  - destruct e; discriminate.
Qed.

Lemma of_number_valid v t : JSDate.of_number v = Some t -> Z.abs t <= JSDate.max_time.
Proof.
  destruct v as [m k| |b]; cbn [JSDate.of_number]; try discriminate.
  destruct (Z.leb_spec (Z.abs m) (JSDate.max_time * Num.pow10 k)) as [H|H]; [|discriminate].
  intros [= <-]. unfold Num.trunc.
  assert (HP : 0 < Num.pow10 k) by (unfold Num.pow10; apply Z.pow_pos_nonneg; lia).
  rewrite <- Z.quot_abs by lia. rewrite (Z.abs_eq (Num.pow10 k)) by lia.
  apply Z.le_trans with (JSDate.max_time * Num.pow10 k ÷ Num.pow10 k).
  - apply Z.quot_le_mono; assumption.
  - rewrite Z.quot_mul by lia. lia.
Qed.

Lemma len_nonempty s : s <> "" -> (Str.len s <? 1) = false.
Proof.
  intros H. destruct s; [contradiction|]. unfold Str.len. cbn [String.length].
  apply Z.ltb_ge. lia.
Qed.

(** The response schema on what the handler hands to it. *)
Lemma response_parse token scope iso t :
  token <> "" -> scope <> "" -> JSDate.parse iso = Some t ->
  Zod.parse sessionResponseSchema
    (Some (JObj (object_literal
                   [("token", Some (JStr token)); ("scope", Some (JStr scope));
                    ("expiresAt", Some (JStr iso))])))
  = Return (JObj [("token", JStr token); ("expiresAt", JStr iso); ("scope", JStr scope)]).
Proof.
  intros Ht Hs Hp.
  unfold Zod.parse, Zod.parse_object, sessionResponseSchema.
  cbn [object_literal Zod.parse_shape app JS.get JSON.lookup String.eqb Ascii.eqb Bool.eqb].
  unfold Zod.parse_string.
  cbn [JS.as_string Zod.minLength Zod.refinements Zod.defaultValue Zod.min Zod.refine
       Zod.string_ app Zod.check_refinements].
  rewrite (len_nonempty token Ht), (len_nonempty scope Hs), Hp.
  reflexivity.
Qed.

Lemma response_refused token (scope : JS.value) iso :
  JS.as_string scope = None ->
  exists issues,
    Zod.parse sessionResponseSchema
      (Some (JObj (object_literal
                     [("token", Some (JStr token)); ("scope", scope);
                      ("expiresAt", Some (JStr iso))])))
    = Throw (ZodError issues).
Proof.
  intros Hs.
  unfold Zod.parse, Zod.parse_object, sessionResponseSchema.
  destruct scope as [[| | |s| |]|]; try discriminate Hs;
    cbn [object_literal Zod.parse_shape app JS.get JSON.lookup String.eqb Ascii.eqb
         Bool.eqb];
    unfold Zod.parse_string;
    cbn [JS.as_string Zod.minLength Zod.refinements Zod.defaultValue Zod.min Zod.refine
         Zod.string_ app Zod.check_refinements];
    destruct (Str.len token <? 1); cbn [bind]; try (eexists; reflexivity);
    destruct (JSDate.parse iso); cbn [negb bind]; eexists; reflexivity.
Qed.

(** Claim C9, as the code has it.  For a bearer token that is not empty:
    when the verification fails with TokenExpired the response is 401 with
    the message of the engine, with InvalidToken it is 403 with that message,
    with anything else it is 500 with the fixed message.  When it succeeds
    with a payload whose [exp] is a whole number of seconds, exact in
    doubles, and whose [scope] is no string (and no number but a whole one),
    the response is 500 with the fixed message, whether the date or the
    response schema fails.  When it succeeds with a payload whose [scope] is
    a string and whose [exp] is such a number of seconds:
    if [exp * 1000] is a date the response is 200 with the token as it came,
    the scope, and the expiry in ISO-8601, which [Date.parse] reads back; if
    it lies beyond the dates the response is 500 with the fixed message. *)
Theorem handleBearerToken_responses env authHeader :
  let token := Str.trim (Str.drop 7 authHeader) in
  token <> "" ->
  match verifySessionToken env token VerifySessionTokenOptions.empty with
  | Throw (TokenExpiredError message) =>
      handleBearerToken env authHeader = mkResponse 401 (error_body message)
  | Throw (TokenInvalidError message) =>
      handleBearerToken env authHeader = mkResponse 403 (error_body message)
  | Throw _ =>
      handleBearerToken env authHeader
      = mkResponse 500 (error_body "Failed to validate session token")
  | Return payload =>
      (forall m,
         JS.get payload "exp" = Some (JNum (Num.Dec m 0)) -> exact_seconds m ->
         JS.as_string (JS.get payload "scope") = None ->
         exact_value (JS.get payload "scope") ->
         handleBearerToken env authHeader
         = mkResponse 500 (error_body "Failed to validate session token"))
      /\ (forall scope m,
            JS.get payload "scope" = Some (JStr scope) ->
            JS.get payload "exp" = Some (JNum (Num.Dec m 0)) -> exact_seconds m ->
            (Z.abs (m * 1000) <= JSDate.max_time ->
             exists expiresAt,
               JSDate.toISOString (Some (m * 1000)) = Return expiresAt
               /\ JSDate.parse expiresAt = Some (m * 1000)
               /\ handleBearerToken env authHeader
                  = mkResponse 200
                      (JObj [("token", JStr token); ("expiresAt", JStr expiresAt);
                             ("scope", JStr scope)]))
            /\ (JSDate.max_time < Z.abs (m * 1000) ->
                handleBearerToken env authHeader
                = mkResponse 500 (error_body "Failed to validate session token")))
  end.
Proof.
  intros token Hne. unfold handleBearerToken. fold token.
  replace (String.eqb token "") with false
    by (symmetry; apply StrFacts.eqb_empty; exact Hne).
  destruct (verifySessionToken env token VerifySessionTokenOptions.empty)
    as [payload|[msg|msg|i|msg|msg|msg]] eqn:E; try reflexivity.
  cbn [bind]. split.
  - intros m He _ Hs _. rewrite He. cbn [JS.toNumber bind].
    destruct (JSDate.of_number (Num.mul (Num.Dec m 0) (Num.Dec 1000 0))) as [t|];
      [|reflexivity].
    destruct (Minting.toISOString_some t) as [iso ->]. cbn [bind].
    destruct (response_refused token (JS.get payload "scope") iso Hs) as [issues ->].
    reflexivity.
  - intros scope m Hs He _. rewrite He. cbn [JS.toNumber bind Num.mul Nat.add].
    unfold JSDate.of_number, Num.trunc. rewrite Minting.pow10_0, Z.mul_1_r, Z.quot_1_r.
    split.
    + intros Hd. apply Z.leb_le in Hd as Hb. rewrite Hb.
      destruct (DateFacts.parse_toISOString (m * 1000) Hd) as (iso & Eiso & Eparse).
      exists iso. split; [exact Eiso|]. split; [exact Eparse|].
      rewrite Eiso. cbn [bind]. rewrite Hs.
      destruct (verify_return_truthy _ _ _ _ E) as [Htruthy _].
      rewrite Hs in Htruthy. cbn [JS.truthy] in Htruthy.
      apply negb_true_iff, StrFacts.eqb_empty in Htruthy.
      match goal with
      | |- context [Zod.parse ?schema ?data] =>
          replace (Zod.parse schema data)
            with (Return (JObj [("token", JStr token); ("expiresAt", JStr iso);
                                ("scope", JStr scope)]))
            by (symmetry;
                exact (response_parse token scope iso (m * 1000) Hne Htruthy Eparse))
      end.
      reflexivity.
    + intros Hd. apply Z.leb_gt in Hd. rewrite Hd. reflexivity.
Qed.

Lemma handleBearerToken_responses_witness :
  (exists expiresAt,
     handleBearerToken env0 ("Bearer " ++ fresh_token)
     = mkResponse 200
         (JObj [("token", JStr fresh_token); ("expiresAt", JStr expiresAt);
                ("scope", JStr "practice")]))
  /\ handleBearerToken env0 ("Bearer " ++ numeric_scope_token)
     = mkResponse 500 (error_body "Failed to validate session token").
Proof.
  split.
  - assert (Hne : Str.trim (Str.drop 7 ("Bearer " ++ fresh_token)) <> "")
      by (vm_compute; discriminate).
    pose proof (handleBearerToken_responses env0 ("Bearer " ++ fresh_token) Hne) as H.
    assert (E : verifySessionToken env0
                  (Str.trim (Str.drop 7 ("Bearer " ++ fresh_token)))
                  VerifySessionTokenOptions.empty
                = Return (JObj members0)) by (vm_compute; reflexivity).
    rewrite E in H.
    destruct (proj1 (proj2 H "practice" 1704067260 eq_refl eq_refl eq_refl))
      as (expiresAt & _ & _ & Hr).
    + vm_compute. discriminate.
    + exists expiresAt. exact Hr.
  - assert (Hne : Str.trim (Str.drop 7 ("Bearer " ++ numeric_scope_token)) <> "")
      by (vm_compute; discriminate).
    pose proof (handleBearerToken_responses env0 ("Bearer " ++ numeric_scope_token) Hne)
      as H.
    assert (E : verifySessionToken env0
                  (Str.trim (Str.drop 7 ("Bearer " ++ numeric_scope_token)))
                  VerifySessionTokenOptions.empty
                = Return (JObj numeric_scope_members)) by (vm_compute; reflexivity).
    rewrite E in H.
    apply (proj1 H 1704067260); try reflexivity.
    intros n Hn. injection Hn as <-. exists 5. split; reflexivity.
Defined.

(** Claim C9 as stated fails: a validly signed token whose [exp] lies beyond
    the last date verifies, and the response is 500, not 200. *)
Lemma handleBearerToken_success_answers_500 :
  verifySessionToken env0 far_token VerifySessionTokenOptions.empty
  = Return (SessionTokenPayload.to_json far_payload)
  /\ handleBearerToken env0 ("Bearer " ++ far_token)
     = mkResponse 500 (error_body "Failed to validate session token").
Proof. split; vm_compute; reflexivity. Qed.

End Handler.

(* ================================================================= *)
(** ** The token engine beyond the specification *)

Module TokenProperties.
Import SessionToken.

(** *** Segments *)

Lemma split_head sep s x xs :
  Str.split sep s = x :: xs ->
  contains sep x = false
  /\ ((xs = [] /\ s = x) \/ exists t, s = x ++ String sep t /\ Str.split sep t = xs).
Proof.
  revert x xs. induction s as [|c r IH]; intros x xs H; cbn [Str.split] in H.
  - injection H as <- <-. split; [reflexivity|]. left. split; reflexivity.
  - destruct (Ascii.eqb c sep) eqn:E.
    + injection H as <- <-. split; [reflexivity|]. right.
      apply Ascii.eqb_eq in E. subst c. exists r. split; reflexivity.
    + destruct (Str.split sep r) as [|y ys] eqn:Er.
      * exfalso. exact (StrFacts.split_not_nil _ _ Er).
      * injection H as <- <-. destruct (IH y ys eq_refl) as [Hy Hs].
        split; [cbn [contains]; rewrite E, Hy; reflexivity|].
        destruct Hs as [[-> ->] | [t [-> Ht]]].
        -- left. split; reflexivity.
        -- right. exists t. split; [reflexivity | exact Ht].
Qed.

Lemma split_three_inv token h p s :
  Str.split "." token = [h; p; s] ->
  token = h ++ "." ++ p ++ "." ++ s
  /\ contains "." h = false /\ contains "." p = false /\ contains "." s = false.
Proof.
  intros H.
  destruct (split_head _ _ _ _ H) as [Hh [[E _] | [t [-> Ht]]]]; [discriminate|].
  destruct (split_head _ _ _ _ Ht) as [Hp [[E _] | [u [-> Hu]]]]; [discriminate|].
  destruct (split_head _ _ _ _ Hu) as [Hs [[_ ->] | [v [_ Hv]]]].
  - repeat split; assumption.
  - exfalso. exact (StrFacts.split_not_nil _ _ Hv).
Qed.

(** Property X1: the wire format.  Whatever the payload and the secret, a
    token splits at its dots into exactly three segments: the constant header
    segment, the base64url text of the payload's JSON and the signature of the
    first two. *)
Theorem signPayload_segments payload secret :
  let p := Base64.encode_url (JSON.stringify (SessionTokenPayload.to_json payload)) in
  Str.split "." (signPayload payload secret)
  = ["eyJhbGciOiJIUzI1NiIsInR5cCI6IkpXVCJ9"; p;
     hmac_base64url secret ("eyJhbGciOiJIUzI1NiIsInR5cCI6IkpXVCJ9." ++ p)].
Proof.
  intros p. unfold signPayload. fold p.
  change (Base64.encode_url (JSON.stringify header))
    with "eyJhbGciOiJIUzI1NiIsInR5cCI6IkpXVCJ9".
  change ("eyJhbGciOiJIUzI1NiIsInR5cCI6IkpXVCJ9" ++ "." ++ p)
    with ("eyJhbGciOiJIUzI1NiIsInR5cCI6IkpXVCJ9." ++ p).
  change (("eyJhbGciOiJIUzI1NiIsInR5cCI6IkpXVCJ9." ++ p) ++ "." ++
          hmac_base64url secret ("eyJhbGciOiJIUzI1NiIsInR5cCI6IkpXVCJ9." ++ p))
    with ("eyJhbGciOiJIUzI1NiIsInR5cCI6IkpXVCJ9" ++ "." ++ p ++ "." ++
          hmac_base64url secret ("eyJhbGciOiJIUzI1NiIsInR5cCI6IkpXVCJ9." ++ p)).
  apply StrFacts.split_three.
  - reflexivity.
  - apply Base64Facts.encode_url_no_dot.
  - apply SignatureFacts.hmac_base64url_no_dot.
Qed.

(** Property X2: the failures of a verification.  [verifySessionToken] returns
    a payload or throws one of its two errors: what [JSON.parse] or a coercion
    throws inside never leaves it. *)
Theorem verify_failure_kinds env token options :
  (exists payload, verifySessionToken env token options = Return payload)
  \/ InvalidToken (verifySessionToken env token options)
  \/ TokenExpired (verifySessionToken env token options).
Proof.
  unfold verifySessionToken.
  destruct (String.eqb token ""); [right; left; eexists; reflexivity|].
  destruct (Str.split "." token) as [|h [|p [|s [|x r]]]];
    try (right; left; eexists; reflexivity).
  destruct (negb (safeEqual s _)); [right; left; eexists; reflexivity|].
  match goal with |- context [try_catch ?m _] => destruct m as [payload | []] end;
    cbn [try_catch].
  - left. eexists. reflexivity.
  - right. left. eexists. reflexivity.
  - right. right. eexists. reflexivity.
  - right. left. eexists. reflexivity.
  - right. left. eexists. reflexivity.
  - right. left. eexists. reflexivity.
  - right. left. eexists. reflexivity.
Qed.

(** *** What an accepted token is *)

Lemma assertValidPayload_return payload now required :
  assertValidPayload payload now required = Return tt ->
  (exists members, payload = JObj members)
  /\ JS.truthy (JS.get payload "exp") = true
  /\ JS.truthy (JS.get payload "scope") = true
  /\ isSessionTokenExpired payload now = Return false
  /\ (forall req,
        required = Some req -> req <> OneScope "" ->
        exists scope,
          JS.get payload "scope" = Some (JStr scope) /\ permits (Some req) scope = true).
Proof.
  unfold assertValidPayload. intros H.
  destruct (JS.truthy (Some payload)) eqn:Et; [|discriminate H].
  destruct (JS.typeof_object payload) eqn:Eo; [|discriminate H].
  cbn [negb orb] in H.
  destruct (JS.truthy (JS.get payload "exp")) eqn:Ee; [|discriminate H].
  destruct (JS.truthy (JS.get payload "scope")) eqn:Es; [|discriminate H].
  cbn [negb orb] in H.
  destruct (isSessionTokenExpired payload now) as [[|]|e] eqn:Ex; cbn [bind] in H;
    try discriminate H.
  split.
  { destruct payload; try discriminate Eo; try discriminate Et.
    - cbn in Ee. discriminate Ee.
    - eexists. reflexivity. }
  repeat split; try reflexivity.
  intros req -> Hreq.
  assert (Hi : includes match req with ManyScopes l => l | OneScope s => [s] end
                 (JS.get payload "scope") = true).
  { destruct req as [[|c s]|l]; [contradiction Hreq; reflexivity| |];
      destruct (includes _ _); [reflexivity | discriminate H | reflexivity | discriminate H]. }
  unfold includes in Hi.
  destruct (JS.get payload "scope") as [[| | |scope| |]|]; try discriminate Hi.
  cbn [JS.as_string] in Hi. exists scope. split; [reflexivity|].
  destruct req as [[|c s]|l]; [contradiction Hreq; reflexivity| |].
  - cbn [existsb] in Hi. rewrite orb_false_r in Hi. exact Hi.
  - exact Hi.
Qed.

(** Property X3: what an accepted token is.  When [verifySessionToken] returns
    a payload, the token is made of two segments without a dot followed by
    their HMAC under the verification secret; the payload is the object the
    second segment decodes to; its [exp] and [scope] are truthy; it has not
    expired; and, where a scope is required, its scope is a string among the
    required ones. *)
Theorem verify_accepts_only_signed env token options payload :
  verifySessionToken env token options = Return payload ->
  exists h p,
    token = signedToken (verificationSecret env options) h p
    /\ contains "." h = false /\ contains "." p = false
    /\ JSON.parse (Base64.decode p) = Return payload
    /\ (exists members, payload = JObj members)
    /\ JS.truthy (JS.get payload "exp") = true
    /\ JS.truthy (JS.get payload "scope") = true
    /\ isSessionTokenExpired payload (verificationTime env options) = Return false
    /\ (forall required,
          VerifySessionTokenOptions.requiredScope options = Some required ->
          required <> OneScope "" ->
          exists scope,
            JS.get payload "scope" = Some (JStr scope)
            /\ permits (Some required) scope = true).
Proof.
  unfold verifySessionToken.
  fold (verificationSecret env options). fold (verificationTime env options).
  intros H.
  destruct (String.eqb token ""); [discriminate H|].
  destruct (Str.split "." token) as [|h [|p [|s [|x r]]]] eqn:Es; try discriminate H.
  destruct (safeEqual s _) eqn:Eq; cbn [negb] in H; [|discriminate H].
  apply VerifyFacts.safeEqual_eq in Eq.
  apply split_three_inv in Es. destruct Es as [-> [Hh [Hp _]]].
  exists h, p.
  destruct (JSON.parse (Base64.decode p)) as [v|e] eqn:Ej; cbn [bind try_catch] in H;
    [|destruct e; discriminate H].
  destruct (assertValidPayload v _ _) as [[]|e] eqn:Ea; cbn [bind try_catch] in H;
    [|destruct e; discriminate H].
  injection H as <-.
  apply assertValidPayload_return in Ea.
  destruct Ea as [Hm [He [Hsc [Hx Hr]]]].
  split; [unfold signedToken; rewrite Eq; reflexivity|].
  repeat (split; [assumption|]). split; [reflexivity|].
  repeat (split; [assumption|]). exact Hr.
Qed.

Lemma verify_accepts_only_signed_witness :
  exists h p,
    fresh_token = signedToken "development-session-secret" h p
    /\ JSON.parse (Base64.decode p) = Return (SessionTokenPayload.to_json payload0).
Proof.
  destruct (verify_accepts_only_signed env0 fresh_token VerifySessionTokenOptions.empty
              (SessionTokenPayload.to_json payload0))
    as [h [p [H1 [_ [_ [H2 _]]]]]].
  - vm_compute. reflexivity.
  - exists h, p. split; [exact H1 | exact H2].
Defined.

(** *** Scopes *)

Lemma permits_includes required scope :
  scope <> "" ->
  match required with
  | None | Some (OneScope EmptyString) => true
  | Some req =>
      includes match req with ManyScopes l => l | OneScope s => [s] end (Some (JStr scope))
  end = permits required scope.
Proof.
  intros _. destruct required as [[[|c s]|l]|]; try reflexivity.
  cbn [permits]. apply VerifyFacts.includes_one.
Qed.

(** Property X4: the scope check.  A token that is validly signed, whose
    [exp] is a whole number of seconds, exact in doubles, not 0 and in the
    future, is refused with "Token scope is not permitted" whenever a scope
    is required and the token's is not among the required ones; an empty
    list of scopes so refuses every token. *)
Theorem verify_scope_not_permitted env options h p members m scope :
  contains "." h = false -> contains "." p = false ->
  JSON.parse (Base64.decode p) = Return (JObj members) ->
  JSON.lookup "exp" members = Some (JNum (Num.Dec m 0)) ->
  exact_seconds m -> m <> 0 ->
  JSON.lookup "scope" members = Some (JStr scope) -> scope <> "" ->
  verificationTime env options < m * 1000 ->
  permits (VerifySessionTokenOptions.requiredScope options) scope = false ->
  verifySessionToken env (signedToken (verificationSecret env options) h p) options
  = Throw (TokenInvalidError "Token scope is not permitted").
Proof.
  intros Hh Hp Hj He _ Hm Hs Hne Ht Hperm.
  rewrite (TokenEngine.verify_signed_fields env options h p members m O Hh Hp Hj He Hm).
  2:{ rewrite Hs. cbn [JS.truthy]. apply StrFacts.eqb_empty in Hne. rewrite Hne.
      reflexivity. }
  rewrite TokenEngine.seconds_scale.
  replace (m * 1000 <=? verificationTime env options) with false
    by (symmetry; apply Z.leb_gt; exact Ht).
  rewrite Hs. rewrite <- (permits_includes _ scope Hne) in Hperm.
  destruct (VerifySessionTokenOptions.requiredScope options) as [[[|c s]|l]|];
    try discriminate Hperm; rewrite Hperm; reflexivity.
Qed.

Lemma verify_scope_not_permitted_witness :
  verifySessionToken env0 (signedToken "test-secret" "e30" p0)
    (at_time 1704067200000 (Some (ManyScopes [])))
  = Throw (TokenInvalidError "Token scope is not permitted").
Proof.
  apply (verify_scope_not_permitted env0 (at_time 1704067200000 (Some (ManyScopes [])))
           "e30" p0 members0 1704067260 "practice");
    try reflexivity; try discriminate.
Defined.

(** *** Minting, then verifying *)

Lemma trim_empty scope : String.eqb scope "" = true -> Str.trim scope = "".
Proof. intros H. apply String.eqb_eq in H. subst scope. reflexivity. Qed.

Lemma createSessionToken_return env options created :
  createSessionToken env options = Return created ->
  let scope := CreateSessionTokenOptions.scope options in
  let ttl :=
    or_default (CreateSessionTokenOptions.ttlSeconds options) DEFAULT_TTL_SECONDS in
  let payload :=
    createdPayload env scope ttl
      (or_default (CreateSessionTokenOptions.now options) (clock env)) in
  Str.trim scope <> "" /\ Num.le ttl (Num.Dec 0 0) = false
  /\ exists t,
       JSDate.of_number (Num.mul (SessionTokenPayload.exp payload) (Num.Dec 1000 0))
       = Some t
       /\ JSDate.toISOString (Some t) = Return (expiresAt created)
       /\ created
          = mkCreated
              (signPayload payload
                 (or_default (CreateSessionTokenOptions.secret options)
                    (getSigningSecret env)))
              scope (expiresAt created).
Proof.
  intros H scope ttl payload. unfold createSessionToken in H.
  fold scope ttl payload in H.
  destruct (String.eqb scope "") eqn:E1; [discriminate H|].
  destruct (String.eqb (Str.trim scope) "") eqn:E2; [discriminate H|].
  cbn [orb] in H.
  destruct (Num.le ttl (Num.Dec 0 0)) eqn:E3; [discriminate H|].
  split; [apply StrFacts.eqb_empty; exact E2|]. split; [reflexivity|].
  destruct (JSDate.of_number _) as [t|]; [|discriminate H].
  exists t. split; [reflexivity|].
  destruct (JSDate.toISOString (Some t)) as [s|e]; [|discriminate H].
  cbn [bind] in H. injection H as <-. split; reflexivity.
Qed.

Lemma of_number_seconds x :
  JSDate.of_number (Num.mul (Num.Dec x 0) (Num.Dec 1000 0))
  = if Z.abs (x * 1000) <=? JSDate.max_time then Some (x * 1000) else None.
Proof.
  cbn [Num.mul JSDate.of_number Nat.add]. rewrite Minting.pow10_0, Z.mul_1_r.
  unfold Num.trunc. rewrite Minting.pow10_0, Z.quot_1_r. reflexivity.
Qed.

(** A payload with whole seconds, signed: what a verification answers. *)
Lemma verify_signPayload env jti scope iat exp secret options :
  verificationSecret env options = secret ->
  scope <> "" -> exp <> 0 -> Z.abs iat < 10 ^ 21 -> Z.abs exp < 10 ^ 21 ->
  let payload := SessionTokenPayload.mk jti scope (Num.Dec iat 0) (Num.Dec exp 0) in
  verifySessionToken env (signPayload payload secret) options
  = if exp * 1000 <=? verificationTime env options
    then Throw (TokenExpiredError "Session token expired")
    else if permits (VerifySessionTokenOptions.requiredScope options) scope
         then Return (SessionTokenPayload.to_json payload)
         else Throw (TokenInvalidError "Token scope is not permitted").
Proof.
  intros Hsec Hne Hz Hi Hx payload. subst secret.
  rewrite Minting.signPayload_signed.
  rewrite (TokenEngine.verify_signed_fields env options
             (Base64.encode_url (JSON.stringify header))
             (Base64.encode_url (JSON.stringify (SessionTokenPayload.to_json payload)))
             [("jti", JStr jti); ("scope", JStr scope);
              ("iat", JNum (Num.Dec iat 0)); ("exp", JNum (Num.Dec exp 0))]
             exp O).
  - rewrite Minting.pow10_0, Z.mul_1_r.
    destruct (exp * 1000 <=? verificationTime env options); [reflexivity|].
    change (JSON.lookup "scope" _) with (Some (JStr scope)).
    rewrite <- (permits_includes (VerifySessionTokenOptions.requiredScope options)
                  scope Hne).
    destruct (VerifySessionTokenOptions.requiredScope options) as [[[|c s]|l]|];
      try reflexivity;
      match goal with |- context [includes ?a ?b] => destruct (includes a b) end;
      reflexivity.
  - apply Base64Facts.encode_url_no_dot.
  - apply Base64Facts.encode_url_no_dot.
  - rewrite Base64Facts.decode_encode_url.
    apply (PayloadFacts.parse_stringify_payload jti scope iat exp Hi Hx).
  - reflexivity.
  - exact Hz.
  - cbn. apply StrFacts.eqb_empty in Hne. rewrite Hne. reflexivity.
Qed.

(** Property X5: the life of a minted token.  A token minted at [now] for a
    whole number of seconds is accepted, with the secret it was signed with,
    at every instant before its expiry second, also at instants before [now]
    (the issue time is never looked at), and it has expired from that second
    on; a required scope refuses it when it is another one. *)
Theorem minted_token_window env scope ttl now secret created t required :
  createSessionToken env
    (CreateSessionTokenOptions.mk scope (Some (Num.Dec ttl 0)) (Some now) (Some secret))
  = Return created ->
  now / 1000 + Z.min ttl 300 <> 0 ->
  verifySessionToken env (token created)
    (VerifySessionTokenOptions.mk (Some t) required (Some secret))
  = if (now / 1000 + Z.min ttl 300) * 1000 <=? t
    then Throw (TokenExpiredError "Session token expired")
    else if permits required scope
         then Return
                (SessionTokenPayload.to_json
                   (SessionTokenPayload.mk (randomUUID env) scope (Num.Dec (now / 1000) 0)
                      (Num.Dec (now / 1000 + Z.min ttl 300) 0)))
         else Throw (TokenInvalidError "Token scope is not permitted").
Proof.
  intros Hc Hz.
  destruct (createSessionToken_return _ _ _ Hc) as [Hs [Hl [d [Hd [_ ->]]]]].
  cbn [CreateSessionTokenOptions.scope CreateSessionTokenOptions.ttlSeconds
       CreateSessionTokenOptions.now CreateSessionTokenOptions.secret or_default
       token] in *.
  assert (Hpos : 0 < ttl).
  { unfold Num.le in Hl. apply Z.leb_gt in Hl. rewrite Minting.pow10_0 in Hl. lia. }
  rewrite (Minting.createdPayload_int env scope ttl now Hpos) in *.
  cbn [SessionTokenPayload.exp] in Hd. rewrite of_number_seconds in Hd.
  set (x := now / 1000 + Z.min ttl 300) in *.
  destruct (Z.abs (x * 1000) <=? JSDate.max_time) eqn:Ea; [|discriminate Hd].
  apply Z.leb_le in Ea. unfold JSDate.max_time in Ea.
  assert (Hne : scope <> "") by (intros ->; apply Hs; reflexivity).
  apply (verify_signPayload env (randomUUID env) scope (now / 1000) x secret
           (VerifySessionTokenOptions.mk (Some t) required (Some secret)));
    try reflexivity; try assumption; lia.
Qed.

Lemma minted_token_window_witness :
  exists created,
    createSessionToken env0
      (CreateSessionTokenOptions.mk "practice" (Some (Num.Dec 1000 0)) (Some 1704067200000)
         (Some "test-secret"))
    = Return created
    /\ (exists payload,
          verifySessionToken env0 (token created) (at_time 0 None) = Return payload)
    /\ verifySessionToken env0 (token created) (at_time 1704067500000 None)
       = Throw (TokenExpiredError "Session token expired").
Proof.
  destruct (createSessionToken env0
              (CreateSessionTokenOptions.mk "practice" (Some (Num.Dec 1000 0))
                 (Some 1704067200000) (Some "test-secret"))) as [created|e] eqn:E;
    [|vm_compute in E; discriminate E].
  exists created. split; [reflexivity|]. split.
  - eexists.
    apply (minted_token_window env0 "practice" 1000 1704067200000 "test-secret" created
             0 None E).
    discriminate.
  - apply (minted_token_window env0 "practice" 1000 1704067200000 "test-secret" created
             1704067500000 None E).
    discriminate.
Defined.

(** Property X6: the two expiries of a minting agree.  For a whole number
    of seconds as TTL, or none, the [expiresAt] string that
    [createSessionToken] returns next to the token reads back, by
    [Date.parse], as the instant of the token's [exp] claim:
    [(iat + min(ttl, 300)) * 1000] milliseconds. *)
Theorem created_expiresAt_parses env scope ttl now secret created :
  createSessionToken env
    (CreateSessionTokenOptions.mk scope (option_map (fun z => Num.Dec z 0) ttl) now secret)
  = Return created ->
  token created
  = signPayload
      (SessionTokenPayload.mk (randomUUID env) scope
         (Num.Dec (or_default now (clock env) / 1000) 0)
         (Num.Dec (or_default now (clock env) / 1000 + Z.min (or_default ttl 60) 300) 0))
      (or_default secret (getSigningSecret env))
  /\ JSDate.parse (expiresAt created)
     = Some ((or_default now (clock env) / 1000 + Z.min (or_default ttl 60) 300) * 1000).
Proof.
  intros Hc.
  destruct (Minting.created_whole env scope ttl now secret created Hc) as [Hpos Ht].
  split; [exact Ht|].
  destruct (createSessionToken_return _ _ _ Hc) as [_ [_ [t [Hd [Hi _]]]]].
  cbn [CreateSessionTokenOptions.scope CreateSessionTokenOptions.ttlSeconds
       CreateSessionTokenOptions.now] in Hd.
  replace (or_default (option_map (fun z => Num.Dec z 0) ttl) DEFAULT_TTL_SECONDS)
    with (Num.Dec (or_default ttl 60) 0) in Hd by (destruct ttl; reflexivity).
  rewrite (Minting.createdPayload_int env scope _ _ Hpos) in Hd.
  cbn [SessionTokenPayload.exp] in Hd. rewrite of_number_seconds in Hd.
  destruct (Z.abs _ <=? JSDate.max_time) eqn:Ea; [|discriminate Hd].
  injection Hd as <-. apply Z.leb_le in Ea.
  destruct (DateFacts.parse_toISOString _ Ea) as [s [Hs Hp]].
  rewrite Hi in Hs. injection Hs as <-. exact Hp.
Qed.

Lemma created_expiresAt_parses_witness :
  exists created,
    createSessionToken env0
      (CreateSessionTokenOptions.mk "practice" (Some (Num.Dec 90 0)) (Some 1704067200000)
         (Some "test-secret"))
    = Return created
    /\ JSDate.parse (expiresAt created) = Some 1704067290000.
Proof.
  destruct (createSessionToken env0
              (CreateSessionTokenOptions.mk "practice" (Some (Num.Dec 90 0))
                 (Some 1704067200000) (Some "test-secret"))) as [created|e] eqn:E;
    [|vm_compute in E; discriminate E].
  exists created. split; [reflexivity|].
  exact (proj2 (created_expiresAt_parses env0 "practice" (Some 90) (Some 1704067200000)
                  (Some "test-secret") created E)).
Defined.

(** Property X7: the failures of a minting.  [createSessionToken] throws in
    three cases only, tried in this order: a scope that is empty or white
    space, a TTL that is not above zero, and an expiry that is no date, which
    is a [RangeError] of [toISOString] and not an error of the token engine (a
    TTL that is [NaN] ends there). *)
Theorem create_failures env options e :
  createSessionToken env options = Throw e ->
  let scope := CreateSessionTokenOptions.scope options in
  let ttl :=
    or_default (CreateSessionTokenOptions.ttlSeconds options) DEFAULT_TTL_SECONDS in
  let payload :=
    createdPayload env scope ttl
      (or_default (CreateSessionTokenOptions.now options) (clock env)) in
  (e = TokenInvalidError "Scope is required" /\ Str.trim scope = "")
  \/ (e = TokenInvalidError "TTL must be greater than 0"
      /\ Str.trim scope <> "" /\ Num.le ttl (Num.Dec 0 0) = true)
  \/ (e = RangeError "Invalid time value"
      /\ Str.trim scope <> "" /\ Num.le ttl (Num.Dec 0 0) = false
      /\ JSDate.of_number (Num.mul (SessionTokenPayload.exp payload) (Num.Dec 1000 0))
         = None).
Proof.
  intros H scope ttl payload. unfold createSessionToken in H.
  fold scope ttl payload in H.
  destruct (String.eqb scope "") eqn:E1.
  { left. injection H as <-. split; [reflexivity | apply trim_empty; exact E1]. }
  destruct (String.eqb (Str.trim scope) "") eqn:E2.
  { left. injection H as <-. split; [reflexivity | apply String.eqb_eq; exact E2]. }
  cbn [orb] in H. apply StrFacts.eqb_empty in E2.
  destruct (Num.le ttl (Num.Dec 0 0)) eqn:E3.
  { right. left. injection H as <-. repeat split; [exact E2]. }
  right. right.
  destruct (JSDate.of_number _) as [t|].
  - destruct (Minting.toISOString_some t) as [s Hs]. rewrite Hs in H. discriminate H.
  - injection H as <-. repeat split; [exact E2].
Qed.

Lemma create_failures_witness :
  createSessionToken env0
    (CreateSessionTokenOptions.mk "practice" (Some Num.NaN) None None)
  = Throw (RangeError "Invalid time value").
Proof.
  destruct (createSessionToken env0
              (CreateSessionTokenOptions.mk "practice" (Some Num.NaN) None None))
    as [c|e] eqn:E; [vm_compute in E; discriminate E|].
  destruct (create_failures _ _ _ E) as [[_ H] | [[_ [_ H]] | [-> _]]].
  - vm_compute in H. discriminate H.
  - vm_compute in H. discriminate H.
  - reflexivity.
Defined.

End TokenProperties.

(* ================================================================= *)
(** ** The credential gate beyond the specification *)

Module GateProperties.
Import BasicAuth.

(** Property X8: what the password check decides.  [verifyAppPassword] answers
    [true] exactly when a password is configured, is not the empty string and
    is, character for character, the candidate; a candidate that is absent
    counts as the empty string and so never passes. *)
Theorem verifyAppPassword_accepts_iff env password :
  fst (verifyAppPassword env password) = true
  <-> exists expected,
        APP_PASSWORD env = Some expected /\ expected <> ""
        /\ password = Some expected.
Proof.
  unfold verifyAppPassword.
  destruct (APP_PASSWORD env) as [[|c expected]|].
  - split; [discriminate|]. intros [e [H [Hne _]]]. injection H as <-. contradiction.
  - rewrite CredentialGate.timingSafeCompare_spec. split.
    + intros H. exists (String c expected). split; [reflexivity|]. split; [discriminate|].
      destruct (_ =? _)%nat; [|discriminate H]. cbn [fst] in H.
      apply String.eqb_eq in H. destruct password as [p|]; cbn [or_default] in H.
      * rewrite H. reflexivity.
      * discriminate H.
    + intros [e [H [_ ->]]]. injection H as <-. cbn [or_default].
      rewrite Nat.eqb_refl. cbn [fst]. apply String.eqb_refl.
  - split; [discriminate|]. intros [e [H _]]. discriminate H.
Qed.

(** *** The header *)

Lemma indexOf_some c s i :
  Str.indexOf c s = Some i ->
  s = Str.take i s ++ String c (Str.drop (S i) s)
  /\ contains c (Str.take i s) = false.
Proof.
  revert i. induction s as [|d r IH]; intros i H; cbn [Str.indexOf] in H; [discriminate H|].
  destruct (Ascii.eqb d c) eqn:E.
  - injection H as <-. apply Ascii.eqb_eq in E. subst d. split; reflexivity.
  - destruct (Str.indexOf c r) as [j|]; [|discriminate H]. injection H as <-.
    destruct (IH j eq_refl) as [H1 H2]. cbn [Str.take Str.drop contains].
    rewrite E, H2. split; [|reflexivity].
    change (String d r = String d (Str.take j r ++ String c (Str.drop (S j) r))).
    f_equal. exact H1.
Qed.

(** Property X9: what parsed credentials are.  When [parseBasicAuthHeader]
    returns credentials, the header starts with a scheme that lower-cases to
    ["basic"], a space and a value; the value decodes, as base64, to the user
    name, a colon and the password; and the user name has no colon. *)
Theorem parseBasicAuthHeader_sound header credentials :
  parseBasicAuthHeader header = Some credentials ->
  exists text scheme value rest,
    header = Some text
    /\ Str.split " " text = scheme :: value :: rest
    /\ Str.toLowerCase scheme = "basic" /\ value <> ""
    /\ Base64.decode value
       = Client.user_pass (username credentials) (password credentials)
    /\ contains ":" (username credentials) = false.
Proof.
  unfold parseBasicAuthHeader. intros H.
  destruct header as [[|c0 text0]|]; try discriminate H.
  set (text := String c0 text0) in *.
  destruct (Str.split " " text) as [|scheme [|value rest]] eqn:Es;
    cbn [nth_error] in H; try discriminate H.
  destruct (String.eqb scheme "") eqn:E1; [discriminate H|].
  destruct (String.eqb value "") eqn:E2; [discriminate H|].
  destruct (String.eqb (Str.toLowerCase scheme) "basic") eqn:E3; [|discriminate H].
  cbn [orb negb] in H.
  destruct (Str.indexOf ":" (Base64.decode value)) as [i|] eqn:Ei; [|discriminate H].
  injection H as <-. cbn [username password].
  destruct (indexOf_some _ _ _ Ei) as [Hd Hc].
  exists text, scheme, value, rest. split; [reflexivity|]. split; [exact Es|].
  split; [apply String.eqb_eq; exact E3|].
  split; [apply StrFacts.eqb_empty; exact E2|].
  split; [exact Hd | exact Hc].
Qed.

Lemma parseBasicAuthHeader_sound_witness :
  exists value,
    Base64.decode value = Client.user_pass "a" "b"
    /\ Str.split " " "Basic YTpi$" = ["Basic"; value].
Proof.
  destruct (parseBasicAuthHeader_sound (Some "Basic YTpi$") (mkCredentials "a" "b"))
    as [text [scheme [value [rest [H1 [H2 [_ [_ [H3 _]]]]]]]]].
  - reflexivity.
  - injection H1 as <-. vm_compute in H2. injection H2 as <- <- <-.
    exists "YTpi$". split; [exact H3 | reflexivity].
Defined.

(** *** Headers as clients write them *)

Lemma unbase64_std_char v : 0 <= v < 64 -> Base64.unbase64 (Client.std_char v) = Some v.
Proof.
  revert v. apply Base64Facts.sextet_cases. intros n Hn. Base64Facts.each_sextet n.
Qed.

Lemma std_char_plain v :
  0 <= v < 64 ->
  Ascii.eqb (Client.std_char v) "=" = false /\ Ascii.eqb (Client.std_char v) " " = false.
Proof.
  revert v. apply Base64Facts.sextet_cases. intros n Hn. Base64Facts.each_sextet n.
Qed.

Lemma sextets_std v r :
  0 <= v < 64 -> Base64.sextets (String (Client.std_char v) r) = v :: Base64.sextets r.
Proof.
  intros H. simpl. rewrite (proj1 (std_char_plain v H)), (unbase64_std_char v H).
  reflexivity.
Qed.

Import Base64Facts.

Lemma decode_base64 s : Base64.decode (Client.base64 s) = s.
Proof.
  unfold Base64.decode. induction s as [|a|a b|a b c r IH] using string_ind3.
  - reflexivity.
  - cbn [Client.base64]. rewrite !sextets_std by sextet_range.
    cbn [Base64.sextets Base64.bytes_of_sextets Ascii.eqb Bool.eqb].
    f_equal. rewrite <- (StrFacts.chr_code a) at 3. f_equal. sextet_range.
  - cbn [Client.base64]. rewrite !sextets_std by sextet_range.
    cbn [Base64.sextets Base64.bytes_of_sextets Ascii.eqb Bool.eqb].
    f_equal; [|f_equal].
    + rewrite <- (StrFacts.chr_code a) at 3. f_equal. sextet_range.
    + rewrite <- (StrFacts.chr_code b) at 3. f_equal. sextet_range.
  - cbn [Client.base64]. rewrite !sextets_std by sextet_range.
    cbn [Base64.bytes_of_sextets].
    rewrite IH. f_equal; [|f_equal; [|f_equal]].
    + rewrite <- (StrFacts.chr_code a) at 3. f_equal. sextet_range.
    + rewrite <- (StrFacts.chr_code b) at 3. f_equal. sextet_range.
    + rewrite <- (StrFacts.chr_code c) at 3. f_equal. sextet_range.
Qed.

Lemma base64_no_space s : contains " " (Client.base64 s) = false.
Proof.
  induction s as [|a|a b|a b c r IH] using string_ind3; cbn [Client.base64 contains];
    rewrite ?IH;
    repeat match goal with
           | |- context [Ascii.eqb (Client.std_char ?v) " "%char] =>
               rewrite (fun H => proj2 (std_char_plain v H)) by sextet_range
           end; reflexivity.
Qed.

Lemma base64_nonempty a r : Client.base64 (String a r) <> "".
Proof. destruct r as [|b [|c r]]; discriminate. Qed.

Lemma lower_not_space c : Ascii.eqb c " " = true -> Str.lower c = " "%char.
Proof. intros H. apply Ascii.eqb_eq in H. subst c. reflexivity. Qed.

Lemma basic_scheme scheme :
  Str.toLowerCase scheme = "basic" ->
  contains " " scheme = false /\ String.eqb scheme "" = false.
Proof.
  destruct scheme as [|c1 [|c2 [|c3 [|c4 [|c5 [|c6 r]]]]]]; try discriminate.
  cbn [Str.toLowerCase]. intros H. injection H as H1 H2 H3 H4 H5.
  split; [|reflexivity]. cbn [contains].
  repeat match goal with
         | |- context [Ascii.eqb ?c " "%char] =>
             let E := fresh in
             destruct (Ascii.eqb c " "%char) eqn:E;
             [apply lower_not_space in E; congruence|]
         end.
  reflexivity.
Qed.

Lemma split_two scheme value :
  contains " " scheme = false -> contains " " value = false ->
  Str.split " " (scheme ++ " " ++ value) = [scheme; value].
Proof.
  intros H1 H2.
  change (scheme ++ " " ++ value) with (scheme ++ String " " value).
  rewrite (StrFacts.split_at_first " " scheme value H1).
  rewrite (StrFacts.split_without " " value H2). reflexivity.
Qed.

Lemma header_cons scheme r :
  String.eqb scheme "" = false -> exists c t, scheme ++ r = String c t.
Proof. destruct scheme as [|c t]; [discriminate|]. intros _. exists c, (t ++ r). reflexivity. Qed.

(** Property X10: credentials come back.  For every user name without a colon
    and every password, colons included, the header a client writes, the
    scheme in any mix of cases, a space and the base64 of [username:password],
    parses to that user name and that password. *)
Theorem parseBasicAuthHeader_roundtrip scheme username password :
  Str.toLowerCase scheme = "basic" ->
  contains ":" username = false ->
  parseBasicAuthHeader
    (Some (scheme ++ " " ++ Client.base64 (Client.user_pass username password)))
  = Some (mkCredentials username password).
Proof.
  intros Hs Hu. destruct (basic_scheme scheme Hs) as [Hsp Hne].
  unfold parseBasicAuthHeader.
  destruct (header_cons scheme
              (" " ++ Client.base64 (Client.user_pass username password)) Hne)
    as [c [t E]].
  rewrite (split_two scheme _ Hsp (base64_no_space _)).
  rewrite E. cbn [nth_error]. rewrite Hne, Hs.
  replace (String.eqb (Client.base64 (Client.user_pass username password)) "")
    with false.
  2:{ symmetry. apply StrFacts.eqb_empty. unfold Client.user_pass.
      destruct username; apply base64_nonempty. }
  cbn [orb negb String.eqb Ascii.eqb Bool.eqb].
  rewrite decode_base64. unfold Client.user_pass.
  change (username ++ ":" ++ password) with (username ++ String ":" password).
  rewrite (CredentialGate.indexOf_first ":" username password Hu).
  rewrite CredentialGate.take_length, CredentialGate.drop_length. reflexivity.
Qed.

Lemma parseBasicAuthHeader_roundtrip_witness :
  parseBasicAuthHeader (Some "bAsIc dXNlcjpwYTpzcw==")
  = Some (mkCredentials "user" "pa:ss").
Proof.
  apply (parseBasicAuthHeader_roundtrip "bAsIc" "user" "pa:ss"); reflexivity.
Defined.

(** Property X11: what follows a second space is not read.  [split] cuts the
    header at every space and the code takes the first two parts: a header
    with more text after a space behind the value parses as the header without
    it. *)
Theorem parseBasicAuthHeader_ignores_rest scheme value rest :
  contains " " scheme = false -> contains " " value = false ->
  parseBasicAuthHeader (Some (scheme ++ " " ++ value ++ " " ++ rest))
  = parseBasicAuthHeader (Some (scheme ++ " " ++ value)).
Proof.
  intros H1 H2. unfold parseBasicAuthHeader.
  rewrite (split_two scheme value H1 H2).
  change (scheme ++ " " ++ value ++ " " ++ rest)
    with (scheme ++ String " " (value ++ String " " rest)).
  rewrite (StrFacts.split_at_first " " scheme _ H1).
  rewrite (StrFacts.split_at_first " " value _ H2).
  destruct scheme as [|c t]; cbn [append nth_error]; reflexivity.
Qed.

Lemma parseBasicAuthHeader_ignores_rest_witness :
  parseBasicAuthHeader (Some "Basic YTpi anything else")
  = Some (mkCredentials "a" "b").
Proof.
  refine (eq_trans
            (parseBasicAuthHeader_ignores_rest "Basic" "YTpi" "anything else" _ _) _);
    reflexivity.
Defined.

End GateProperties.

(* ================================================================= *)
(** ** The schema validator *)

Module SchemaProperties.
Import Schema.

Lemma schema_induction (P : schema -> Prop) :
  (forall s, P (StringSchema s)) ->
  (forall requireInt minValue maxValue, P (NumberSchema requireInt minValue maxValue)) ->
  (forall shape, Forall (fun entry => P (snd entry)) shape -> P (ObjectSchema shape)) ->
  (forall inner, P inner -> P (OptionalSchema inner)) ->
  (forall inner defaultValue, P inner -> P (DefaultSchema inner defaultValue)) ->
  forall sch, P sch.
Proof.
  intros Hs Hn Ho Hopt Hd. fix IH 1. intros [s|ri lo hi|shape|inner|inner d].
  - apply Hs.
  - apply Hn.
  - apply Ho. induction shape as [|[key inner] r IHr].
    + constructor.
    + constructor; [apply IH | exact IHr].
  - apply Hopt, IH.
  - apply Hd, IH.
Qed.

(** *** Strings *)

Lemma check_refinements_return rs data path :
  Zod.check_refinements rs data path = Return tt ->
  Forall (fun refinement => fst refinement data = true) rs.
Proof.
  induction rs as [|[predicate message] r IH]; cbn [Zod.check_refinements]; intros H.
  - constructor.
  - destruct (predicate data) eqn:E; cbn [negb] in H; [|discriminate H].
    constructor; [exact E | apply IH; exact H].
Qed.

Lemma check_refinements_throw rs data path e :
  Zod.check_refinements rs data path = Throw e ->
  exists message, e = ZodError [mkIssue path message].
Proof.
  induction rs as [|[predicate message] r IH]; cbn [Zod.check_refinements]; intros H.
  - discriminate H.
  - destruct (predicate data); cbn [negb] in H.
    + apply IH; exact H.
    + injection H as <-. eexists. reflexivity.
Qed.

Lemma parse_string_throw s data path e :
  Zod.parse_string s data path = Throw e ->
  exists message, e = ZodError [mkIssue path message].
Proof.
  unfold Zod.parse_string. intros H.
  destruct data as [v|].
  - destruct (JS.as_string (Some v)) as [str|]; [|injection H as <-; eexists; reflexivity].
    destruct (match Zod.minLength s with Some l => Str.len str <? l | None => false end);
      [injection H as <-; eexists; reflexivity|].
    destruct (Zod.check_refinements _ _ _) as [[]|e'] eqn:E; cbn [bind] in H;
      [discriminate H|].
    injection H as <-. exact (check_refinements_throw _ _ _ _ E).
  - destruct (Zod.defaultValue s); [discriminate H|].
    injection H as <-. eexists. reflexivity.
Qed.

(** Property X12: a string schema returns its input.  When a string schema
    accepts a value that is not [undefined], the value is a string and is
    returned as it is; when it is ASCII text, whose bytes are its code units,
    it has at least the minimal length, if one is set; and it satisfies every
    refinement. *)
Theorem string_schema_returns_input s v path r :
  ascii_text r = true ->
  Zod.parse_string s (Some v) path = Return r ->
  v = JStr r
  /\ (forall l, Zod.minLength s = Some l -> l <= Z.of_nat (String.length r))
  /\ Forall (fun refinement => fst refinement r = true) (Zod.refinements s).
Proof.
  unfold Zod.parse_string. intros _ H.
  destruct v as [| | |str| |]; cbn [JS.as_string] in H; try discriminate H.
  destruct (match Zod.minLength s with Some l => Str.len str <? l | None => false end)
    eqn:El; [discriminate H|].
  destruct (Zod.check_refinements _ _ _) as [[]|e] eqn:E; cbn [bind] in H;
    [|discriminate H].
  injection H as <-. split; [reflexivity|]. split.
  - intros l Hl. rewrite Hl in El. apply Z.ltb_ge in El. exact El.
  - exact (check_refinements_return _ _ _ E).
Qed.

Lemma string_schema_returns_input_witness :
  JStr "practice" = JStr "practice" /\ 1 <= Z.of_nat (String.length "practice").
Proof.
  destruct (string_schema_returns_input (Zod.min 1 Zod.string_) (JStr "practice") []
              "practice" eq_refl eq_refl) as [H1 [H2 _]].
  split; [exact H1 | apply H2; reflexivity].
Defined.

(** Property X13: the two ways to a default agree.  [StringSchema] overrides
    [default] and keeps the value in the schema itself; the schema so obtained
    validates as the generic wrapper [DefaultSchema] around the string schema
    does: the default is returned for [undefined] only, without being checked
    itself, and every other input is validated as before. *)
Theorem string_default_as_wrapper s value data path :
  _parse (StringSchema (string_default value s)) data path
  = _parse (DefaultSchema (StringSchema s) (PString value)) data path.
Proof.
  destruct data as [v|]; reflexivity.
Qed.

(** *** Numbers *)

Lemma pow10_pos k : 0 < Num.pow10 k.
Proof. unfold Num.pow10. apply Z.pow_pos_nonneg; lia. Qed.

Lemma isInteger_spec m k :
  isInteger (Num.Dec m k) = true <-> exists z, m = z * Num.pow10 k.
Proof.
  pose proof (pow10_pos k) as Hp. unfold isInteger. rewrite Z.eqb_eq. split.
  - intros H. exists (m / Num.pow10 k).
    pose proof (Z.div_mod m (Num.pow10 k)). lia.
  - intros [z ->]. apply Z.mod_mul. lia.
Qed.

Lemma lt_dec m k n : lt (Num.Dec m k) (Num.Dec n 0) = (m <? n * Num.pow10 k).
Proof.
  unfold lt, Num.le. rewrite Minting.pow10_0, Z.mul_1_r.
  destruct (m <=? n * Num.pow10 k) eqn:E1, (n * Num.pow10 k <=? m) eqn:E2,
    (m <? n * Num.pow10 k) eqn:E3; cbn [andb negb]; try reflexivity; lia.
Qed.

Lemma dec_lt n m k : lt (Num.Dec n 0) (Num.Dec m k) = (n * Num.pow10 k <? m).
Proof.
  unfold lt, Num.le. rewrite Minting.pow10_0, Z.mul_1_r.
  destruct (m <=? n * Num.pow10 k) eqn:E1, (n * Num.pow10 k <=? m) eqn:E2,
    (n * Num.pow10 k <? m) eqn:E3; cbn [andb negb]; try reflexivity; lia.
Qed.

(** Property X14: whole numbers in a range.  The schema
    [z.number().int().min(lo) .max(hi)] accepts a value exactly when it is a
    number, and a whole one between [lo] and [hi]: no string or [null] is
    coerced, no fraction, [NaN] or infinity passes; the number is returned as
    it is. *)
Theorem int_range_accepts lo hi data path n :
  parse_number true (Some (Num.Dec lo 0)) (Some (Num.Dec hi 0)) data path = Return n
  <-> data = Some (JNum n)
      /\ exists z k, n = Num.Dec (z * Num.pow10 k) k /\ lo <= z <= hi.
Proof.
  unfold parse_number. split.
  - intros H. destruct data as [[| |x| | |]|]; try discriminate H.
    destruct x as [m k| |[|]]; cbn [isNaN isInteger andb negb] in H; try discriminate H.
    destruct (m mod Num.pow10 k =? 0) eqn:Ei; cbn [negb] in H; [|discriminate H].
    rewrite lt_dec, dec_lt in H.
    destruct (m <? lo * Num.pow10 k) eqn:E1; [discriminate H|].
    destruct (hi * Num.pow10 k <? m) eqn:E2; [discriminate H|].
    injection H as <-. split; [reflexivity|].
    destruct (proj1 (isInteger_spec m k) Ei) as [z ->].
    exists z, k. split; [reflexivity|].
    pose proof (pow10_pos k). apply Z.ltb_ge in E1, E2. nia.
  - intros [-> [z [k [-> Hz]]]]. cbn [isNaN].
    rewrite (proj2 (isInteger_spec (z * Num.pow10 k) k)) by (exists z; reflexivity).
    cbn [andb negb]. rewrite lt_dec, dec_lt.
    pose proof (pow10_pos k).
    replace (z * Num.pow10 k <? lo * Num.pow10 k) with false
      by (symmetry; apply Z.ltb_ge; nia).
    replace (hi * Num.pow10 k <? z * Num.pow10 k) with false
      by (symmetry; apply Z.ltb_ge; nia).
    reflexivity.
Qed.

(** *** Objects and errors *)

Lemma parse_number_throw requireInt minValue maxValue data path e :
  parse_number requireInt minValue maxValue data path = Throw e ->
  exists message, e = ZodError [mkIssue path message].
Proof.
  unfold parse_number. intros H.
  destruct data as [[| |n| | |]|]; try (injection H as <-; eexists; reflexivity).
  destruct (isNaN n); [injection H as <-; eexists; reflexivity|].
  destruct (requireInt && negb (isInteger n)); [injection H as <-; eexists; reflexivity|].
  destruct minValue as [lo|], maxValue as [hi|];
    repeat match type of H with
           | (if ?c then _ else _) = _ => destruct c
           end;
    try discriminate H; injection H as <-; eexists; reflexivity.
Qed.

(** Property X15: one issue, under the path.  Whatever the schema and the
    input, a validation that fails throws a [ZodError], nothing else, which
    carries a single issue, the first one met, whose path starts with the path
    the validation was entered with. *)
Theorem parse_single_issue sch : forall data path e,
  _parse sch data path = Throw e ->
  exists suffix message, e = ZodError [mkIssue (path ++ suffix) message].
Proof.
  induction sch as [s|ri lo hi|shape IH|inner IH|inner d IH] using schema_induction;
    intros data path e H; cbn [_parse] in H.
  - destruct (Zod.parse_string s data path) as [v|e'] eqn:E; [discriminate H|].
    injection H as <-. destruct (parse_string_throw _ _ _ _ E) as [message ->].
    exists [], message. rewrite List.app_nil_r. reflexivity.
  - destruct (parse_number ri lo hi data path) as [v|e'] eqn:E; [discriminate H|].
    injection H as <-. destruct (parse_number_throw _ _ _ _ _ _ E) as [message ->].
    exists [], message. rewrite List.app_nil_r. reflexivity.
  - destruct data as [[| | | | |members]|];
      try (injection H as <-; exists [], "Expected object"; rewrite List.app_nil_r;
           reflexivity).
    match type of H with bind ?m _ = _ => destruct m as [fields|e'] eqn:E end;
      [discriminate H|].
    injection H as <-. clear -IH E. revert E.
    induction IH as [|[key inner] r Hinner _ IHr]; intros E; [discriminate E|].
    cbn [snd] in Hinner.
    destruct (_parse inner (JS.get (JObj members) key) (path ++ [key])) as [v|e1] eqn:E1;
      cbn [bind] in E.
    + apply IHr.
      match type of E with bind ?m _ = _ => destruct m as [vs|e2] end;
        [discriminate E | exact E].
    + injection E as <-. destruct (Hinner _ _ _ E1) as [suffix [message ->]].
      exists (key :: suffix), message. rewrite <- List.app_assoc. reflexivity.
  - destruct data as [v|]; [|discriminate H]. exact (IH _ _ _ H).
  - destruct data as [v|]; [|discriminate H]. exact (IH _ _ _ H).
Qed.

Lemma parse_single_issue_witness :
  exists suffix message,
    ZodError [mkIssue ["body"; "ttlSeconds"] "Expected number <= 600"]
    = ZodError [mkIssue (["body"] ++ suffix) message].
Proof.
  apply (parse_single_issue Api.sessionRequestSchema
           (Some (JObj [("ttlSeconds", JNum (Num.Dec 601 0))])) ["body"]).
  reflexivity.
Defined.

(** Nothing but a [ZodError] with one issue comes out of a validation. *)
Lemma parse_throws_issue sch : forall data path e,
  _parse sch data path = Throw e -> exists issue, e = ZodError [issue].
Proof.
  induction sch as [s|ri lo hi|shape IH|inner IH|inner d IH] using schema_induction;
    intros data path e H; cbn [_parse] in H.
  - destruct (Zod.parse_string s data path) as [v|e'] eqn:E; [discriminate H|].
    injection H as <-. destruct (parse_string_throw _ _ _ _ E) as [message ->].
    eexists. reflexivity.
  - destruct (parse_number ri lo hi data path) as [v|e'] eqn:E; [discriminate H|].
    injection H as <-. destruct (parse_number_throw _ _ _ _ _ _ E) as [message ->].
    eexists. reflexivity.
  - destruct data as [[| | | | |members]|]; try (injection H as <-; eexists; reflexivity).
    match type of H with bind ?m _ = _ => destruct m as [fields|e'] eqn:E end;
      [discriminate H|].
    injection H as <-. clear -IH E. revert E.
    induction IH as [|[key inner] r Hinner _ IHr]; intros E; [discriminate E|].
    destruct (_parse inner (JS.get (JObj members) key) (path ++ [key])) as [v|e1] eqn:E1;
      cbn [bind] in E.
    + apply IHr.
      match type of E with bind ?m _ = _ => destruct m as [vs|e2] end;
        [discriminate E | exact E].
    + injection E as <-. exact (Hinner _ _ _ E1).
  - destruct data as [v|]; [|discriminate H]. exact (IH _ _ _ H).
  - destruct data as [v|]; [|discriminate H]. exact (IH _ _ _ H).
Qed.

(** Property X16:  [safeParse] always returns.  It returns the validated
    value, or the single issue of the failure, and never throws; [parse]
    returns that value or throws that issue. *)
Theorem safeParse_returns sch data :
  (exists value,
     safeParse sch data = Return (Success value) /\ parse sch data = Return value)
  \/ (exists issue,
        safeParse sch data = Return (Failure [issue])
        /\ parse sch data = Throw (ZodError [issue])).
Proof.
  unfold parse, safeParse.
  destruct (_parse sch data []) as [value|e] eqn:E.
  - left. exists value. split; reflexivity.
  - right. destruct (parse_throws_issue _ _ _ _ E) as [issue ->].
    exists issue. split; reflexivity.
Qed.

(** Property X17: the keys of a validated object.  What an object schema
    returns has the keys of the shape, all of them and in its order, each with
    the validated value of the input's member of that name (of [undefined]
    when there is none); members of the input that the shape does not name are
    left out. *)
Theorem object_schema_fields shape data path value :
  _parse (ObjectSchema shape) data path = Return value ->
  exists members fields,
    data = Some (JObj members) /\ value = PObject fields
    /\ Forall2
         (fun (entry : string * schema) (field : string * parsed) =>
            fst field = fst entry
            /\ _parse (snd entry) (JSON.lookup (fst entry) members)
                 (path ++ [fst entry])
               = Return (snd field))
         shape fields.
Proof.
  cbn [_parse]. intros H.
  destruct data as [[| | | | |members]|]; try discriminate H.
  match type of H with bind ?m _ = _ => destruct m as [fields|e'] eqn:E end;
    [|discriminate H].
  injection H as <-. exists members, fields. split; [reflexivity|]. split; [reflexivity|].
  revert fields E. induction shape as [|[key inner] r IH]; intros fields E.
  - injection E as <-. constructor.
  - destruct (_parse inner (JS.get (JObj members) key) (path ++ [key])) as [v|e1] eqn:E1;
      cbn [bind] in E; [|discriminate E].
    match type of E with bind ?m _ = _ => destruct m as [vs|e2] end;
      [|discriminate E].
    injection E as <-. constructor.
    + split; [reflexivity | exact E1].
    + exact (IH vs eq_refl).
Qed.

Lemma object_schema_fields_witness :
  exists fields,
    PObject [("scope", PString "practice"); ("ttlSeconds", PUndefined)] = PObject fields
    /\ map fst fields = ["scope"; "ttlSeconds"].
Proof.
  destruct (object_schema_fields
              [("scope",
                StringSchema (string_default "practice" (Zod.min 1 Zod.string_)));
               ("ttlSeconds",
                OptionalSchema
                  (NumberSchema true (Some (Num.Dec 1 0)) (Some (Num.Dec 600 0))))]
              (Some (JObj [("extra", JBool true)])) []
              (PObject [("scope", PString "practice"); ("ttlSeconds", PUndefined)])
              eq_refl)
    as [members [fields [_ [H2 H3]]]].
  exists fields. split; [exact H2|].
  injection H2 as <-. reflexivity.
Defined.

End SchemaProperties.

(* ================================================================= *)
(** ** The route [POST /api/session] *)

Module RouteProperties.
Import SessionToken BasicAuth Route Schema Api.

(** *** The body *)

Lemma safeParse_total sch data : exists r, safeParse sch data = Return r.
Proof.
  unfold safeParse. destruct (_parse sch data []) as [value|e] eqn:E.
  - eexists. reflexivity.
  - destruct (SchemaProperties.parse_throws_issue _ _ _ _ E) as [issue ->].
    eexists. reflexivity.
Qed.

Lemma parseRequestBody_body_value req :
  parseRequestBody req = safeParse sessionRequestSchema (Some (body_value req)).
Proof.
  unfold parseRequestBody, body_value, empty_object.
  destruct (content_type req) as [value|]; [|reflexivity].
  destruct (includes "application/json" value); [|reflexivity].
  cbn [negb]. destruct (request_json req) as [json|e]; cbn [bind try_catch].
  - replace (or_empty_object json)
      with (Some match json with JNull => JObj [] | _ => json end)
      by (destruct json; reflexivity).
    destruct (safeParse_total sessionRequestSchema
                (Some match json with JNull => JObj [] | _ => json end)) as [r ->].
    destruct json; reflexivity.
  - reflexivity.
Qed.

Lemma validated_scope data r :
  Zod.parse_string (string_default "practice" (Zod.min 1 Zod.string_)) data ["scope"]
  = Return r ->
  r <> "" /\ (data = None /\ r = "practice" \/ data = Some (JStr r)).
Proof.
  unfold Zod.parse_string. destruct data as [v|].
  - destruct v as [| | |str| |]; cbn [JS.as_string]; try discriminate.
    cbn [Zod.minLength string_default Zod.min Zod.refinements Zod.string_
         Zod.check_refinements bind].
    destruct (Str.len str <? 1) eqn:E; [discriminate|].
    intros H. injection H as <-. split; [|right; reflexivity].
    intros ->. discriminate E.
  - cbn. intros H. injection H as <-. split; [discriminate | left; split; reflexivity].
Qed.

Lemma validated_ttl data path n :
  parse_number true (Some (Num.Dec 1 0)) (Some (Num.Dec 600 0)) data path = Return n ->
  data = Some (JNum n)
  /\ exists z k, n = Num.Dec (z * Num.pow10 k) k /\ 1 <= z <= 600.
Proof.
  unfold parse_number. intros H.
  destruct data as [[| |x| | |]|]; try discriminate H.
  destruct x as [m k| |[|]]; cbn [isNaN isInteger andb negb] in H; try discriminate H.
  destruct (m mod Num.pow10 k =? 0) eqn:Ei; cbn [negb] in H; [|discriminate H].
  rewrite SchemaProperties.lt_dec, SchemaProperties.dec_lt in H.
  destruct (m <? 1 * Num.pow10 k) eqn:E1; [discriminate H|].
  destruct (600 * Num.pow10 k <? m) eqn:E2; [discriminate H|].
  injection H as <-. split; [reflexivity|].
  destruct (proj1 (SchemaProperties.isInteger_spec m k) Ei) as [z ->].
  exists z, k. split; [reflexivity|].
  pose proof (SchemaProperties.pow10_pos k). apply Z.ltb_ge in E1, E2. nia.
Qed.

(** What the request schema lets through. *)
Lemma validated_inv data value :
  safeParse sessionRequestSchema data = Return (Success value) ->
  exists members scope ttl,
    data = Some (JObj members)
    /\ value = PObject [("scope", PString scope); ("ttlSeconds", ttl)]
    /\ scope <> ""
    /\ (JSON.lookup "scope" members = None /\ scope = "practice"
        \/ JSON.lookup "scope" members = Some (JStr scope))
    /\ (JSON.lookup "ttlSeconds" members = None /\ ttl = PUndefined
        \/ exists z k,
             JSON.lookup "ttlSeconds" members = Some (JNum (Num.Dec (z * Num.pow10 k) k))
             /\ ttl = PNumber (Num.Dec (z * Num.pow10 k) k) /\ 1 <= z <= 600).
Proof.
  unfold safeParse, sessionRequestSchema. cbn [_parse].
  destruct data as [[| | | | |members]|]; try discriminate.
  cbn [JS.get List.app].
  destruct (Zod.parse_string _ (JSON.lookup "scope" members) ["scope"]) as [scope|e]
    eqn:Es; cbn [bind]; [|destruct e; discriminate].
  destruct (validated_scope _ _ Es) as [Hne Hs].
  destruct (JSON.lookup "ttlSeconds" members) as [t|] eqn:Et; cbn [bind].
  - destruct (parse_number _ _ _ (Some t) ["ttlSeconds"]) as [n|e] eqn:En; cbn [bind];
      [|destruct e; discriminate].
    intros H. injection H as <-.
    destruct (validated_ttl _ _ _ En) as [Hd [z [k [-> Hz]]]]. injection Hd as ->.
    exists members, scope, (PNumber (Num.Dec (z * Num.pow10 k) k)).
    repeat (split; [first [reflexivity | assumption]|]).
    right. exists z, k. split; [exact Et|]. split; [reflexivity | exact Hz].
  - intros H. injection H as <-.
    exists members, scope, PUndefined.
    repeat (split; [first [reflexivity | assumption]|]).
    left. split; [exact Et | reflexivity].
Qed.

(** Property X18: what a validated body is.  [parseRequestBody] never throws.
    When it succeeds, the data has the two keys of the schema: a scope that is
    not the empty string, the body's or ["practice"] when the body has none,
    and a TTL that is [undefined] when the body has none and otherwise a whole
    number of seconds between 1 and 600. *)
Theorem parseRequestBody_data req :
  (exists issue, parseRequestBody req = Return (Failure [issue]))
  \/ (exists scope ttl,
        parseRequestBody req
        = Return (Success (PObject [("scope", PString scope); ("ttlSeconds", ttl)]))
        /\ scope <> ""
        /\ (ttl = PUndefined
            \/ exists z k, ttl = PNumber (Num.Dec (z * Num.pow10 k) k) /\ 1 <= z <= 600)).
Proof.
  rewrite parseRequestBody_body_value.
  destruct (safeParse sessionRequestSchema (Some (body_value req))) as [[value|issues]|e]
    eqn:E.
  - right. destruct (validated_inv _ _ E) as [members [scope [ttl [_ [-> [Hs [_ Ht]]]]]]].
    exists scope, ttl. split; [reflexivity|]. split; [exact Hs|].
    destruct Ht as [[_ ->] | [z [k [_ [-> Hz]]]]]; [left; reflexivity|].
    right. exists z, k. split; [reflexivity | exact Hz].
  - left. unfold safeParse in E.
    destruct (_parse sessionRequestSchema (Some (body_value req)) []) as [v|e] eqn:Ep;
      [discriminate E|].
    destruct (SchemaProperties.parse_throws_issue _ _ _ _ Ep) as [issue ->].
    injection E as <-. exists issue. reflexivity.
  - exfalso. unfold safeParse in E.
    destruct (_parse sessionRequestSchema (Some (body_value req)) []) as [v|e'] eqn:Ep;
      [discriminate E|].
    destruct (SchemaProperties.parse_throws_issue _ _ _ _ Ep) as [issue ->].
    discriminate E.
Qed.

(** Property X19: a body that is not JSON counts as none.  When the request
    does not announce JSON, or its body is no JSON text, or is the text
    [null], the body is validated as the empty object and the defaults come
    out: the scope ["practice"] and no TTL.  Such a request is never answered
    400. *)
Theorem parseRequestBody_defaults req :
  (forall value, content_type req = Some value ->
                 includes "application/json" value = false)
  \/ (exists e, request_json req = Throw e)
  \/ request_json req = Return JNull ->
  parseRequestBody req
  = Return (Success (PObject [("scope", PString "practice"); ("ttlSeconds", PUndefined)])).
Proof.
  intros H. unfold parseRequestBody.
  destruct (content_type req) as [value|]; [|reflexivity].
  destruct (includes "application/json" value) eqn:Ei; [|reflexivity].
  cbn [negb]. destruct H as [H | [[e H] | H]].
  - rewrite (H value eq_refl) in Ei. discriminate Ei.
  - rewrite H. reflexivity.
  - rewrite H. reflexivity.
Qed.

Lemma parseRequestBody_defaults_witness :
  parseRequestBody (json_request "{not json")
  = Return (Success (PObject [("scope", PString "practice"); ("ttlSeconds", PUndefined)])).
Proof.
  apply (parseRequestBody_defaults (json_request "{not json")).
  right. left. eexists. vm_compute. reflexivity.
Defined.

(** *** The credentials *)

Lemma verifyAppPassword_some env password :
  fst (verifyAppPassword env (Some password)) = true
  <-> APP_PASSWORD env = Some password /\ password <> "".
Proof.
  unfold verifyAppPassword.
  destruct (APP_PASSWORD env) as [[|c expected]|].
  - split; [discriminate|]. intros [H Hne]. injection H as <-. contradiction.
  - rewrite CredentialGate.timingSafeCompare_spec. cbn [or_default]. split.
    + intros H. destruct (_ =? _)%nat; [|discriminate H]. cbn [fst] in H.
      apply String.eqb_eq in H. subst password. split; [reflexivity | discriminate].
    + intros [H _]. injection H as <-. rewrite Nat.eqb_refl. apply String.eqb_refl.
  - split; [discriminate|]. intros [H _]. discriminate H.
Qed.

Lemma POST_authenticated env req :
  password_authenticated env req ->
  POST env req = (requestBody <- parseRequestBody req ;; answer env requestBody)%js.
Proof.
  intros [header [credentials [Ha [Hb [Hp [He Hne]]]]]]. unfold POST. rewrite Ha.
  destruct header as [|c r]; [discriminate Hp|].
  rewrite Hb, Hp.
  rewrite (proj2 (verifyAppPassword_some env (password credentials)) (conj He Hne)).
  reflexivity.
Qed.

Lemma answer_not_unauthorized env requestBody :
  answer env requestBody <> Return unauthorizedResponse.
Proof.
  unfold answer. destruct requestBody as [data|issues]; [|discriminate].
  destruct (createSessionToken _ _) as [created|e]; cbn [bind]; [|discriminate].
  destruct (Zod.parse _ _) as [response|e]; cbn [bind]; discriminate.
Qed.

(** Property X20: one answer for every failure of the credentials.  A request
    that is not a bearer request is answered 401 "Unauthorized" exactly when
    it does not carry the configured password in a Basic header: whether the
    header is absent, is no Basic header, does not decode to [user:password],
    or carries another password, or no password is configured at all, the
    answer is the same, and the body of the request plays no part in it. *)
Theorem POST_unauthorized_iff env req :
  (forall header,
     authorization req = Some header ->
     Str.startsWith "bearer " (Str.toLowerCase header) = false) ->
  POST env req = Return unauthorizedResponse <-> ~ password_authenticated env req.
Proof.
  intros Hb. split.
  - intros H Ha. rewrite (POST_authenticated env req Ha) in H.
    destruct (parseRequestBody req) as [requestBody|e]; cbn [bind] in H; [|discriminate H].
    exact (answer_not_unauthorized _ _ H).
  - intros Hn. unfold POST.
    destruct (authorization req) as [[|c r]|] eqn:Ea; try reflexivity.
    rewrite (Hb _ eq_refl).
    destruct (parseBasicAuthHeader (Some (String c r))) as [credentials|] eqn:Ep;
      [|reflexivity].
    destruct (fst (verifyAppPassword env (Some (password credentials)))) eqn:Ev;
      [|reflexivity].
    exfalso. apply Hn. apply verifyAppPassword_some in Ev. destruct Ev as [He Hne].
    exists (String c r), credentials.
    repeat split; try assumption. apply Hb; reflexivity.
Qed.

Lemma POST_unauthorized_iff_witness :
  POST env1 (mkRequest (Some "Basic eDp3cm9uZw==") None "") = Return unauthorizedResponse.
Proof.
  apply (POST_unauthorized_iff env1 (mkRequest (Some "Basic eDp3cm9uZw==") None "")).
  - intros header H. injection H as <-. reflexivity.
  - intros [header [credentials [Ha [_ [Hp [He _]]]]]].
    injection Ha as <-. vm_compute in Hp. injection Hp as <-. discriminate He.
Defined.

(** *** Minting *)

Lemma response_valid token expiresAt scope t :
  token <> "" -> scope <> "" -> JSDate.parse expiresAt = Some t ->
  Zod.parse sessionResponseSchema (Some (token_body token expiresAt scope))
  = Return (token_body token expiresAt scope).
Proof.
  intros Ht Hs Hp.
  unfold Zod.parse, Zod.parse_object, sessionResponseSchema, token_body.
  cbn [Zod.parse_shape app JS.get JSON.lookup String.eqb Ascii.eqb Bool.eqb].
  unfold Zod.parse_string.
  cbn [JS.as_string Zod.minLength Zod.refinements Zod.defaultValue Zod.min Zod.refine
       Zod.string_ app Zod.check_refinements].
  rewrite (Handler.len_nonempty token Ht), (Handler.len_nonempty scope Hs), Hp.
  reflexivity.
Qed.

Lemma signPayload_nonempty payload secret : signPayload payload secret <> "".
Proof. rewrite Minting.signPayload_signed. discriminate. Qed.

Lemma nonblank_nonempty scope : Str.trim scope <> "" -> scope <> "".
Proof. intros H ->. apply H. reflexivity. Qed.

(** With the clock at a date of this era, a scope that is not blank and a
    TTL that the request schema lets through, a token is minted. *)
Lemma create_succeeds env scope ttl :
  Str.trim scope <> "" ->
  Num.le ttl (Num.Dec 0 0) = false -> ttl <> Num.NaN ->
  0 <= clock env <= JSDate.max_time - 300000 ->
  forall given, or_default given DEFAULT_TTL_SECONDS = ttl ->
  exists expiresAt t,
    createSessionToken env (CreateSessionTokenOptions.mk scope given None None)
    = Return
        (mkCreated
           (signPayload (createdPayload env scope ttl (clock env)) (getSigningSecret env))
           scope expiresAt)
    /\ JSDate.of_number
         (Num.mul (SessionTokenPayload.exp (createdPayload env scope ttl (clock env)))
            (Num.Dec 1000 0)) = Some t
    /\ JSDate.toISOString (Some t) = Return expiresAt
    /\ JSDate.parse expiresAt = Some t.
Proof.
  intros Hs Hl Hn Hc given Hg. unfold createSessionToken.
  cbn [CreateSessionTokenOptions.scope CreateSessionTokenOptions.ttlSeconds
       CreateSessionTokenOptions.now CreateSessionTokenOptions.secret or_default].
  rewrite Hg.
  rewrite (Minting.trim_nonempty scope Hs).
  replace (String.eqb (Str.trim scope) "") with false
    by (symmetry; apply StrFacts.eqb_empty; exact Hs).
  cbn [orb]. rewrite Hl.
  assert (Hd : exists t,
             JSDate.of_number
               (Num.mul (SessionTokenPayload.exp (createdPayload env scope ttl (clock env)))
                  (Num.Dec 1000 0)) = Some t).
  { unfold createdPayload. cbn [SessionTokenPayload.exp].
    destruct (Minting.bounded_ttl ttl Hl Hn) as [m [k [-> Hm]]].
    unfold Num.of_Z. rewrite Minting.add_int. cbn [Num.mul JSDate.of_number].
    rewrite Nat.add_0_r.
    pose proof (SchemaProperties.pow10_pos k) as Hp.
    assert (Hi : 0 <= clock env / 1000 /\ clock env / 1000 * 1000 <= clock env) by zdiv.
    set (i := clock env / 1000) in *. set (p := Num.pow10 k) in *.
    unfold JSDate.max_time in *.
    replace (Z.abs ((i * p + m) * 1000) <=? 8640000000000000 * p) with true.
    - eexists. reflexivity.
    - symmetry. apply Z.leb_le. rewrite Z.abs_eq by nia. nia. }
  destruct Hd as [t Hd]. rewrite Hd.
  destruct (DateFacts.parse_toISOString t (Handler.of_number_valid _ _ Hd))
    as [iso [Eiso Eparse]].
  rewrite Eiso. cbn [bind]. exists iso, t.
  split; [reflexivity|]. split; [reflexivity|]. split; assumption.
Qed.

Lemma create_blank env scope ttl now secret :
  Str.trim scope = "" ->
  createSessionToken env (CreateSessionTokenOptions.mk scope ttl now secret)
  = Throw (TokenInvalidError "Scope is required").
Proof.
  intros H. unfold createSessionToken. cbn [CreateSessionTokenOptions.scope].
  rewrite H. cbn [String.eqb]. rewrite orb_true_r. reflexivity.
Qed.

Lemma whole_ttl z k : 1 <= z -> Num.le (Num.Dec (z * Num.pow10 k) k) (Num.Dec 0 0) = false.
Proof.
  intros H. unfold Num.le. rewrite Minting.pow10_0. apply Z.leb_gt.
  pose proof (SchemaProperties.pow10_pos k). nia.
Qed.

(** Property X21: the one exception of the handler.  With the clock at a date
    of this era, the handler throws in one case only: the credentials have
    passed and the body gives a scope that is not empty but is white space all
    through, which the schema lets through and [createSessionToken] refuses.
    No handler catches that [TokenInvalidError]: the request gets no answer of
    the handler. *)
Theorem POST_throws_blank_scope env req e :
  0 <= clock env <= JSDate.max_time - 300000 ->
  POST env req = Throw e ->
  e = TokenInvalidError "Scope is required"
  /\ password_authenticated env req
  /\ exists members scope,
       body_value req = JObj members
       /\ JSON.lookup "scope" members = Some (JStr scope)
       /\ scope <> "" /\ Str.trim scope = "".
Proof.
  intros Hc H.
  assert (Ha : password_authenticated env req).
  { unfold POST in H.
    destruct (authorization req) as [[|c r]|] eqn:Ea; try discriminate H.
    destruct (Str.startsWith "bearer " (Str.toLowerCase (String c r))) eqn:Eb;
      [discriminate H|].
    destruct (parseBasicAuthHeader (Some (String c r))) as [credentials|] eqn:Ep;
      [|discriminate H].
    destruct (fst (verifyAppPassword env (Some (password credentials)))) eqn:Ev;
      [|discriminate H].
    apply verifyAppPassword_some in Ev. destruct Ev as [He Hne].
    exists (String c r), credentials. repeat split; assumption. }
  rewrite (POST_authenticated env req Ha), parseRequestBody_body_value in H.
  destruct (safeParse sessionRequestSchema (Some (body_value req)))
    as [[value|issues]|e'] eqn:E; cbn [bind answer] in H.
  - destruct (validated_inv _ _ E) as [members [scope [ttl [Hd [-> [Hne [Hs Ht]]]]]]].
    injection Hd as Hd.
    change (scope_of (PObject [("scope", PString scope); ("ttlSeconds", ttl)]))
      with scope in H.
    destruct (String.eqb (Str.trim scope) "") eqn:Eblank.
    + apply String.eqb_eq in Eblank. rewrite (create_blank env scope _ _ _ Eblank) in H.
      cbn [bind] in H. injection H as <-. split; [reflexivity|]. split; [exact Ha|].
      exists members, scope. split; [exact Hd|]. split; [|split; assumption].
      destruct Hs as [[_ ->] | Hs]; [discriminate Eblank | exact Hs].
    + exfalso. apply StrFacts.eqb_empty in Eblank.
      assert (Hok : exists n,
                 or_default
                   (ttlSeconds_of (PObject [("scope", PString scope); ("ttlSeconds", ttl)]))
                   DEFAULT_TTL_SECONDS = n
                 /\ Num.le n (Num.Dec 0 0) = false /\ n <> Num.NaN).
      { destruct Ht as [[_ ->] | [z [k [_ [-> Hz]]]]].
        - exists (Num.Dec 60 0). repeat split; discriminate.
        - exists (Num.Dec (z * Num.pow10 k) k). split; [reflexivity|].
          split; [apply whole_ttl; lia | discriminate]. }
      destruct Hok as [n [Hn [Hl Hnan]]].
      destruct (create_succeeds env scope n Eblank Hl Hnan Hc _ Hn)
        as [expiresAt [t [Ecreate [_ [_ Eparse]]]]].
      rewrite Ecreate in H. cbn [bind token SessionToken.expiresAt] in H.
      change (JObj [("token", JStr ?a); ("expiresAt", JStr ?b); ("scope", JStr ?c)])
        with (token_body a b c) in H.
      rewrite (response_valid _ _ _ t (signPayload_nonempty _ _) Hne Eparse) in H.
      discriminate H.
  - discriminate H.
  - unfold safeParse in E.
    destruct (_parse sessionRequestSchema (Some (body_value req)) []) as [v|e0] eqn:Ep;
      [discriminate E|].
    destruct (SchemaProperties.parse_throws_issue _ _ _ _ Ep) as [issue ->].
    discriminate E.
Qed.

Lemma POST_throws_blank_scope_witness :
  POST env1 (json_request blank_scope_body)
  = Throw (TokenInvalidError "Scope is required").
Proof.
  destruct (POST env1 (json_request blank_scope_body)) as [r|e] eqn:E.
  - vm_compute in E. discriminate E.
  - destruct (POST_throws_blank_scope env1 (json_request blank_scope_body) e) as [-> _].
    + cbn [clock env1]. unfold JSDate.max_time. lia.
    + exact E.
    + reflexivity.
Defined.

Lemma requested_ttl ttl :
  (forall z, ttl = Some z -> 1 <= z <= 600) ->
  or_default (option_map (fun z => Num.Dec z 0) ttl) DEFAULT_TTL_SECONDS
  = Num.Dec (or_default ttl 60) 0
  /\ 1 <= or_default ttl 60 <= 600.
Proof.
  intros Hz. destruct ttl as [z|]; cbn [option_map or_default].
  - split; [reflexivity | exact (Hz z eq_refl)].
  - split; [reflexivity | lia].
Qed.

Lemma nonblank_scope scope :
  (forall s, scope = Some s -> Str.trim s <> "") ->
  Str.trim (or_default scope "practice") <> "".
Proof.
  intros H. destruct scope as [s|]; cbn [or_default]; [exact (H s eq_refl) | discriminate].
Qed.

(** The minting of [POST], for a valid scope and a valid TTL. *)
Lemma minting env scope ttl :
  (forall s, scope = Some s -> Str.trim s <> "") ->
  (forall z, ttl = Some z -> 1 <= z <= 600) ->
  0 <= clock env <= JSDate.max_time - 300000 ->
  exists expiresAt,
    createSessionToken env
      (CreateSessionTokenOptions.mk (or_default scope "practice")
         (option_map (fun z => Num.Dec z 0) ttl) None None)
    = Return
        (mkCreated (signPayload (minted env scope ttl) (getSigningSecret env))
           (or_default scope "practice") expiresAt)
    /\ JSDate.toISOString (Some ((clock env / 1000 + lifetime ttl) * 1000))
       = Return expiresAt
    /\ JSDate.parse expiresAt = Some ((clock env / 1000 + lifetime ttl) * 1000).
Proof.
  intros Hne Hz Hc.
  destruct (requested_ttl ttl Hz) as [Hn Hr].
  pose proof (nonblank_scope scope Hne) as Hs.
  assert (Hl : Num.le (Num.Dec (or_default ttl 60) 0) (Num.Dec 0 0) = false).
  { unfold Num.le. rewrite Minting.pow10_0. apply Z.leb_gt. lia. }
  assert (Hnan : Num.Dec (or_default ttl 60) 0 <> Num.NaN) by discriminate.
  destruct (create_succeeds env (or_default scope "practice")
              (Num.Dec (or_default ttl 60) 0) Hs Hl Hnan Hc
              (option_map (fun z => Num.Dec z 0) ttl) Hn)
    as [expiresAt [t [Ecreate [Ed [Eiso Eparse]]]]].
  rewrite Minting.createdPayload_int in Ecreate, Ed by lia.
  cbn [SessionTokenPayload.exp] in Ed.
  rewrite TokenProperties.of_number_seconds in Ed.
  fold (lifetime ttl) in Ecreate, Ed.
  destruct (Z.abs _ <=? _) in Ed; [|discriminate Ed]. injection Ed as <-.
  exists expiresAt. split; [exact Ecreate|]. split; assumption.
Qed.

Lemma answer_minted env scope ttl expiresAt :
  (forall s, scope = Some s -> Str.trim s <> "") ->
  createSessionToken env
    (CreateSessionTokenOptions.mk (or_default scope "practice")
       (option_map (fun z => Num.Dec z 0) ttl) None None)
  = Return
      (mkCreated (signPayload (minted env scope ttl) (getSigningSecret env))
         (or_default scope "practice") expiresAt) ->
  JSDate.parse expiresAt = Some ((clock env / 1000 + lifetime ttl) * 1000) ->
  answer env
    (Success
       (PObject
          [("scope", PString (or_default scope "practice"));
           ("ttlSeconds",
            match ttl with
            | Some z => PNumber (Num.Dec z 0)
            | None => PUndefined
            end)]))
  = Return
      (mkResponse 200
         (token_body (signPayload (minted env scope ttl) (getSigningSecret env))
            expiresAt (or_default scope "practice"))).
Proof.
  intros Hne Hcreate Hparse. unfold answer.
  change (scope_of _) with (or_default scope "practice").
  replace (ttlSeconds_of _) with (option_map (fun z => Num.Dec z 0) ttl)
    by (destruct ttl; reflexivity).
  rewrite Hcreate. cbn [bind token SessionToken.expiresAt].
  change (JObj [("token", JStr ?a); ("expiresAt", JStr ?b); ("scope", JStr ?c)])
    with (token_body a b c).
  rewrite (response_valid _ _ _ _ (signPayload_nonempty _ _)
             (nonblank_nonempty _ (nonblank_scope scope Hne)) Hparse).
  reflexivity.
Qed.

Lemma validated members scope ttl :
  JSON.lookup "scope" members = scope_member scope ->
  (forall s, scope = Some s -> s <> "") ->
  JSON.lookup "ttlSeconds" members = ttl_member ttl ->
  (forall z, ttl = Some z -> 1 <= z <= 600) ->
  safeParse sessionRequestSchema (Some (JObj members))
  = Return
      (Success
         (PObject
            [("scope", PString (or_default scope "practice"));
             ("ttlSeconds",
              match ttl with
              | Some z => PNumber (Num.Dec z 0)
              | None => PUndefined
              end)])).
Proof.
  intros Hs Hne Ht Hz. unfold safeParse, sessionRequestSchema. cbn [_parse JS.get List.app].
  rewrite Hs, Ht.
  assert (E1 : Zod.parse_string (string_default "practice" (Zod.min 1 Zod.string_))
                 (scope_member scope) ["scope"]
               = Return (or_default scope "practice")).
  { destruct scope as [s|]; [|reflexivity].
    unfold Zod.parse_string. cbn [scope_member option_map JS.as_string].
    cbn [Zod.minLength string_default Zod.min Zod.refinements Zod.string_
         Zod.check_refinements bind or_default].
    rewrite (Handler.len_nonempty s (Hne s eq_refl)). reflexivity. }
  rewrite E1. cbn [bind].
  destruct ttl as [z|]; cbn [ttl_member option_map bind]; [|reflexivity].
  pose proof (Hz z eq_refl) as Hr.
  unfold parse_number. cbn [isNaN isInteger].
  rewrite Minting.pow10_0, Z.mod_1_r. cbn [Z.eqb negb andb].
  rewrite SchemaProperties.lt_dec, SchemaProperties.dec_lt, Minting.pow10_0.
  replace (z <? 1 * 1) with false by (symmetry; apply Z.ltb_ge; lia).
  replace (600 * 1 <? z) with false by (symmetry; apply Z.ltb_ge; lia).
  reflexivity.
Qed.

(** Property X22: what is minted.  A request with the configured password,
    whose body gives a scope that is not blank, or none, and a whole TTL
    between 1 and 600 seconds, or none, is answered 200 with a token for that
    scope, or for ["practice"], signed with the process's secret, issued at
    the clock's second and expiring [min(ttl, 300)] seconds later, 60 when no
    TTL is given: the schema admits ten minutes, the token lives five at most.
    The [expiresAt] of the answer reads back as that expiry. *)
Theorem POST_mints env req members scope ttl :
  password_authenticated env req ->
  body_value req = JObj members ->
  JSON.lookup "scope" members = scope_member scope ->
  (forall s, scope = Some s -> Str.trim s <> "") ->
  JSON.lookup "ttlSeconds" members = ttl_member ttl ->
  (forall z, ttl = Some z -> 1 <= z <= 600) ->
  0 <= clock env <= JSDate.max_time - 300000 ->
  exists expiresAt,
    POST env req
    = Return
        (mkResponse 200
           (token_body (signPayload (minted env scope ttl) (getSigningSecret env))
              expiresAt (or_default scope "practice")))
    /\ JSDate.parse expiresAt = Some ((clock env / 1000 + lifetime ttl) * 1000).
Proof.
  intros Ha Hb Hs Hne Ht Hz Hc.
  destruct (minting env scope ttl Hne Hz Hc) as [expiresAt [Hcreate [_ Hparse]]].
  exists expiresAt. split; [|exact Hparse].
  rewrite (POST_authenticated env req Ha), parseRequestBody_body_value, Hb.
  rewrite (validated members scope ttl Hs
             (fun s H => nonblank_nonempty s (Hne s H)) Ht Hz).
  cbn [bind]. exact (answer_minted env scope ttl expiresAt Hne Hcreate Hparse).
Qed.

Lemma env1_authenticated content body :
  password_authenticated env1 (mkRequest basic_x content body).
Proof.
  exists "Basic eDpjb3JyZWN0LXBhc3N3b3Jk", (mkCredentials "x" "correct-password").
  repeat split; try reflexivity. discriminate.
Qed.

Lemma POST_mints_witness :
  exists expiresAt,
    POST env1 (json_request lecture_body)
    = Return
        (mkResponse 200
           (token_body
              (signPayload (minted env1 (Some "lecture") (Some 600)) "correct-password")
              expiresAt "lecture"))
    /\ JSDate.parse expiresAt = Some 1704067500000.
Proof.
  apply (POST_mints env1 (json_request lecture_body)
           [("scope", JStr "lecture"); ("ttlSeconds", JNum (Num.Dec 600 0))]
           (Some "lecture") (Some 600)).
  - apply env1_authenticated.
  - vm_compute. reflexivity.
  - reflexivity.
  - intros s H. injection H as <-. vm_compute. discriminate.
  - reflexivity.
  - intros z H. injection H as <-. lia.
  - cbn [clock env1]. unfold JSDate.max_time. lia.
Defined.

(** *** A token comes back *)

Lemma ws_prefix_plain c r : starts_space c = false -> Str.ws_prefix (String c r) = O.
Proof.
  destruct c as [[] [] [] [] [] [] [] []]; intros H; try discriminate H; reflexivity.
Qed.

Lemma blank_plain c r : starts_space c = false -> Str.blank (String c r) = false.
Proof.
  intros H. unfold Str.blank. cbn [String.length Str.blank_fuel].
  rewrite (ws_prefix_plain c r H). reflexivity.
Qed.

Lemma trimEnd_spaceless s : spaceless s = true -> Str.trimEnd s = s.
Proof.
  induction s as [|c r IH]; [reflexivity|]. cbn [spaceless]. intros H.
  apply andb_true_iff in H. destruct H as [Hc Hr]. apply negb_true_iff in Hc.
  cbn [Str.trimEnd]. rewrite (blank_plain c r Hc), (IH Hr). reflexivity.
Qed.

Lemma trim_spaceless s : spaceless s = true -> Str.trim s = s.
Proof.
  intros H. unfold Str.trim.
  replace (Str.trimStart_fuel (String.length s) s) with s.
  - apply trimEnd_spaceless. exact H.
  - destruct s as [|c r]; [reflexivity|]. cbn [spaceless] in H.
    apply andb_true_iff in H. destruct H as [Hc _]. apply negb_true_iff in Hc.
    cbn [String.length Str.trimStart_fuel]. rewrite (ws_prefix_plain c r Hc). reflexivity.
Qed.

Lemma spaceless_append a b : spaceless (a ++ b) = spaceless a && spaceless b.
Proof.
  induction a as [|c r IH]; [reflexivity|]. cbn [append spaceless].
  rewrite IH, andb_assoc. reflexivity.
Qed.

Lemma url_char_spaceless v : 0 <= v < 64 -> starts_space (Base64.url_char v) = false.
Proof.
  revert v. apply Base64Facts.sextet_cases. intros n Hn. Base64Facts.each_sextet n.
Qed.

Import Base64Facts.

Lemma encode_url_spaceless s : spaceless (Base64.encode_url s) = true.
Proof.
  induction s as [|a|a b|a b c r IH] using string_ind3;
    cbn [Base64.encode_url spaceless]; rewrite ?IH;
    repeat match goal with
           | |- context [starts_space (Base64.url_char ?v)] =>
               rewrite (url_char_spaceless v) by sextet_range
           end; reflexivity.
Qed.

Lemma signPayload_spaceless payload secret : spaceless (signPayload payload secret) = true.
Proof.
  rewrite Minting.signPayload_signed. unfold signedToken, hmac_base64url.
  rewrite !spaceless_append, !encode_url_spaceless. reflexivity.
Qed.

(** The bearer branch on a token the process has minted, with whole
    seconds: the token's own response before the expiry, 401 from it on. *)
Lemma handleBearerToken_minted env jti scope iat exp :
  scope <> "" -> 0 < exp -> Z.abs iat < 10 ^ 21 -> Z.abs (exp * 1000) <= JSDate.max_time ->
  let token :=
    signPayload (SessionTokenPayload.mk jti scope (Num.Dec iat 0) (Num.Dec exp 0))
      (getSigningSecret env) in
  handleBearerToken env ("Bearer " ++ token)
  = if exp * 1000 <=? clock env
    then mkResponse 401 (error_body "Session token expired")
    else match JSDate.toISOString (Some (exp * 1000)) with
         | Return expiresAt => mkResponse 200 (token_body token expiresAt scope)
         | Throw _ => mkResponse 500 (error_body "Failed to validate session token")
         end.
Proof.
  intros Hne Hpos Hi Hx token. unfold handleBearerToken.
  change (Str.drop 7 ("Bearer " ++ token)) with token.
  rewrite (trim_spaceless token (signPayload_spaceless _ _)).
  replace (String.eqb token "") with false
    by (symmetry; apply StrFacts.eqb_empty; apply signPayload_nonempty).
  unfold token at 1.
  rewrite (TokenProperties.verify_signPayload env jti scope iat exp (getSigningSecret env)
             VerifySessionTokenOptions.empty eq_refl Hne);
    [|lia|exact Hi|unfold JSDate.max_time in Hx; lia].
  change (verificationTime env VerifySessionTokenOptions.empty) with (clock env).
  destruct (exp * 1000 <=? clock env); [reflexivity|].
  cbn [VerifySessionTokenOptions.requiredScope VerifySessionTokenOptions.empty permits bind].
  change (JS.get (SessionTokenPayload.to_json _) "exp") with (Some (JNum (Num.Dec exp 0))).
  change (JS.get (SessionTokenPayload.to_json _) "scope") with (Some (JStr scope)).
  cbn [JS.toNumber bind]. rewrite TokenProperties.of_number_seconds.
  replace (Z.abs (exp * 1000) <=? JSDate.max_time) with true
    by (symmetry; apply Z.leb_le; exact Hx).
  destruct (DateFacts.parse_toISOString (exp * 1000) Hx) as [iso [Eiso Eparse]].
  rewrite Eiso. cbn [bind object_literal].
  fold token.
  assert (E : Zod.parse sessionResponseSchema
                (Some (JObj [("token", JStr token); ("scope", JStr scope);
                             ("expiresAt", JStr iso)]))
              = Return (token_body token iso scope)).
  { unfold Zod.parse, Zod.parse_object, sessionResponseSchema, token_body.
    cbn [Zod.parse_shape app JS.get JSON.lookup String.eqb Ascii.eqb Bool.eqb].
    unfold Zod.parse_string.
    cbn [JS.as_string Zod.minLength Zod.refinements Zod.defaultValue Zod.min Zod.refine
         Zod.string_ app Zod.check_refinements].
    rewrite (Handler.len_nonempty token (signPayload_nonempty _ _)),
      (Handler.len_nonempty scope Hne), Eparse.
    reflexivity. }
  rewrite E. reflexivity.
Qed.

(** Property X23: a minted token renews itself.  The token of a 200 answer,
    sent back as a bearer token to a process with the same signing secret, is
    answered with the very answer that minted it, token, expiry and scope, at
    every instant before its expiry, whatever else the request holds; from the
    expiry on it is answered 401 "Session token expired".  Renewing never
    extends a token. *)
Theorem POST_renews env req members scope ttl :
  password_authenticated env req ->
  body_value req = JObj members ->
  JSON.lookup "scope" members = scope_member scope ->
  (forall s, scope = Some s -> Str.trim s <> "") ->
  JSON.lookup "ttlSeconds" members = ttl_member ttl ->
  (forall z, ttl = Some z -> 1 <= z <= 600) ->
  0 <= clock env <= JSDate.max_time - 300000 ->
  exists token expiresAt,
    POST env req
    = Return (mkResponse 200 (token_body token expiresAt (or_default scope "practice")))
    /\ forall env' content body,
         getSigningSecret env' = getSigningSecret env ->
         (clock env' < (clock env / 1000 + lifetime ttl) * 1000 ->
          POST env' (mkRequest (Some ("Bearer " ++ token)) content body) = POST env req)
         /\ ((clock env / 1000 + lifetime ttl) * 1000 <= clock env' ->
             POST env' (mkRequest (Some ("Bearer " ++ token)) content body)
             = Return (mkResponse 401 (error_body "Session token expired"))).
Proof.
  intros Ha Hb Hs Hne Ht Hz Hc.
  destruct (minting env scope ttl Hne Hz Hc) as [expiresAt [Hcreate [Hiso Hparse]]].
  assert (Hpost : POST env req
                  = Return
                      (mkResponse 200
                         (token_body
                            (signPayload (minted env scope ttl) (getSigningSecret env))
                            expiresAt (or_default scope "practice")))).
  { rewrite (POST_authenticated env req Ha), parseRequestBody_body_value, Hb.
    rewrite (validated members scope ttl Hs
               (fun s H => nonblank_nonempty s (Hne s H)) Ht Hz).
    cbn [bind]. exact (answer_minted env scope ttl expiresAt Hne Hcreate Hparse). }
  exists (signPayload (minted env scope ttl) (getSigningSecret env)), expiresAt.
  split; [exact Hpost|].
  intros env' content body Hsecret. rewrite Hpost.
  unfold POST. cbn [authorization].
  change (Str.startsWith "bearer " (Str.toLowerCase ("Bearer " ++ ?t))) with true.
  cbn [append].
  rewrite <- Hsecret. unfold minted.
  assert (Hl : 1 <= lifetime ttl <= 300).
  { unfold lifetime. destruct (requested_ttl ttl Hz) as [_ Hr]. lia. }
  assert (Hi : 0 <= clock env / 1000 /\ clock env / 1000 * 1000 <= clock env) by zdiv.
  unfold JSDate.max_time in Hc.
  pose proof (handleBearerToken_minted env' (randomUUID env) (or_default scope "practice")
                (clock env / 1000) (clock env / 1000 + lifetime ttl)) as Hh.
  cbn zeta in Hh. cbn [append] in Hh. rewrite Hh; clear Hh.
  - rewrite Hiso. split; intros Ht'.
    + replace (_ <=? clock env') with false by (symmetry; apply Z.leb_gt; exact Ht').
      reflexivity.
    + replace (_ <=? clock env') with true by (symmetry; apply Z.leb_le; exact Ht').
      reflexivity.
  - apply nonblank_nonempty, nonblank_scope. exact Hne.
  - lia.
  - lia.
  - unfold JSDate.max_time. lia.
Qed.

Lemma POST_renews_witness :
  exists token expiresAt,
    POST env1 (json_request lecture_body)
    = Return (mkResponse 200 (token_body token expiresAt "lecture"))
    /\ POST env1 (mkRequest (Some ("Bearer " ++ token)) None "")
       = POST env1 (json_request lecture_body).
Proof.
  destruct (POST_renews env1 (json_request lecture_body)
              [("scope", JStr "lecture"); ("ttlSeconds", JNum (Num.Dec 600 0))]
              (Some "lecture") (Some 600)) as [token [expiresAt [H1 H2]]].
  - apply env1_authenticated.
  - vm_compute. reflexivity.
  - reflexivity.
  - intros s H. injection H as <-. vm_compute. discriminate.
  - reflexivity.
  - intros z H. injection H as <-. lia.
  - cbn [clock env1]. unfold JSDate.max_time. lia.
  - exists token, expiresAt. split; [exact H1|].
    apply (proj1 (H2 env1 None "" eq_refl)). reflexivity.
Defined.

(** *** The answers to a request that has passed *)

(** Property X24: 400 or 200.  A request with the configured password that is
    answered at all is answered 400, when the body fails the schema, with the
    fixed error text and the one issue of the failure as a path and a message;
    or 200, with the token, the expiry and the scope that [createSessionToken]
    returned for the validated scope and TTL, and with nothing else. *)
Theorem POST_answers env req response :
  password_authenticated env req ->
  POST env req = Return response ->
  (exists issue,
     parseRequestBody req = Return (Failure [issue])
     /\ response
        = mkResponse 400
            (JObj [("error", JStr "Invalid request body");
                   ("issues",
                    JArr [JObj [("path", JArr (map JStr (issue_path issue)));
                                ("message", JStr (issue_message issue))]])]))
  \/ (exists data created,
        parseRequestBody req = Return (Success data)
        /\ createSessionToken env
             (CreateSessionTokenOptions.mk (scope_of data) (ttlSeconds_of data) None None)
           = Return created
        /\ scope created = scope_of data
        /\ response
           = mkResponse 200
               (token_body (token created) (expiresAt created) (scope created))).
Proof.
  intros Ha H. rewrite (POST_authenticated env req Ha) in H.
  destruct (parseRequestBody_data req) as [[issue E] | [s [ttl [E _]]]];
    rewrite E in H; cbn [bind answer] in H.
  - left. exists issue. split; [exact E|]. injection H as <-. reflexivity.
  - right.
    set (data := PObject [("scope", PString s); ("ttlSeconds", ttl)]) in *.
    destruct (createSessionToken env _) as [created|e] eqn:Ec; cbn [bind] in H;
      [|discriminate H].
    exists data, created. split; [exact E|]. split; [exact Ec|].
    destruct (TokenProperties.createSessionToken_return _ _ _ Ec) as [_ [_ [t [_ [_ Hcr]]]]].
    cbn [CreateSessionTokenOptions.scope] in Hcr.
    assert (Hsc : scope created = scope_of data) by (rewrite Hcr; reflexivity).
    split; [exact Hsc|].
    unfold Zod.parse, Zod.parse_object, sessionResponseSchema in H.
    cbn [Zod.parse_shape app JS.get JSON.lookup String.eqb Ascii.eqb Bool.eqb] in H.
    unfold Zod.parse_string in H.
    cbn [JS.as_string Zod.minLength Zod.refinements Zod.defaultValue Zod.min Zod.refine
         Zod.string_ app Zod.check_refinements] in H.
    destruct (Str.len (token created) <? 1); [discriminate H|].
    cbn [bind] in H.
    destruct (JSDate.parse (expiresAt created)); cbn [negb bind] in H; [|discriminate H].
    destruct (Str.len (scope_of data) <? 1); [discriminate H|].
    cbn [bind] in H. injection H as <-. rewrite Hsc. reflexivity.
Qed.

Lemma POST_answers_witness :
  parseRequestBody (json_request long_body)
  = Return (Failure [mkIssue ["ttlSeconds"] "Expected number <= 600"])
  /\ POST env1 (json_request long_body)
     = Return
         (mkResponse 400
            (JObj [("error", JStr "Invalid request body");
                   ("issues",
                    JArr [JObj [("path", JArr [JStr "ttlSeconds"]);
                                ("message", JStr "Expected number <= 600")]])])).
Proof.
  destruct (POST env1 (json_request long_body)) as [response|e] eqn:E;
    [|vm_compute in E; discriminate E].
  destruct (POST_answers env1 (json_request long_body) response
              (env1_authenticated _ _) E)
    as [[issue [H1 ->]] | [data [created [H1 _]]]].
  - vm_compute in H1. injection H1 as <-. split; reflexivity.
  - vm_compute in H1. discriminate H1.
Defined.

(** Property X25: the secret of a minted token.  The token of every 200
    answer to a request that is not a bearer request is signed, over a
    payload of the scope of the answer, with [REALTIME_SESSION_SECRET] or,
    when that is not set, with the very password the request carries in its
    Basic header: the development secret of the source signs no token that
    [POST] mints. *)
Theorem POST_signing_secret env req token expiresAt scope :
  (forall header,
     authorization req = Some header ->
     Str.startsWith "bearer " (Str.toLowerCase header) = false) ->
  POST env req = Return (mkResponse 200 (token_body token expiresAt scope)) ->
  exists header credentials payload,
    authorization req = Some header
    /\ parseBasicAuthHeader (Some header) = Some credentials
    /\ SessionTokenPayload.scope payload = scope
    /\ token
       = signPayload payload
           (or_default (REALTIME_SESSION_SECRET env) (password credentials)).
Proof.
  intros Hb H. unfold POST in H.
  destruct (authorization req) as [[|c r]|] eqn:Ea; try discriminate H.
  rewrite (Hb _ eq_refl) in H.
  destruct (parseBasicAuthHeader (Some (String c r))) as [credentials|] eqn:Ep;
    [|discriminate H].
  destruct (fst (verifyAppPassword env (Some (password credentials)))) eqn:Ev;
    [|discriminate H].
  cbn [negb] in H. apply verifyAppPassword_some in Ev. destruct Ev as [He _].
  destruct (parseRequestBody req) as [[data|issues]|e]; cbn [bind answer] in H;
    try discriminate H.
  destruct (createSessionToken env _) as [created|e] eqn:Ec; cbn [bind] in H;
    [|discriminate H].
  destruct (TokenProperties.createSessionToken_return _ _ _ Ec) as [_ [_ [t [_ [_ Hcr]]]]].
  cbn [CreateSessionTokenOptions.scope CreateSessionTokenOptions.ttlSeconds
       CreateSessionTokenOptions.now CreateSessionTokenOptions.secret or_default]
    in Hcr.
  unfold Zod.parse, Zod.parse_object, sessionResponseSchema in H.
  cbn [Zod.parse_shape app JS.get JSON.lookup String.eqb Ascii.eqb Bool.eqb] in H.
  unfold Zod.parse_string in H.
  cbn [JS.as_string Zod.minLength Zod.refinements Zod.defaultValue Zod.min Zod.refine
       Zod.string_ app Zod.check_refinements] in H.
  destruct (Str.len (SessionToken.token created) <? 1); [discriminate H|].
  cbn [bind] in H.
  destruct (JSDate.parse (SessionToken.expiresAt created)); cbn [negb bind] in H;
    [|discriminate H].
  destruct (Str.len (scope_of data) <? 1); [discriminate H|].
  cbn [bind] in H. unfold token_body in H. injection H as Ht _ Hs.
  exists (String c r), credentials,
    (createdPayload env (scope_of data)
       (or_default (ttlSeconds_of data) DEFAULT_TTL_SECONDS) (clock env)).
  split; [reflexivity|]. split; [exact Ep|]. split; [exact Hs|].
  rewrite <- Ht, Hcr. cbn [SessionToken.token]. unfold getSigningSecret. rewrite He.
  destruct (REALTIME_SESSION_SECRET env); reflexivity.
Qed.

Lemma POST_signing_secret_witness :
  exists token expiresAt payload,
    POST env1 plain_request = Return (mkResponse 200 (token_body token expiresAt "practice"))
    /\ token = signPayload payload "correct-password".
Proof.
  assert (E : POST env1 plain_request
              = Return
                  (mkResponse 200
                     (token_body (signPayload (minted env1 None None) "correct-password")
                        "2024-01-01T00:01:00.000Z" "practice")))
    by (vm_compute; reflexivity).
  assert (Hb : forall header,
             authorization plain_request = Some header ->
             Str.startsWith "bearer " (Str.toLowerCase header) = false).
  { intros header H. injection H as <-. reflexivity. }
  destruct (POST_signing_secret env1 plain_request _ _ _ Hb E)
    as [header [credentials [payload [Ha [Hp [_ Ht]]]]]].
  injection Ha as <-. vm_compute in Hp. injection Hp as <-.
  exists (signPayload (minted env1 None None) "correct-password"),
    "2024-01-01T00:01:00.000Z", payload.
  split; [exact E | exact Ht].
Defined.

End RouteProperties.
